(** * upgrade-tool: the bundle life cycle (creator, loader, cleaner, registry)

    A shallow embedding of the Go sources under [internal/]:
    [bundle_creator.go], [bundle_loader.go], [bundle_cleaner.go],
    [registry.go] and [metadata.go].  Go procedures that talk to the
    outside world (file system, CRI-O, the Kubernetes API, sub-processes)
    become functions in a small monad that threads a [World], returns a
    Go-style outcome (value, error or panic) and collects the events the
    procedure performed. *)

From Stdlib Require Import NArith ZArith Ascii String List Sorting.Sorted Permutation.
From stdpp Require Import base option list sorting gmap strings pretty.
Import ListNotations.

Local Open Scope string_scope.
Local Open Scope list_scope.


(** ** Strings as byte sequences *)

Module Str.

Definition bytes (s : string) : list ascii := list_ascii_of_string s.
Definition of_bytes (l : list ascii) : string := string_of_list_ascii l.

Definition slash : ascii := "/"%char.

  (** [split c l] cuts [l] at every occurrence of [c] (like [strings.Split]). *)
Fixpoint split_aux (c : ascii) (cur : list ascii) (l : list ascii) : list (list ascii) :=
    match l with
    | [] => [rev cur]
    | x :: l' => if Ascii.eqb x c then rev cur :: split_aux c [] l'
                 else split_aux c (x :: cur) l'
    end.
Definition split (c : ascii) (l : list ascii) : list (list ascii) := split_aux c [] l.

Fixpoint join (sep : list ascii) (parts : list (list ascii)) : list ascii :=
    match parts with
    | [] => []
    | [p] => p
    | p :: ps => p ++ sep ++ join sep ps
    end.

  (** Index of the first / last occurrence of [c], if any. *)
Fixpoint index (c : ascii) (l : list ascii) : option nat :=
    match l with
    | [] => None
    | x :: l' => if Ascii.eqb x c then Some 0
                 else match index c l' with Some i => Some (S i) | None => None end
    end.

Fixpoint last_index (c : ascii) (l : list ascii) : option nat :=
    match l with
    | [] => None
    | x :: l' => match last_index c l' with
                 | Some i => Some (S i)
                 | None => if Ascii.eqb x c then Some 0 else None
                 end
    end.

Definition contains (c : ascii) (l : list ascii) : bool :=
    match index c l with Some _ => true | None => false end.

Fixpoint has_prefix (p l : list ascii) : bool :=
    match p, l with
    | [], _ => true
    | a :: p', b :: l' => Ascii.eqb a b && has_prefix p' l'
    | _ :: _, [] => false
    end.

Definition prefix (p s : string) : bool := has_prefix (bytes p) (bytes s).

End Str.

(** ** [path/filepath] on a Unix host

    The lexical functions the sources call.  [Clean] is the stack form of
    the standard algorithm: empty and [.] elements vanish, [..] removes the
    element before it when there is one to remove, is dropped at the root
    and is kept at the front of a relative path. *)

Module filepath.
Import Str.

Definition dot : list ascii := ["."%char].
Definition dotdot : list ascii := ["."%char; "."%char].

Definition is_dotdot (e : list ascii) : bool :=
    match e with
    | [a; b] => Ascii.eqb a "." && Ascii.eqb b "."
    | _ => false
    end.
Definition is_skipped (e : list ascii) : bool :=
    match e with
    | [] => true
    | [a] => Ascii.eqb a "."
    | _ => false
    end.

  (** The output elements are kept in reverse (last element first). *)
Fixpoint clean_elems (rooted : bool) (out : list (list ascii)) (elems : list (list ascii))
    : list (list ascii) :=
    match elems with
    | [] => rev out
    | e :: rest =>
        if is_skipped e then clean_elems rooted out rest
        else if is_dotdot e then
          match out with
          | top :: out' =>
              if is_dotdot top then clean_elems rooted (e :: out) rest
              else clean_elems rooted out' rest
          | [] => if rooted then clean_elems rooted [] rest
                  else clean_elems rooted [e] rest
          end
        else clean_elems rooted (e :: out) rest
    end.

Definition clean_bytes (p : list ascii) : list ascii :=
    match p with
    | [] => dot
    | c :: _ =>
        let rooted := Ascii.eqb c slash in
        let body := join [slash] (clean_elems rooted [] (split slash p)) in
        if rooted then slash :: body
        else match body with [] => dot | _ => body end
    end.

Definition Clean (path : string) : string := of_bytes (clean_bytes (bytes path)).

  (** [Join] ignores leading empty elements, joins the rest with a slash
      and cleans the result; it is the empty string when every element is. *)
Fixpoint Join (elem : list string) : string :=
    match elem with
    | [] => ""
    | e :: rest =>
        if String.eqb e "" then Join rest
        else Clean (of_bytes (join [slash] (map bytes elem)))
    end.

Fixpoint strip_trailing_slashes_rev (r : list ascii) : list ascii :=
    match r with
    | c :: r' => if Ascii.eqb c slash then strip_trailing_slashes_rev r' else r
    | [] => []
    end.

Fixpoint take_until_slash (r : list ascii) : list ascii :=
    match r with
    | c :: r' => if Ascii.eqb c slash then [] else c :: take_until_slash r'
    | [] => []
    end.

  (** [Base]: the last element of the path, trailing slashes removed. *)
Definition Base (path : string) : string :=
    match bytes path with
    | [] => "."
    | p =>
        match rev (take_until_slash (strip_trailing_slashes_rev (rev p))) with
        | [] => "/"
        | b => of_bytes b
        end
    end.

End filepath.

(** ** [encoding/hex] and [crypto/sha256] *)

Module hex.

Definition digit (n : N) : ascii :=
    match n with
    | 0 => "0" | 1 => "1" | 2 => "2" | 3 => "3" | 4 => "4" | 5 => "5" | 6 => "6" | 7 => "7"
    | 8 => "8" | 9 => "9" | 10 => "a" | 11 => "b" | 12 => "c" | 13 => "d" | 14 => "e"
    | _ => "f"
    end%N%char.

  (** [hex.EncodeToString]: two lowercase digits per byte, high nibble first. *)
Fixpoint EncodeToString (src : list N) : string :=
    match src with
    | [] => ""
    | b :: rest => String (digit (N.shiftr b 4)) (String (digit (N.land b 15)) (EncodeToString rest))
    end.

Definition is_lower_hex (c : ascii) : bool :=
    let n := N_of_ascii c in
    ((48 <=? n) && (n <=? 57) || (97 <=? n) && (n <=? 102))%N.

End hex.

Module sha256.
Local Open Scope N_scope.

Definition w32 (x : N) : N := x mod 4294967296.
Definition add32 (x y : N) : N := w32 (x + y).
Definition rotr (n x : N) : N := N.lor (N.shiftr x n) (w32 (N.shiftl x (32 - n))).
Definition not32 (x : N) : N := N.lxor x 4294967295.

Definition Ch (x y z : N) : N := N.lxor (N.land x y) (N.land (not32 x) z).
Definition Maj (x y z : N) : N := N.lxor (N.lxor (N.land x y) (N.land x z)) (N.land y z).
Definition Sigma0 (x : N) : N := N.lxor (N.lxor (rotr 2 x) (rotr 13 x)) (rotr 22 x).
Definition Sigma1 (x : N) : N := N.lxor (N.lxor (rotr 6 x) (rotr 11 x)) (rotr 25 x).
Definition sigma0 (x : N) : N := N.lxor (N.lxor (rotr 7 x) (rotr 18 x)) (N.shiftr x 3).
Definition sigma1 (x : N) : N := N.lxor (N.lxor (rotr 17 x) (rotr 19 x)) (N.shiftr x 10).

(** The round constants are the first 32 bits of the fractional parts of
    the cube roots of the first 64 primes; the initial chaining values are
    those of the square roots of the first 8. *)
Definition primes : list N :=
    [2; 3; 5; 7; 11; 13; 17; 19; 23; 29; 31; 37; 41; 43; 47; 53; 59; 61; 67; 71; 73; 79; 83; 89;
     97; 101; 103; 107; 109; 113; 127; 131; 137; 139; 149; 151; 157; 163; 167; 173; 179; 181;
     191; 193; 197; 199; 211; 223; 227; 229; 233; 239; 241; 251; 257; 263; 269; 271; 277; 281;
     283; 293; 307; 311].

Fixpoint cbrt_aux (bits : nat) (r n : N) : N :=
    match bits with
    | O => r
    | S b => let r' := N.lor r (N.shiftl 1 (N.of_nat b)) in
             if r' * r' * r' <=? n then cbrt_aux b r' n else cbrt_aux b r n
    end.
Definition cbrt (n : N) : N := cbrt_aux 40 0 n.

Definition K : list N :=
    Eval vm_compute in map (fun p => w32 (cbrt (N.shiftl p 96))) primes.

(** The eight working variables / chaining values. *)
Record state := State { ha : N; hb : N; hc : N; hd : N; he : N; hf : N; hg : N; hh : N }.

Definition init : state :=
    Eval vm_compute in
      let h := fun i => w32 (N.sqrt (N.shiftl (nth i primes 0) 64)) in
      State (h 0%nat) (h 1%nat) (h 2%nat) (h 3%nat) (h 4%nat) (h 5%nat) (h 6%nat) (h 7%nat).

  (** Big-endian bytes of a word; [n] bytes. *)
Fixpoint be_bytes (n : nat) (x : N) : list N :=
    match n with
    | O => []
    | S n' => N.land (N.shiftr x (8 * N.of_nat n')) 255 :: be_bytes n' x
    end.

Fixpoint be_word (l : list N) : N :=
    match l with
    | [] => 0
    | b :: rest => N.lor (N.shiftl b (8 * N.of_nat (length rest))) (be_word rest)
    end.

  (** Padding: a one bit, zeros up to 56 mod 64, the bit length on 8 bytes. *)
Definition pad (msg : list N) : list N :=
    let len := N.of_nat (length msg) in
    let zeros := N.to_nat ((119 - (len mod 64)) mod 64) in
    msg ++ [128] ++ repeat 0 zeros ++ be_bytes 8 (8 * len).

Fixpoint words (n : nat) (l : list N) : list N :=
    match n with
    | O => []
    | S n' => be_word (firstn 4 l) :: words n' (skipn 4 l)
    end.

  (** Message schedule; [w] holds the words computed so far, newest first. *)
Fixpoint schedule (n : nat) (w : list N) : list N :=
    match n with
    | O => rev w
    | S n' =>
        let x := add32 (add32 (sigma1 (nth 1 w 0)) (nth 6 w 0))
                       (add32 (sigma0 (nth 14 w 0)) (nth 15 w 0)) in
        schedule n' (x :: w)
    end.

Definition round (s : state) (kw : N * N) : state :=
    let t1 := add32 (add32 (add32 (hh s) (Sigma1 (he s))) (add32 (Ch (he s) (hf s) (hg s)) (fst kw)))
                    (snd kw) in
    let t2 := add32 (Sigma0 (ha s)) (Maj (ha s) (hb s) (hc s)) in
    State (add32 t1 t2) (ha s) (hb s) (hc s) (add32 (hd s) t1) (he s) (hf s) (hg s).

Definition block (s : state) (blk : list N) : state :=
    let w := schedule 48 (rev (words 16 blk)) in
    let r := fold_left round (combine K w) s in
    State (add32 (ha s) (ha r)) (add32 (hb s) (hb r)) (add32 (hc s) (hc r)) (add32 (hd s) (hd r))
          (add32 (he s) (he r)) (add32 (hf s) (hf r)) (add32 (hg s) (hg r)) (add32 (hh s) (hh r)).

Fixpoint blocks (n : nat) (s : state) (l : list N) : state :=
    match n with
    | O => s
    | S n' => blocks n' (block s (firstn 64 l)) (skipn 64 l)
    end.

  (** [Sum]: the 32 bytes of the digest of [msg]. *)
Definition Sum (msg : list N) : list N :=
    let p := pad msg in
    let s := blocks (Nat.div (length p) 64) init p in
    be_bytes 4 (ha s) ++ be_bytes 4 (hb s) ++ be_bytes 4 (hc s) ++ be_bytes 4 (hd s) ++
    be_bytes 4 (he s) ++ be_bytes 4 (hf s) ++ be_bytes 4 (hg s) ++ be_bytes 4 (hh s).

Definition Sum_string (data : string) : list N := Sum (map N_of_ascii (Str.bytes data)).

End sha256.

(** ** Image references ([distribution/reference], [go-digest])

    [ParseNamed] of the third-party parser, on the grammar of the package:

    - reference: name, then optionally a colon and a tag, then optionally
      an at sign and a digest;
    - name: a domain, a slash and a path, at most 255 bytes together;
    - domain: a host, then optionally a colon and decimal digits; a host
      is either a bracketed run of hexadecimal digits and colons, or
      components separated by dots, each made of letters, digits and inner
      hyphens;
    - path: components separated by slashes, each made of runs of
      lower-case letters and digits separated by one dot, one or two
      underscores, or hyphens;
    - tag: a letter, digit or underscore followed by at most 127 of those,
      dots and hyphens;
    - digest: an algorithm, a colon and lower-case hexadecimal digits: 64
      for [sha256], 96 for [sha384], 128 for [sha512] (the algorithms
      linked into the program).

    [ParseNamed] moreover rejects a name that normalisation would change:
    one without a registry domain (a first element without a dot, a colon
    or an upper-case letter that is not [localhost]), one on the legacy
    index domain, a one-element path on the default domain.  When the
    first element is not a domain of the grammar but the whole name is a
    path of it, the package parses the name with an empty domain. *)

Module dreference.
Import Str.

Record Named := MkNamed {
    domain : string;
    path : string;
    tag : option string;
    digest : option (string * string)   (* algorithm, hex *)
  }.

Definition cut (c : ascii) (l : list ascii) : list ascii * option (list ascii) :=
    match index c l with
    | Some i => (firstn i l, Some (skipn (S i) l))
    | None => (l, None)
    end.

Definition in_range (lo hi : N) (c : ascii) : bool :=
    let n := N_of_ascii c in ((lo <=? n) && (n <=? hi))%N.
Definition is_digit (c : ascii) : bool := in_range 48 57 c.
Definition is_lower (c : ascii) : bool := in_range 97 122 c.
Definition is_upper (c : ascii) : bool := in_range 65 90 c.
Definition is_alnum (c : ascii) : bool := is_lower c || is_upper c || is_digit c.
Definition is_lower_alnum (c : ascii) : bool := is_lower c || is_digit c.
Definition is_word (c : ascii) : bool := is_alnum c || Ascii.eqb c "_".
Definition is_hex (c : ascii) : bool := is_digit c || in_range 97 102 c || in_range 65 70 c.

Definition is_empty (l : list ascii) : bool := match l with [] => true | _ => false end.

  (** [splitDockerDomain]: does the first element name a registry? *)
Definition is_domain (d : list ascii) : bool :=
    contains "."%char d || contains ":"%char d || String.eqb (of_bytes d) "localhost" ||
    existsb is_upper d.

Definition domain_component (l : list ascii) : bool :=
    match l, rev l with
    | a :: _, z :: _ =>
        is_alnum a && is_alnum z && forallb (fun c => is_alnum c || Ascii.eqb c "-") l
    | _, _ => false
    end.

Definition port_number (p : option (list ascii)) : bool :=
    match p with
    | None => true
    | Some digits => negb (is_empty digits) && forallb is_digit digits
    end.

Definition valid_domain (d : list ascii) : bool :=
    match d with
    | "["%char :: rest =>
        match cut "]"%char rest with
        | (address, Some after) =>
            negb (is_empty address) &&
            forallb (fun c => is_hex c || Ascii.eqb c ":") address &&
            match after with
            | [] => true
            | c :: digits => Ascii.eqb c ":" && port_number (Some digits)
            end
        | (_, None) => false
        end
    | _ =>
        let '(host, port) := cut ":"%char d in
        forallb domain_component (split "."%char host) && port_number port
    end.

Definition is_separator_char (c : ascii) : bool :=
    Ascii.eqb c "." || Ascii.eqb c "_" || Ascii.eqb c "-".

  (** One dot, one or two underscores, or any number of hyphens. *)
Definition is_separator (l : list ascii) : bool :=
    match l with
    | [] => false
    | [c] => is_separator_char c
    | [c; d] => Ascii.eqb c d && (Ascii.eqb c "_" || Ascii.eqb c "-")
    | _ => forallb (Ascii.eqb "-") l
    end.

  (** What may follow a run of lower-case letters and digits and then
      the separator characters [sep]. *)
Fixpoint component_from (sep : list ascii) (l : list ascii) : bool :=
    match l with
    | [] => is_empty sep
    | c :: l' =>
        if is_lower_alnum c then (is_empty sep || is_separator sep) && component_from [] l'
        else if is_separator_char c then component_from (c :: sep) l'
        else false
    end.

Definition path_component (l : list ascii) : bool :=
    match l with
    | c :: l' => is_lower_alnum c && component_from [] l'
    | [] => false
    end.

Definition valid_path (p : list ascii) : bool := forallb path_component (split slash p).

Definition valid_tag (t : list ascii) : bool :=
    match t with
    | c :: t' =>
        is_word c && forallb (fun x => is_word x || Ascii.eqb x "." || Ascii.eqb x "-") t' &&
        Nat.leb (List.length t) 128
    | [] => false
    end.

  (** [digest.Parse]: a known algorithm and an encoding of its size. *)
Definition parse_digest (d : list ascii) : option (string * string) :=
    match cut ":"%char d with
    | (alg, Some hx) =>
        let size := if String.eqb (of_bytes alg) "sha256" then Some 64
                    else if String.eqb (of_bytes alg) "sha384" then Some 96
                    else if String.eqb (of_bytes alg) "sha512" then Some 128
                    else None in
        match size with
        | Some n =>
            if Nat.eqb (List.length hx) n && forallb hex.is_lower_hex hx
            then Some (of_bytes alg, of_bytes hx) else None
        | None => None
        end
    | (_, None) => None
    end.

Definition NameTotalLengthMax : nat := 255.

Definition ParseNamed (s : string) : option Named :=
    match cut slash (bytes s) with
    | (_, None) => None
    | (dom, Some remainder) =>
        if negb (is_domain dom) then None
        else if String.eqb (of_bytes dom) "index.docker.io" then None
        else
          let '(name_tag, dig) := cut "@"%char remainder in
          let '(name, tg) := cut ":"%char name_tag in
          if String.eqb (of_bytes dom) "docker.io" && negb (contains slash name) then None
          else if negb (Nat.leb (List.length dom + 1 + List.length name) NameTotalLengthMax) then None
          else
            let repository :=
              if valid_domain dom && valid_path name then Some (of_bytes dom, of_bytes name)
              else if valid_path (dom ++ slash :: name)
                   then Some ("", of_bytes (dom ++ slash :: name))
                   else None in
            match repository, tg, dig with
            | None, _, _ => None
            | Some (d, p), tg, Some dg =>
                if match tg with Some t => valid_tag t | None => true end then
                  match parse_digest dg with
                  | Some pd => Some (MkNamed d p (of_bytes <$> tg) (Some pd))
                  | None => None
                  end
                else None
            | Some (d, p), Some t, None =>
                if valid_tag t then Some (MkNamed d p (Some (of_bytes t)) None) else None
            | Some (d, p), None, None => Some (MkNamed d p None None)
            end
    end.

Definition Path (ref : Named) : string := path ref.

End dreference.

(** ** Data model *)

(** [Metadata] describes an upgrade package; it is serialised to
    [metadata.json]. *)
Record Metadata := MkMetadata {
  Version : string;
  Arch : string;
  Release : string;
  Images : list string
}.

Module labels.
Definition prefix : string := "upgrade-tool".
Definition BundleExtracted : string := prefix +:+ "/bundle-extracted".
Definition BundleLoaded : string := prefix +:+ "/bundle-loaded".
Definition BundleCleaned : string := prefix +:+ "/bundle-cleaned".
Definition Job : string := prefix +:+ "/job".
Definition App : string := prefix +:+ "/app".
End labels.

Module annotations.
Definition prefix : string := "upgrade-tool".
Definition BundleFile : string := prefix +:+ "/bundle-file".
Definition BundleMetadata : string := prefix +:+ "/bundle-metadata".
Definition Progress : string := prefix +:+ "/progress".
End annotations.

(** A file-system entry: a directory or a file with its bytes. *)
Inductive FsNode :=
| Dir
| File (data : string).

(** The part of a [corev1.Node] the tool reads and writes. *)
Record NodeObject := MkNode {
  Labels : gmap string string;
  Annotations : gmap string string
}.

(** Every interaction with the environment.  The arguments are the ones the
    call receives, so that a failure can be tied to the call. *)
Inductive Op :=
| OsUserCacheDir
| OsMkdirAll (dir : string)
| OsMkdirTemp (pattern : string)
| OsStat (name : string)
| OsReadFile (name : string)
| OsWriteFile (name data : string)
| OsRemoveAll (name : string)
| OsOpen (name : string)
| OsOpenFile (name : string)
| IoCopy (name : string)
| OpFprintf (name data : string)
| FileClose (name : string)
| TemplatesReadFile (name : string)
| OpMakeSelfSignedCert (address : string)
| NetListen (address : string)
| ServerShutdown (address : string)
| ExecLookPath (file : string)
| ExecRun (args : list string)
| JqQuery (query : string)
| JsonMarshal (m : Metadata)
| JsonUnmarshal (name : string)
| OpCreatePinConf (refs : list string)
| OpCreateMirrorConf (addr : string) (refs : list string)
| OpRemoveMirrorConf
| OpRemovePinConf
| OpReloadService
| OpPullImage (ref : string)
| ClientGet (node : string)
| ClientPatchLabel (node key value : string)
| ClientPatchAnnotation (node key value : string).

Inductive error :=
| EFault (op : Op)               (* the environment failed the call *)
| ENotExist (name : string)      (* os.ErrNotExist *)
| EExist (name : string)
| ENotDir (name : string)
| EIsDir (name : string)
| ENotFound (node : string)      (* the API server has no such node *)
| EJson (name : string)
| EReference (ref : string)      (* the reference does not parse *)
| EMsg (msg : string)            (* errors.New / fmt.Errorf *)
| EExit (code : nat).            (* exit.Error *)

Inductive arg :=
| AInt (n : nat)
| AStr (s : string)
| AErr (e : error)
| AOther.                       (* a value whose rendering is not modelled *)

Inductive Level := LInfo | LError.

Inductive Event :=
| EvOp (op : Op) (ok : bool)
| EvLog (lvl : Level) (msg : string)
| EvConsole (lvl : Level) (format : string) (args : list arg).

(** Result of decoding a JSON document into a [*Metadata]. *)
Inductive JsonResult :=
| JInvalid
| JNull
| JValue (m : Metadata).

(** The state outside the process. *)
Record World := MkWorld {
  fs : gmap string FsNode;
  pin : option (list string);                (* CRI-O pin configuration *)
  mirror : option (string * list string);    (* CRI-O mirror configuration *)
  store : list string;                       (* images in the CRI-O storage *)
  nodes : gmap string NodeObject;            (* the cluster's node objects *)
  listeners : list string;                   (* addresses with a live listener *)
  clock : nat                                (* environment interactions so far *)
}.

(** What the environment decides: which calls fail, and the values only it
    knows (names of temporary directories, the bound address, key material,
    the answer of the release query, the bytes [tar] produces, the order in
    which a Go map is iterated, the JSON codec). *)
Record Env := MkEnv {
  fails : nat -> Op -> bool;
  user_cache_dir : string;
  temp_dir : nat -> string -> string;
  bound_address : nat -> string -> string;
  key_pair : nat -> string -> string * string;
  release_info : string -> string * list (string * string);
  archive_bytes : gmap string FsNode -> string -> string;
  manifest_template : string;
  map_seed : nat -> nat;
  json_Marshal : Metadata -> string;
  json_Unmarshal : string -> JsonResult
}.

(** ** [fmt.Sprintf] for the verbs the sources use *)

Definition render_arg (a : arg) : string :=
  match a with
  | AInt n => pretty n
  | AStr s => s
  | AErr _ => "<error>"
  | AOther => "<value>"
  end.

Definition newline : string := String (ascii_of_nat 10) "".

Fixpoint Sprintf (format : string) (args : list arg) : string :=
  match format with
  | EmptyString => ""
  | String c rest =>
      if Ascii.eqb c "%" then
        match rest with
        | String v rest' =>
            if Ascii.eqb v "%" then String "%" (Sprintf rest' args)
            else match args with
                 | a :: args' => render_arg a +:+ Sprintf rest' args'
                 | [] => "%!" +:+ String v ("(MISSING)" +:+ Sprintf rest' [])
                 end
        | EmptyString => "%!(NOVERB)"
        end
      else String c (Sprintf rest args)
  end.

(** ** The monad of Go procedures *)

Inductive Outcome (A : Type) :=
| Ret (a : A)                   (* normal return, [err == nil] *)
| Raise (e : error)             (* return with [err != nil] *)
| Panic (msg : string).         (* run-time panic *)
Arguments Ret {A} a.
Arguments Raise {A} e.
Arguments Panic {A} msg.

Record Result (A : Type) := MkResult {
  outcome : Outcome A;
  world : World;
  events : list Event
}.
Arguments MkResult {A} _ _ _.
Arguments outcome {A} _.
Arguments world {A} _.
Arguments events {A} _.

Definition M (A : Type) : Type := World -> Result A.

Definition ret {A} (a : A) : M A := fun w => MkResult (Ret a) w [].
Definition raise {A} (e : error) : M A := fun w => MkResult (Raise e) w [].
Definition panic {A} (msg : string) : M A := fun w => MkResult (Panic msg) w [].
Definition emit (ev : Event) : M unit := fun w => MkResult (Ret tt) w [ev].

Definition bind {A B} (m : M A) (f : A -> M B) : M B := fun w =>
  let r := m w in
  match outcome r with
  | Ret a => let r' := f a (world r) in
             MkResult (outcome r') (world r') (events r ++ events r')
  | Raise e => MkResult (Raise e) (world r) (events r)
  | Panic msg => MkResult (Panic msg) (world r) (events r)
  end.

(** [if err != nil { handler }] after a call. *)
Definition on_error {A} (m : M A) (h : error -> M A) : M A := fun w =>
  let r := m w in
  match outcome r with
  | Raise e => let r' := h e (world r) in
               MkResult (outcome r') (world r') (events r ++ events r')
  | _ => r
  end.

(** [defer d] placed before [m]: [d] runs when [m] is left, whatever its
    outcome, and the outcome of [m] is the one returned. *)
Definition defer {A} (d : M unit) (m : M A) : M A := fun w =>
  let r := m w in
  let r' := d (world r) in
  MkResult (outcome r) (world r') (events r ++ events r').

Declare Scope go_scope.
Delimit Scope go_scope with go.
Notation "'let*' x ':=' c1 'in' c2" := (bind c1 (fun x => c2))
  (at level 10, x pattern, c1 at level 100, c2 at level 200) : go_scope.
Notation "c1 ';;;' c2" := (bind c1 (fun _ => c2))
  (at level 100, c2 at level 200, right associativity) : go_scope.
Local Open Scope go_scope.

Definition tick (w : World) : World :=
  MkWorld (fs w) (pin w) (mirror w) (store w) (nodes w) (listeners w) (S (clock w)).
Definition set_fs (f : gmap string FsNode) (w : World) : World :=
  MkWorld f (pin w) (mirror w) (store w) (nodes w) (listeners w) (clock w).
Definition set_pin (p : option (list string)) (w : World) : World :=
  MkWorld (fs w) p (mirror w) (store w) (nodes w) (listeners w) (clock w).
Definition set_mirror (m : option (string * list string)) (w : World) : World :=
  MkWorld (fs w) (pin w) m (store w) (nodes w) (listeners w) (clock w).
Definition set_store (s : list string) (w : World) : World :=
  MkWorld (fs w) (pin w) (mirror w) s (nodes w) (listeners w) (clock w).
Definition set_nodes (n : gmap string NodeObject) (w : World) : World :=
  MkWorld (fs w) (pin w) (mirror w) (store w) n (listeners w) (clock w).
Definition set_listeners (l : list string) (w : World) : World :=
  MkWorld (fs w) (pin w) (mirror w) (store w) (nodes w) l (clock w).

(** One call into the environment: it fails when the environment says so
    or when the state does not allow it, and it is recorded either way. *)
Definition call {A} (E : Env) (o : Op) (f : World -> error + A * World) : M A := fun w =>
  if fails E (clock w) o then MkResult (Raise (EFault o)) (tick w) [EvOp o false]
  else match f w with
       | inl e => MkResult (Raise e) (tick w) [EvOp o false]
       | inr (a, w') => MkResult (Ret a) (tick w') [EvOp o true]
       end.

Definition logger_Info (msg : string) : M unit := emit (EvLog LInfo msg).
Definition logger_Error (msg : string) : M unit := emit (EvLog LError msg).
Definition console_Info (format : string) (args : list arg) : M unit :=
  emit (EvConsole LInfo format args).
Definition console_Error (format : string) (args : list arg) : M unit :=
  emit (EvConsole LError format args).

(** Modelled from the spec: [exit.Error] of [internal/exit], the error that
    carries the process exit code ("non-zero exit on any abort"). *)
Definition exit_Error (code : nat) : error := EExit code.

(** ** Package [os] and friends

    Paths are compared literally (no working directory, no links); a
    directory contains the entries whose name extends its own by a slash.
    What a failed call leaves behind is not modelled: the state is the one
    before the call. *)

Definition within (dir name : string) : bool :=
  String.eqb name dir || Str.prefix (dir +:+ "/") name.

Definition ends_with_dot (name : string) : bool :=
  match rev (Str.bytes name) with
  | [c] => Ascii.eqb c "."
  | c :: d :: _ => Ascii.eqb c "." && Ascii.eqb d "/"
  | [] => false
  end.

Definition remove_tree (name : string) (f : gmap string FsNode) : gmap string FsNode :=
  filter (fun kv => within name kv.1 = false) f.

Section Os.
Context (E : Env).

Definition os_UserCacheDir : M string :=
    call E OsUserCacheDir (fun w => inr (user_cache_dir E, w)).

Definition os_MkdirAll (dir : string) : M unit :=
    call E (OsMkdirAll dir) (fun w =>
      match fs w !! dir with
      | Some (File _) => inl (ENotDir dir)
      | _ => inr (tt, set_fs (<[dir := Dir]> (fs w)) w)
      end).

Definition os_MkdirTemp (pattern : string) : M string :=
    call E (OsMkdirTemp pattern) (fun w =>
      let name := temp_dir E (clock w) pattern in
      match fs w !! name with
      | Some _ => inl (EExist name)
      | None => inr (name, set_fs (<[name := Dir]> (fs w)) w)
      end).

  (** The empty path names nothing. *)
Definition os_Stat (name : string) : M unit :=
    call E (OsStat name) (fun w =>
      if String.eqb name "" then inl (ENotExist name)
      else match fs w !! name with
           | Some _ => inr (tt, w)
           | None => inl (ENotExist name)
           end).

Definition os_ReadFile (name : string) : M string :=
    call E (OsReadFile name) (fun w =>
      match fs w !! name with
      | Some (File data) => inr (data, w)
      | Some Dir => inl (EIsDir name)
      | None => inl (ENotExist name)
      end).

Definition os_WriteFile (name data : string) : M unit :=
    call E (OsWriteFile name data) (fun w =>
      match fs w !! name with
      | Some Dir => inl (EIsDir name)
      | _ => inr (tt, set_fs (<[name := File data]> (fs w)) w)
      end).

  (** [RemoveAll] of a missing path, and of the empty path, is a success. *)
Definition os_RemoveAll (name : string) : M unit :=
    call E (OsRemoveAll name) (fun w =>
      if String.eqb name "" then inr (tt, w)
      else if ends_with_dot name then inl (EMsg "invalid argument")
      else inr (tt, set_fs (remove_tree name (fs w)) w)).

Definition os_Open (name : string) : M unit :=
    call E (OsOpen name) (fun w =>
      match fs w !! name with
      | Some _ => inr (tt, w)
      | None => inl (ENotExist name)
      end).

  (** [os.OpenFile] with [O_WRONLY|O_CREATE|O_TRUNC]. *)
Definition os_OpenFile (name : string) : M unit :=
    call E (OsOpenFile name) (fun w =>
      match fs w !! name with
      | Some Dir => inl (EIsDir name)
      | _ => inr (tt, set_fs (<[name := File ""]> (fs w)) w)
      end).

  (** [io.Copy] from the open file [name]: all its bytes. *)
Definition io_Copy (name : string) : M string :=
    call E (IoCopy name) (fun w =>
      match fs w !! name with
      | Some (File data) => inr (data, w)
      | Some Dir => inl (EIsDir name)
      | None => inl (ENotExist name)
      end).

  (** [fmt.Fprintf] to the open file [name]: the text is appended. *)
Definition fmt_Fprintf (name data : string) : M unit :=
    call E (OpFprintf name data) (fun w =>
      match fs w !! name with
      | Some (File old) => inr (tt, set_fs (<[name := File (old +:+ data)]> (fs w)) w)
      | Some Dir => inl (EIsDir name)
      | None => inl (ENotExist name)
      end).

Definition file_Close (name : string) : M unit :=
    call E (FileClose name) (fun w => inr (tt, w)).

Definition exec_LookPath (file : string) : M unit :=
    call E (ExecLookPath file) (fun w => inr (tt, w)).

End Os.

(** ** The registry ([registry.go]) *)

Module RegistryBuilder.
Record t := Mk {
    logger : bool;                (* the logger has a sink *)
    address : string;
    root : string;
    cert : option string;         (* [None] is the nil slice *)
    key : option string
  }.
End RegistryBuilder.

Module Registry.

Record t := Mk {
    address : string;
    root : string;
    tmp : string;
    cert : string;
    key : string;
    listener : option string;     (* the address of the listener, once bound *)
    server : option string        (* the HTTP server, once created *)
  }.

Definition set_listener (l : option string) (r : t) : t :=
    Mk (address r) (root r) (tmp r) (cert r) (key r) l (server r).
Definition set_server (s : option string) (r : t) : t :=
    Mk (address r) (root r) (tmp r) (cert r) (key r) (listener r) s.

Section WithEnv.
Context (E : Env).

    (** Key generation and certificate encoding are the environment's: the
        call yields the PEM pair or fails (address without a port, name
        resolution, key generation, signing). *)
Definition makeSelfSignedCert (b : RegistryBuilder.t) : M (string * string) :=
      call E (OpMakeSelfSignedCert (RegistryBuilder.address b))
           (fun w => inr (key_pair E (clock w) (RegistryBuilder.address b), w)).

Definition Build (b : RegistryBuilder.t) : M t :=
      if negb (RegistryBuilder.logger b) then raise (EMsg "logger is mandatory")
      else if String.eqb (RegistryBuilder.address b) "" then raise (EMsg "address is mandatory")
      else if String.eqb (RegistryBuilder.root b) "" then raise (EMsg "root is mandatory")
      else
        match RegistryBuilder.cert b, RegistryBuilder.key b with
        | Some _, None => raise (EMsg "key is mandatory when certificate is set")
        | None, Some _ => raise (EMsg "certificate is mandatory when key is set")
        | c, k =>
            let* tmp := os_MkdirTemp E "*.registry" in
            let* ck := match c, k with
                       | Some c', Some k' => ret (c', k')
                       | _, _ => makeSelfSignedCert b
                       end in
            ret (Mk (RegistryBuilder.address b) (RegistryBuilder.root b) tmp
                    (fst ck) (snd ck) None None)
        end.

    (** [r.listener.Addr().String()]; a nil listener is a nil dereference. *)
Definition Address (r : t) : M string :=
      match listener r with
      | Some a => ret a
      | None => panic "invalid memory address or nil pointer dereference"
      end.

Definition Root (r : t) : string := root r.

Definition Certificate (r : t) : string * string := (cert r, key r).

Definition net_Listen (addr : string) : M string :=
      call E (NetListen addr) (fun w =>
        let a := bound_address E (clock w) addr in
        if bool_decide (a ∈ listeners w) then inl (EMsg "address already in use")
        else inr (a, set_listeners (a :: listeners w) w)).

    (** [Start] has a pointer receiver: it returns the receiver as the call
        leaves it, together with the error.  The serving goroutine is not
        modelled beyond the listener being live. *)
Definition Start (r : t) : M (t * option error) :=
      let certFile := filepath.Join [tmp r; "tls.crt"] in
      let keyFile := filepath.Join [tmp r; "tls.key"] in
      on_error
        (os_WriteFile E certFile (cert r) ;;;
         os_WriteFile E keyFile (key r) ;;;
         on_error
           (let* a := net_Listen (address r) in
            ret (set_server (Some a) (set_listener (Some a) r), None))
           (fun e => ret (set_listener None r, Some e)))
        (fun e => ret (r, Some e)).

Definition server_Shutdown (a : string) : M unit :=
      call E (ServerShutdown a) (fun w =>
        inr (tt, set_listeners (filter (fun x => x ≠ a) (listeners w)) w)).

Definition Stop (r : t) : M unit :=
      match server r with
      | None => panic "invalid memory address or nil pointer dereference"
      | Some a =>
          server_Shutdown a ;;;
          os_RemoveAll E (tmp r)
      end.

End WithEnv.
End Registry.

(** ** The setters of the registry builder ([registry.go]) *)

Module NewRegistry.

Definition New : RegistryBuilder.t := RegistryBuilder.Mk false "" "" None None.

Definition SetLogger (value : bool) (b : RegistryBuilder.t) : RegistryBuilder.t :=
    RegistryBuilder.Mk value (RegistryBuilder.address b) (RegistryBuilder.root b)
                       (RegistryBuilder.cert b) (RegistryBuilder.key b).

Definition SetAddress (value : string) (b : RegistryBuilder.t) : RegistryBuilder.t :=
    RegistryBuilder.Mk (RegistryBuilder.logger b) value (RegistryBuilder.root b)
                       (RegistryBuilder.cert b) (RegistryBuilder.key b).

Definition SetRoot (value : string) (b : RegistryBuilder.t) : RegistryBuilder.t :=
    RegistryBuilder.Mk (RegistryBuilder.logger b) (RegistryBuilder.address b) value
                       (RegistryBuilder.cert b) (RegistryBuilder.key b).

  (** [slices.Clone] of a nil slice is nil, of any other slice a copy. *)
Definition SetCertificate (cert key : option string) (b : RegistryBuilder.t) : RegistryBuilder.t :=
    RegistryBuilder.Mk (RegistryBuilder.logger b) (RegistryBuilder.address b)
                       (RegistryBuilder.root b) cert key.

End NewRegistry.

(** ** The CRI-O tool *)

Module CRIOTool.
Section WithEnv.
Context (E : Env).

    (** Modelled from the spec: [CRIOTool.CreatePinConf] of
        [internal/crio_tool.go], "create pin entries for a set of
        references". *)
Definition CreatePinConf (refs : list string) : M unit :=
      call E (OpCreatePinConf refs) (fun w => inr (tt, set_pin (Some refs) w)).

    (** Modelled from the spec: [CRIOTool.CreateMirrorConf], "create a
        mirror entry pointing a set of references at a given registry
        address". *)
Definition CreateMirrorConf (addr : string) (refs : list string) : M unit :=
      call E (OpCreateMirrorConf addr refs) (fun w => inr (tt, set_mirror (Some (addr, refs)) w)).

    (** Modelled from the spec: [CRIOTool.RemoveMirrorConf], "remove a
        mirror entry"; the cleaner's protocol is "fully idempotent", so
        removing an absent entry succeeds. *)
Definition RemoveMirrorConf : M unit :=
      call E OpRemoveMirrorConf (fun w => inr (tt, set_mirror None w)).

    (** Modelled from the spec: [CRIOTool.RemovePinConf], "remove pin
        entries"; removing absent entries succeeds. *)
Definition RemovePinConf : M unit :=
      call E OpRemovePinConf (fun w => inr (tt, set_pin None w)).

    (** Modelled from the spec: [CRIOTool.ReloadService], "reload the
        runtime service". *)
Definition ReloadService : M unit :=
      call E OpReloadService (fun w => inr (tt, w)).

    (** Modelled from the spec: [CRIOTool.PullImage], "pull a single image
        reference into runtime storage". *)
Definition PullImage (ref : string) : M unit :=
      call E (OpPullImage ref) (fun w => inr (tt, set_store (store w ++ [ref]) w)).

End WithEnv.
End CRIOTool.

(** ** The Kubernetes client, as far as the tool uses it *)

Module client.
Section WithEnv.
Context (E : Env).

Definition Get (name : string) : M NodeObject :=
      call E (ClientGet name) (fun w =>
        match nodes w !! name with
        | Some obj => inr (obj, w)
        | None => inl (ENotFound name)
        end).

    (** A merge patch that sets one label of the node. *)
Definition PatchLabel (name key value : string) : M unit :=
      call E (ClientPatchLabel name key value) (fun w =>
        match nodes w !! name with
        | Some obj =>
            inr (tt, set_nodes (<[name := MkNode (<[key := value]> (Labels obj)) (Annotations obj)]>
                                  (nodes w)) w)
        | None => inl (ENotFound name)
        end).

    (** A merge patch that sets one annotation of the node. *)
Definition PatchAnnotation (name key value : string) : M unit :=
      call E (ClientPatchAnnotation name key value) (fun w =>
        match nodes w !! name with
        | Some obj =>
            inr (tt, set_nodes (<[name := MkNode (Labels obj) (<[key := value]> (Annotations obj))]>
                                  (nodes w)) w)
        | None => inl (ENotFound name)
        end).

End WithEnv.
End client.

(** ** The bundle loader ([bundle_loader.go]) *)

Module BundleLoader.

  (** The logger, the API client and the CRI-O tool of the Go struct are
      capabilities of the environment; [Build] makes the logger, the
      client, the node name and the bundle directory mandatory. *)
Record t := Mk {
    node : string;
    rootDir : string;
    bundleDir : string
  }.

Section WithEnv.
Context (E : Env).

Definition absolutePath (l : t) (relPath : string) : string :=
      if String.eqb (rootDir l) "" then relPath
      else filepath.Join [rootDir l; relPath].

    (** Only [os.ErrNotExist] means "absent"; any other failure of [Stat]
        is returned as the error (with [exists] set, which [Run] does not
        look at). *)
Definition checkBundleDir (l : t) : M bool :=
      let dir := absolutePath l (bundleDir l) in
      on_error (os_Stat E dir ;;; ret true)
               (fun e => match e with
                         | ENotExist _ => ret false
                         | _ => raise e
                         end).

Definition configureCRIO (l : t) (addr : string) (refs : list string) : M unit :=
      CRIOTool.CreatePinConf E refs ;;;
      CRIOTool.CreateMirrorConf E addr refs ;;;
      CRIOTool.ReloadService E.

    (** The pinning configuration stays: it is removed only when the
        upgrade has been completed. *)
Definition deconfigureCRIO (l : t) : M unit :=
      CRIOTool.RemoveMirrorConf E ;;;
      CRIOTool.ReloadService E.

    (** [json.Marshal] of the patch (a map of strings) cannot fail, so only
        the patch itself can; its failure is logged and nothing is
        returned. *)
Definition reportProgress (l : t) (format : string) (args : list arg) : M unit :=
      let text := Sprintf format args in
      on_error
        (client.PatchAnnotation E (node l) annotations.Progress text ;;;
         logger_Info "Reported progress")
        (fun _ => logger_Error "Failed to apply progress patch").

    (** The loop [for i, ref := range refs] of [populateCRIO], from index
        [i] on; [n] is [len(refs)]. *)
Fixpoint pullPayload (l : t) (i n : nat) (refs : list string) : M unit :=
      match refs with
      | [] => ret tt
      | ref :: rest =>
          CRIOTool.PullImage E ref ;;;
          reportProgress l "Pulled %d of %d images" [AInt (i + 1); AInt n] ;;;
          pullPayload l (S i) n rest
      end.

Definition populateCRIO (l : t) (release : string) (refs : list string) : M unit :=
      CRIOTool.PullImage E release ;;;
      reportProgress l "Pulled release image" [] ;;;
      pullPayload l 0 (length refs) refs.

    (** Decoding into a [*Metadata]: the document [null] leaves the pointer
        nil without an error. *)
Definition json_decode (name data : string) : M (option Metadata) :=
      match json_Unmarshal E data with
      | JInvalid => emit (EvOp (JsonUnmarshal name) false) ;;; raise (EJson name)
      | JNull => emit (EvOp (JsonUnmarshal name) true) ;;; ret None
      | JValue m => emit (EvOp (JsonUnmarshal name) true) ;;; ret (Some m)
      end.

Definition readMetadata (l : t) : M Metadata :=
      let dir := absolutePath l (bundleDir l) in
      let file := filepath.Join [dir; "metadata.json"] in
      let* data := os_ReadFile E file in
      let* result := json_decode file data in
      match result with
      | None => panic "invalid memory address or nil pointer dereference"
      | Some m => logger_Info "Read metadata" ;;; ret m
      end.

Definition startRegistry (l : t) : M Registry.t :=
      let dir := absolutePath l (bundleDir l) in
      let* registry := Registry.Build E (RegistryBuilder.Mk true "localhost:0" dir None None) in
      let* started := Registry.Start E registry in
      match snd started with
      | Some e => raise e
      | None =>
          let* _ := Registry.Address (fst started) in
          logger_Info "Started registry" ;;;
          ret (fst started)
      end.

Definition deleteBundle (l : t) : M unit :=
      let dir := absolutePath l (bundleDir l) in
      os_RemoveAll E dir ;;;
      logger_Info "Deleted bundle".

    (** Read the node, then merge-patch the label into it. *)
Definition writeResult (l : t) : M unit :=
      let* _ := client.Get E (node l) in
      client.PatchLabel E (node l) labels.BundleLoaded "true" ;;;
      logger_Info "Wrote success".

Definition Run (l : t) : M unit :=
      let* exists_ := checkBundleDir l in
      if negb exists_ then
        raise (EMsg (Sprintf "bundle directory '%s' doesn't exist" [AStr (bundleDir l)]))
      else
        let* metadata := readMetadata l in
        let* registry := startRegistry l in
        logger_Info "Populating CRI-O" ;;;
        let* addr := Registry.Address registry in
        configureCRIO l addr (Images metadata) ;;;
        populateCRIO l (Release metadata) (Images metadata) ;;;
        deconfigureCRIO l ;;;
        logger_Info "Populated CRI-O" ;;;
        Registry.Stop E registry ;;;
        logger_Info "Stopped registry" ;;;
        deleteBundle l ;;;
        writeResult l.

End WithEnv.
End BundleLoader.

(** ** The bundle cleaner ([bundle_cleaner.go]) *)

Module BundleCleaner.

Record t := Mk {
    node : string;
    rootDir : string;
    bundleDir : string
  }.

Section WithEnv.
Context (E : Env).

Definition absolutePath (c : t) (relPath : string) : string :=
      if String.eqb (rootDir c) "" then relPath
      else filepath.Join [rootDir c; relPath].

Definition cleanBundleDir (c : t) : M unit :=
      let dir := absolutePath c (bundleDir c) in
      os_RemoveAll E dir ;;;
      logger_Info "Removed bundle directory" ;;;
      let tmp := Sprintf "%s.tmp" [AStr dir] in
      os_RemoveAll E tmp ;;;
      logger_Info "Removed bundle directory".

Definition cleanCRIO (c : t) : M unit :=
      CRIOTool.RemoveMirrorConf E ;;;
      CRIOTool.RemovePinConf E ;;;
      CRIOTool.ReloadService E.

Definition writeResult (c : t) : M unit :=
      let* _ := client.Get E (node c) in
      client.PatchLabel E (node c) labels.BundleCleaned "true" ;;;
      logger_Info "Wrote success".

Definition Run (c : t) : M unit :=
      cleanBundleDir c ;;;
      logger_Info "Cleaned bundle directory" ;;;
      cleanCRIO c ;;;
      logger_Info "Cleaned CRI-O" ;;;
      writeResult c.

End WithEnv.
End BundleCleaner.

(** ** Go maps and slices

    The order in which a Go map is iterated is not specified and changes
    from one iteration to the next: each iteration draws a seed from the
    environment, and the seed selects a permutation of the entries. *)

Fixpoint permute_aux {A} (n seed : nat) (l : list A) : list A :=
  match n with
  | O => []
  | S n' =>
      let i := seed mod length l in
      match l !! i with
      | Some x => x :: permute_aux n' (seed / length l) (delete i l)
      | None => []
      end
  end.

Definition permute {A} (seed : nat) (l : list A) : list A := permute_aux (length l) seed l.

(** [slices.Sort] on strings: ascending byte-wise order. *)
Definition slices_Sort (l : list string) : list string := merge_sort String.le l.

Section GoMaps.
Context (E : Env).

Definition range_map (m : gmap string string) : M (list (string * string)) := fun w =>
    MkResult (Ret (permute (map_seed E (clock w)) (map_to_list m))) (tick w) [].

  (** [maps.Keys] and [maps.Values]: "in an indeterminate order". *)
Definition maps_Keys (m : gmap string string) : M (list string) :=
    let* kvs := range_map m in ret (kvs.*1).
Definition maps_Values (m : gmap string string) : M (list string) :=
    let* kvs := range_map m in ret (kvs.*2).

  (** [cmd.Run] of a sub-process with the given arguments; [effect] is what
      a successful run leaves in the world.  The call is logged whether it
      failed or not. *)
Definition exec_Run (msg : string) (args : list string) (effect : World -> World) : M unit :=
    on_error (call E (ExecRun args) (fun w => inr (tt, effect w)))
             (fun e => logger_Info msg ;;; raise e) ;;;
    logger_Info msg.

End GoMaps.

(** ** The bundle creator ([bundle_creator.go]) *)

Module BundleCreator.

Record t := Mk {
    version : string;
    arch : string;
    outputDir : string;
    pullSecret : string
  }.

Definition bundleCreatorReleaseRepo : string := "quay.io/openshift-release-dev/ocp-release".

Definition outputBase (c : t) : string :=
    let name := Sprintf "upgrade-%s-%s" [AStr (version c); AStr (arch c)] in
    filepath.Join [outputDir c; name].
Definition bundleFile (c : t) : string := outputBase c +:+ ".tar".
Definition digestFile (c : t) : string := outputBase c +:+ ".sha256".
Definition manifestFile (c : t) : string := outputBase c +:+ ".yaml".

Section WithEnv.
Context (E : Env).

Definition createDir (dir : string) : M unit :=
      on_error (os_MkdirAll E dir)
               (fun e => match e with
                         | EExist _ => ret tt
                         | _ => raise e
                         end).

    (** Modelled from the spec: [jq.Tool.QueryBytes] of [internal/jq]
        applied to the output of [oc adm release info]; with the release
        query it forms the release-discovery collaborator, whose "output
        [is] a digest-pinned reference plus the set of (tag,
        image-reference) pairs it contains". *)
Definition jq_QueryBytes {A} (query : string) (answer : A) : M A :=
      call E (JqQuery query) (fun w => inr (answer, w)).

Definition findImages (c : t) : M (string * gmap string string) :=
      let release := Sprintf "%s:%s-%s"
                       [AStr bundleCreatorReleaseRepo; AStr (version c); AStr (arch c)] in
      let stdout := release_info E release in
      exec_LookPath E "oc" ;;;
      exec_Run E "Executed 'oc' command"
               ["oc"; "adm"; "release"; "info"; "--output=json"; release] (fun w => w) ;;;
      let* digest := jq_QueryBytes ".digest" (fst stdout) in
      let release := Sprintf "%s@%s" [AStr bundleCreatorReleaseRepo; AStr digest] in
      let* tags := jq_QueryBytes "[.references.spec.tags[] | {tag: .name, ref: .from.name}]"
                                 (snd stdout) in
      ret (release, foldl (fun images tag => <[tag.1 := tag.2]> images) ∅ tags).

Definition createRegistry (c : t) (dir : string) : M Registry.t :=
      let* registry := Registry.Build E (RegistryBuilder.Mk true "localhost:5001" dir None None) in
      let* started := Registry.Start E registry in
      match snd started with
      | Some e => raise e
      | None => ret (fst started)
      end.

    (** The tag of the destination: the tag of the source, else the hex
        part of its digest, else nothing. *)
Definition dstTag (ref : dreference.Named) : string :=
      match dreference.tag ref with
      | Some tg => tg
      | None => match dreference.digest ref with
                | Some (_, hx) => hx
                | None => ""
                end
      end.

Definition dstRef (c : t) (src : string) (registry : Registry.t) : M string :=
      match dreference.ParseNamed src with
      | None => raise (EReference src)
      | Some ref =>
          let path := dreference.Path ref in
          let tag := dstTag ref in
          let* addr := Registry.Address registry in
          ret (Sprintf "%s/%s:%s" [AStr addr; AStr path; AStr tag])
      end.

    (** The blobs a successful copy stores under the registry root are not
        modelled. *)
Definition downloadImage (c : t) (certs src dst : string) : M unit :=
      exec_LookPath E "skopeo" ;;;
      exec_Run E "Executed 'skopeo' command"
               ["skopeo"; "copy";
                Sprintf "--src-authfile=%s" [AStr (pullSecret c)];
                Sprintf "--dest-cert-dir=%s" [AStr certs];
                Sprintf "docker://%s" [AStr src];
                Sprintf "docker://%s" [AStr dst]] (fun w => w).

    (** The loop [for i, tag := range tags] of [downloadImages], from index
        [i] on; [n] is [len(tags)]. *)
Fixpoint downloadPayload (c : t) (registry : Registry.t) (certs : string)
             (images : gmap string string) (i n : nat) (tags : list string) : M unit :=
      match tags with
      | [] => ret tt
      | tag :: rest =>
          let ref := default "" (images !! tag) in
          console_Info "Downloading payload image %d of %d (%s) ..."
                       [AInt (i + 1); AInt n; AStr tag] ;;;
          let* dst := dstRef c ref registry in
          downloadImage c certs ref dst ;;;
          downloadPayload c registry certs images (S i) n rest
      end.

Definition downloadImages (c : t) (registry : Registry.t) (release : string)
               (images : gmap string string) : M unit :=
      let cert := fst (Registry.Certificate registry) in
      let* certs := os_MkdirTemp E "*.skopeo" in
      defer
        (on_error (os_RemoveAll E certs)
                  (fun _ => logger_Error "Failed to remove skopeo temporary certificates directory"))
        (let file := filepath.Join [certs; "tls.crt"] in
         os_WriteFile E file cert ;;;
         let* dst := dstRef c release registry in
         console_Info "Downloading release image '%s' ..." [AStr release] ;;;
         downloadImage c certs release dst ;;;
         let* tags := maps_Keys E images in
         let tags := slices_Sort tags in
         downloadPayload c registry certs images 0 (length tags) tags).

    (** [json.Marshal] of a [Metadata] cannot fail; the call is recorded
        with the value it encodes. *)
Definition writeMetadata (c : t) (metadata : Metadata) (dir : string) : M unit :=
      emit (EvOp (JsonMarshal metadata) true) ;;;
      let data := json_Marshal E metadata in
      let file := filepath.Join [dir; "metadata.json"] in
      os_WriteFile E file data.

Definition writeBundle (c : t) (dir : string) : M unit :=
      let bundle := bundleFile c in
      exec_LookPath E "tar" ;;;
      exec_Run E "Executed 'tar' command"
               ["tar"; Sprintf "--directory=%s" [AStr dir]; "--create";
                Sprintf "--file=%s" [AStr bundle]; "metadata.json"; "docker"]
               (fun w => set_fs (<[bundle := File (archive_bytes E (fs w) dir)]> (fs w)) w).

Definition writeDigest (c : t) : M unit :=
      let bundle := bundleFile c in
      let digest := digestFile c in
      os_Open E bundle ;;;
      defer
        (on_error (file_Close E bundle) (fun _ => logger_Error "Failed to close bundle file"))
        (let* data := io_Copy E bundle in
         let sum := hex.EncodeToString (sha256.Sum_string data) in
         os_OpenFile E digest ;;;
         defer
           (on_error (file_Close E digest) (fun _ => logger_Error "Failed to close digest file"))
           (fmt_Fprintf E digest
              (Sprintf ("%s  %s" +:+ newline) [AStr sum; AStr (filepath.Base bundle)]))).

    (** Modelled from the spec: the embedded [TemplatesFS], holding the
        "static deployment manifest template" that is "copied verbatim". *)
Definition TemplatesFS_ReadFile (name : string) : M string :=
      call E (TemplatesReadFile name) (fun w => inr (manifest_template E, w)).

Definition writeManifest (c : t) : M unit :=
      let* content := TemplatesFS_ReadFile "templates/manifest.yaml" in
      let manifest := manifestFile c in
      os_WriteFile E manifest content.

    (** [if err != nil { c.console.Error(...); return exit.Error(1) }] *)
Definition or_exit {A} (m : M A) (format : string) (args : list arg) : M A :=
      on_error m (fun err => console_Error format (args ++ [AErr err]) ;;; raise (exit_Error 1)).

Definition Run (c : t) : M unit :=
      let* cacheDir := or_exit (os_UserCacheDir E) "Failed to find user cache directory: %v" [] in
      let tmpDir := filepath.Join [cacheDir; "upgrade-tool";
                                   Sprintf "%s-%s" [AStr (version c); AStr (arch c)]] in
      or_exit (createDir tmpDir) "Failed to create bundle directory '%s': %v" [AStr tmpDir] ;;;
      console_Info "Finding images ..." [] ;;;
      let* found := or_exit (findImages c) "Failed to find release images: %v" [] in
      let release := fst found in
      let images := snd found in
      logger_Info "Found images" ;;;
      console_Info "Starting registry ..." [] ;;;
      let* registry := or_exit (createRegistry c tmpDir) "Failed to start registry: %v" [] in
      on_error (downloadImages c registry release images)
               (fun err =>
                  console_Info "registry：%s，release: %s, img: %s" [AOther; AStr release; AOther] ;;;
                  console_Error "Failed to download images: %v" [AErr err] ;;;
                  raise (exit_Error 1)) ;;;
      console_Info "Stopping registry ..." [] ;;;
      or_exit (Registry.Stop E registry) "Failed to stop registry: %v" [] ;;;
      console_Info "Writing metadata ..." [] ;;;
      let* values := maps_Values E images in
      let metadata := MkMetadata (version c) (arch c) release values in
      or_exit (writeMetadata c metadata tmpDir) "Failed to write metadata: %v" [] ;;;
      console_Info "Writing bundle to '%s' ..." [AStr (bundleFile c)] ;;;
      or_exit (writeBundle c tmpDir) "Failed to write bundle: %v" [] ;;;
      console_Info "Writing digest to '%s' ..." [AStr (digestFile c)] ;;;
      or_exit (writeDigest c) "Failed to write digest: %v" [] ;;;
      console_Info "Writing manifest to '%s' ..." [AStr (manifestFile c)] ;;;
      or_exit (writeManifest c) "Failed to write manifest: %v" [].

End WithEnv.
End BundleCreator.

(** ** The builders of the loader, the cleaner and the creator

    A builder is the record of what its setters stored; a setter replaces
    one field.  [Build] ends with the construction of a tool whose code
    is not among the sources ([NewCRIOTool] of [internal/crio_tool.go],
    [jq.NewTool] of [internal/jq]): what that construction answers is a
    parameter of [Build] here. *)

Module BundleLoaderBuilder.

Record t := Mk {
    logger : bool;                (* the logger has a sink *)
    client : bool;                (* the client is not nil *)
    node : string;
    rootDir : string;
    bundleDir : string
  }.

Definition New : t := Mk false false "" "" "".

Definition SetLogger (value : bool) (b : t) : t :=
    Mk value (client b) (node b) (rootDir b) (bundleDir b).
Definition SetClient (value : bool) (b : t) : t :=
    Mk (logger b) value (node b) (rootDir b) (bundleDir b).
Definition SetNode (value : string) (b : t) : t :=
    Mk (logger b) (client b) value (rootDir b) (bundleDir b).
Definition SetRootDir (value : string) (b : t) : t :=
    Mk (logger b) (client b) (node b) value (bundleDir b).
Definition SetBundleDir (value : string) (b : t) : t :=
    Mk (logger b) (client b) (node b) (rootDir b) value.

Definition Build (crioTool : option error) (b : t) : error + BundleLoader.t :=
    if negb (logger b) then inl (EMsg "logger is mandatory")
    else if negb (client b) then inl (EMsg "client is mandatory")
    else if String.eqb (node b) "" then inl (EMsg "node name is mandatory")
    else if String.eqb (bundleDir b) "" then inl (EMsg "bundle directory is mandatory")
    else match crioTool with
         | Some err => inl (EMsg (Sprintf "failed to create CRI-O tool: %w" [AErr err]))
         | None => inr (BundleLoader.Mk (node b) (rootDir b) (bundleDir b))
         end.

End BundleLoaderBuilder.

Module BundleCleanerBuilder.

Record t := Mk {
    logger : bool;
    client : bool;
    node : string;
    rootDir : string;
    bundleDir : string
  }.

Definition New : t := Mk false false "" "" "".

Definition SetLogger (value : bool) (b : t) : t :=
    Mk value (client b) (node b) (rootDir b) (bundleDir b).
Definition SetClient (value : bool) (b : t) : t :=
    Mk (logger b) value (node b) (rootDir b) (bundleDir b).
Definition SetNode (value : string) (b : t) : t :=
    Mk (logger b) (client b) value (rootDir b) (bundleDir b).
Definition SetRootDir (value : string) (b : t) : t :=
    Mk (logger b) (client b) (node b) value (bundleDir b).
Definition SetBundleDir (value : string) (b : t) : t :=
    Mk (logger b) (client b) (node b) (rootDir b) value.

Definition Build (crioTool : option error) (b : t) : error + BundleCleaner.t :=
    if negb (logger b) then inl (EMsg "logger is mandatory")
    else if negb (client b) then inl (EMsg "client is mandatory")
    else if String.eqb (node b) "" then inl (EMsg "node name is mandatory")
    else if String.eqb (bundleDir b) "" then inl (EMsg "bundle directory is mandatory")
    else match crioTool with
         | Some err => inl (EMsg (Sprintf "failed to create CRI-O tool: %w" [AErr err]))
         | None => inr (BundleCleaner.Mk (node b) (rootDir b) (bundleDir b))
         end.

End BundleCleanerBuilder.

Module BundleCreatorBuilder.

Record t := Mk {
    logger : bool;                (* the logger has a sink *)
    console : bool;               (* the console is not nil *)
    version : string;
    arch : string;
    outputDir : string;
    pullSecret : string
  }.

Definition New : t := Mk false false "" "" "" "".

Definition SetLogger (value : bool) (b : t) : t :=
    Mk value (console b) (version b) (arch b) (outputDir b) (pullSecret b).
Definition SetConsole (value : bool) (b : t) : t :=
    Mk (logger b) value (version b) (arch b) (outputDir b) (pullSecret b).
Definition SetVersion (value : string) (b : t) : t :=
    Mk (logger b) (console b) value (arch b) (outputDir b) (pullSecret b).
Definition SetArch (value : string) (b : t) : t :=
    Mk (logger b) (console b) (version b) value (outputDir b) (pullSecret b).
Definition SetOutputDir (value : string) (b : t) : t :=
    Mk (logger b) (console b) (version b) (arch b) value (pullSecret b).
Definition SetPullSecret (value : string) (b : t) : t :=
    Mk (logger b) (console b) (version b) (arch b) (outputDir b) value.

  (** The error of the [jq] tool is returned as it is. *)
Definition Build (jqTool : option error) (b : t) : error + BundleCreator.t :=
    if negb (logger b) then inl (EMsg "logger is mandatory")
    else if negb (console b) then inl (EMsg "console is mandatory")
    else if String.eqb (version b) "" then inl (EMsg "version is mandatory")
    else if String.eqb (arch b) "" then inl (EMsg "architecture is mandatory")
    else if String.eqb (outputDir b) "" then inl (EMsg "output directory is mandatory")
    else if String.eqb (pullSecret b) "" then inl (EMsg "pull secret is mandatory")
    else match jqTool with
         | Some err => inl err
         | None => inr (BundleCreator.Mk (version b) (arch b) (outputDir b) (pullSecret b))
         end.

End BundleCreatorBuilder.

(** ** The command [create bundle] ([create_bundle_cmd.go])

    The logger and the console are those of the context of the command;
    they are taken to be present. *)

Module createBundleCommand.

Record flags := MkFlags {
    version : string;
    arch : string;
    outputDir : string;
    pullSecret : string
  }.

  (** [if flag == "" { console.Error(message); ok = false }] *)
Definition check (flag message : string) (ok : bool) : M bool :=
    if String.eqb flag "" then console_Error message [] ;;; ret false else ret ok.

Definition run (E : Env) (jqTool : option error) (c : flags) : M unit :=
    let* ok := check (version c) "Version is mandatory" true in
    let* ok := check (arch c) "Architecture is mandatory" ok in
    let* ok := check (outputDir c) "Output directory is mandatory" ok in
    let* ok := check (pullSecret c) "Pull secret is mandatory" ok in
    if negb ok then raise (exit_Error 1)
    else
      match BundleCreatorBuilder.Build jqTool
              (BundleCreatorBuilder.SetOutputDir (outputDir c)
                 (BundleCreatorBuilder.SetPullSecret (pullSecret c)
                    (BundleCreatorBuilder.SetArch (arch c)
                       (BundleCreatorBuilder.SetVersion (version c)
                          (BundleCreatorBuilder.SetConsole true
                             (BundleCreatorBuilder.SetLogger true
                                BundleCreatorBuilder.New)))))) with
      | inl err => logger_Error "Failed to create creator" ;;; raise (exit_Error 1)
      | inr creator =>
          on_error (BundleCreator.Run E creator)
                   (fun err => logger_Error "Failed to run creator" ;;; raise (exit_Error 1))
      end.

End createBundleCommand.

(** ** The log hook of the registry ([registry.go])

    The registry library logs through [logrus]; the hook hands every entry
    to the [logr] logger of the tool.  A value of [entry.Data] is modelled
    by its text. *)

Module registryLogrHook.

  (** The levels of [logrus], most severe first: their numbers are 0 to 6. *)
Inductive Level :=
| PanicLevel | FatalLevel | ErrorLevel | WarnLevel | InfoLevel | DebugLevel | TraceLevel.






End registryLogrHook.

(** ** Observations on a run *)

(** The image pulls of a run, in order, with their success. *)
Definition pull_of (ev : Event) : option (string * bool) :=
  match ev with
  | EvOp (OpPullImage ref) ok => Some (ref, ok)
  | _ => None
  end.
Definition pulls (evs : list Event) : list (string * bool) := omap pull_of evs.

(** The progress messages of a run: the texts patched (or attempted to be
    patched) into the progress annotation. *)
Definition progress_of (ev : Event) : option string :=
  match ev with
  | EvOp (ClientPatchAnnotation _ key text) _ =>
      if String.eqb key annotations.Progress then Some text else None
  | _ => None
  end.
Definition progress (evs : list Event) : list string := omap progress_of evs.

Definition is_progress_patch (op : Op) : bool :=
  match op with
  | ClientPatchAnnotation _ _ _ => true
  | _ => false
  end.

(** The structural operations of a load: runtime reconfiguration and
    reload, image pulls, the final label write. *)
Definition structural (op : Op) : bool :=
  match op with
  | OpCreatePinConf _ | OpCreateMirrorConf _ _ | OpRemoveMirrorConf | OpRemovePinConf
  | OpReloadService | OpPullImage _ | ClientGet _ | ClientPatchLabel _ _ _ => true
  | _ => false
  end.

Definition is_raise {A} (o : Outcome A) : Prop := ∃ e, o = Raise e.

(** The [Metadata] values a run encoded for [metadata.json]. *)
Definition marshalled_of (ev : Event) : option Metadata :=
  match ev with
  | EvOp (JsonMarshal m) true => Some m
  | _ => None
  end.
Definition recorded (evs : list Event) : list Metadata := omap marshalled_of evs.

(** The tags of the payload images a run announced, in order. *)
Definition payload_tag_of (ev : Event) : option string :=
  match ev with
  | EvConsole LInfo format [AInt _; AInt _; AStr tag] =>
      if String.eqb format "Downloading payload image %d of %d (%s) ..." then Some tag else None
  | _ => None
  end.
Definition payload_tags (evs : list Event) : list string := omap payload_tag_of evs.

(** The text of the k-th of n payload progress messages. *)
Definition pulled_k_of_n (n k : nat) : string :=
  Sprintf "Pulled %d of %d images" [AInt k; AInt n].

(** Where [dstRef] sends a source reference when the registry listens at
    [addr]. *)
Definition destination (addr src : string) : option string :=
  (fun ref => Sprintf "%s/%s:%s"
                [AStr addr; AStr (dreference.Path ref); AStr (BundleCreator.dstTag ref)])
    <$> dreference.ParseNamed src.

(** The image copies of a run, in order: the source and the target every
    [skopeo copy] was given, and whether it succeeded. *)
Definition copy_of (ev : Event) : option (string * string * bool) :=
  match ev with
  | EvOp (ExecRun [prog; verb; _; _; src; dst]) ok =>
      if String.eqb prog "skopeo" && String.eqb verb "copy" then Some (src, dst, ok) else None
  | _ => None
  end.
Definition copies (evs : list Event) : list (string * string * bool) := omap copy_of evs.

(** A successful copy of [src] to where [dstRef] sends it when the registry
    listens at [addr]. *)
Definition copy_to (addr src : string) : option (string * string * bool) :=
  (fun dst => (Sprintf "docker://%s" [AStr src], Sprintf "docker://%s" [AStr dst], true))
    <$> destination addr src.

(** The references of a map of (tag, reference) pairs, by ascending tag. *)
Definition by_tag (images : gmap string string) : list string :=
  (fun tag => default "" (images !! tag)) <$> slices_Sort (map_to_list images).*1.

(** The directory a bundle is assembled in, and its [metadata.json]. *)
Definition creator_dir (E : Env) (c : BundleCreator.t) : string :=
  filepath.Join [user_cache_dir E; "upgrade-tool";
                 Sprintf "%s-%s" [AStr (BundleCreator.version c); AStr (BundleCreator.arch c)]].
Definition creator_metadata_file (E : Env) (c : BundleCreator.t) : string :=
  filepath.Join [creator_dir E c; "metadata.json"].


(** The property the specification words for their order: the references
    of the pairs taken by ascending tag. *)
Definition images_in_tag_order (discovered : gmap string string) (images : list string) : Prop :=
  images = (fun tag => default "" (discovered !! tag)) <$> slices_Sort (map_to_list discovered).*1.

(** The observable state: file system, runtime configuration and storage,
    node objects, listeners. *)
Definition same_state (w1 w2 : World) : Prop :=
  fs w1 = fs w2 ∧ pin w1 = pin w2 ∧ mirror w1 = mirror w2 ∧ store w1 = store w2 ∧
  nodes w1 = nodes w2 ∧ listeners w1 = listeners w2.

(** ** Concrete environments and worlds, for the examples *)

Module Ex.

Definition release_digest : string :=
    "sha256:e73ab4b33a9c3ff00c9f800a38d69853ca0c4dfa5a88e3df331f66df8f18ec55".
Definition release : string := "quay.io/openshift-release-dev/ocp-release@" +:+ release_digest.
Definition img_a : string := "quay.io/openshift-release-dev/ocp-v4.0-art-dev:a1".
Definition img_b : string := "quay.io/openshift-release-dev/ocp-v4.0-art-dev:b1".

Definition metadata : Metadata := MkMetadata "4.13.4" "x86_64" release [img_a; img_b].

  (** A stand-in for the JSON encoding, enough to tell documents apart. *)
Definition marshal (m : Metadata) : string :=
    Version m +:+ "|" +:+ Arch m +:+ "|" +:+ Release m +:+ "|" +:+ String.concat "," (Images m).
Definition unmarshal (data : string) : JsonResult :=
    if String.eqb data "null" then JNull
    else if String.eqb data (marshal metadata) then JValue metadata
    else JInvalid.

  (** An environment in which the calls listed in [bad] fail and all
      others succeed; maps are iterated with seed [seed]. *)
Definition env (bad : Op -> bool) (seed : nat) : Env :=
    MkEnv (fun _ op => bad op)
          "/home/core/.cache"
          (fun n pattern => "/tmp/" +:+ pretty n +:+
                            match pattern with String "*" rest => rest | _ => pattern end)
          (fun _ addr => if String.eqb addr "localhost:5001" then "127.0.0.1:5001"
                         else "127.0.0.1:40123")
          (fun _ _ => ("CERTIFICATE", "RSA PRIVATE KEY"))
          (fun _ => (release_digest, [("b", img_b); ("a", img_a)]))
          (fun _ dir => "archive of " +:+ dir)
          "kind: Namespace"
          (fun _ => seed)
          marshal
          unmarshal.

Definition no_fault (op : Op) : bool := false.

  (** The environment of the scenario of the specification, with its
      literal references [img-a:1] and [img-b:1]. *)
Definition short_names : Env :=
    MkEnv (fun _ _ => false)
          "/home/core/.cache"
          (fun n pattern => "/tmp/" +:+ pretty n +:+
                            match pattern with String "*" rest => rest | _ => pattern end)
          (fun _ addr => if String.eqb addr "localhost:5001" then "127.0.0.1:5001"
                         else "127.0.0.1:40123")
          (fun _ _ => ("CERTIFICATE", "RSA PRIVATE KEY"))
          (fun _ => (release_digest, [("a", "img-a:1"); ("b", "img-b:1")]))
          (fun _ dir => "archive of " +:+ dir)
          "kind: Namespace"
          (fun _ => 0)
          marshal
          unmarshal.

Definition node1 : NodeObject := MkNode ∅ ∅.

  (** A node with an extracted bundle. *)
Definition extracted : World :=
    MkWorld (<["/var/lib/upgrade" := Dir]>
             (<["/var/lib/upgrade/metadata.json" := File (marshal metadata)]>
              (<["/var/lib/upgrade/docker" := Dir]>
               (<["/var/lib/upgrade.tmp" := Dir]> ∅))))
            None None [] {["node1" := node1]} [] 0.

  (** A node without the bundle directory. *)
Definition bare : World := MkWorld ∅ None None [] {["node1" := node1]} [] 0.

  (** A workstation on which a bundle can be created: the output directory,
      the pull secret, the cache and the temporary directory exist. *)
Definition workstation : World :=
    MkWorld (<["/out" := Dir]>
             (<["/pull-secret.json" := File "{}"]>
              (<["/home/core/.cache" := Dir]>
               (<["/tmp" := Dir]> ∅))))
            None None [] ∅ [] 0.

  (** The copies of a creation in the example environment: the release
      image, then the images of the tags [a] and [b], into the registry at
      [127.0.0.1:5001]. *)
Definition copied : list (string * string * bool) :=
    [("docker://" +:+ release,
      "docker://127.0.0.1:5001/openshift-release-dev/ocp-release:e73ab4b33a9c3ff00c9f800a38d69853ca0c4dfa5a88e3df331f66df8f18ec55",
      true);
     ("docker://quay.io/openshift-release-dev/ocp-v4.0-art-dev:a1",
      "docker://127.0.0.1:5001/openshift-release-dev/ocp-v4.0-art-dev:a1", true);
     ("docker://quay.io/openshift-release-dev/ocp-v4.0-art-dev:b1",
      "docker://127.0.0.1:5001/openshift-release-dev/ocp-v4.0-art-dev:b1", true)].

Definition loader : BundleLoader.t := BundleLoader.Mk "node1" "" "/var/lib/upgrade".
Definition cleaner : BundleCleaner.t := BundleCleaner.Mk "node1" "" "/var/lib/upgrade".
Definition creator : BundleCreator.t := BundleCreator.Mk "4.13.4" "x86_64" "/out" "/pull-secret.json".

End Ex.

(** * Properties *)

(** ** Examples of the library models *)

Example filepath_Join_output : filepath.Join ["/out"; "upgrade-4.13.4-x86_64"] = "/out/upgrade-4.13.4-x86_64".
Proof. reflexivity. Qed.
Example filepath_Join_cleans : filepath.Join [""; "a//b/../c/"; "."; "d"] = "a/c/d".
Proof. reflexivity. Qed.
Example filepath_Join_root : filepath.Join ["/"; ".."; "x"] = "/x".
Proof. reflexivity. Qed.
Example filepath_Clean_dotdot : filepath.Clean "../../a/.." = "../..".
Proof. reflexivity. Qed.
Example filepath_Base_file : filepath.Base "/out/upgrade-4.13.4-x86_64.tar" = "upgrade-4.13.4-x86_64.tar".
Proof. reflexivity. Qed.
Example filepath_Base_slashes : filepath.Base "///" = "/".
Proof. reflexivity. Qed.

Example sha256_abc :
  hex.EncodeToString (sha256.Sum_string "abc")
  = "ba7816bf8f01cfea414140de5dae2223b00361a396177a9cb410ff61f20015ad".
Proof. vm_compute. reflexivity. Qed.
Example sha256_empty :
  hex.EncodeToString (sha256.Sum_string "")
  = "e3b0c44298fc1c149afbf4c8996fb92427ae41e4649b934ca495991b7852b855".
Proof. vm_compute. reflexivity. Qed.
Example sha256_two_blocks :
  hex.EncodeToString
    (sha256.Sum_string "abcdbcdecdefdefgefghfghighijhijkijkljklmklmnlmnomnopnopq")
  = "248d6a61d20638b8e5c026930c3e6039a33ce45964ff2167f6ecedd419db06c1".
Proof. vm_compute. reflexivity. Qed.

Example ParseNamed_short_name : dreference.ParseNamed "img-a:1" = None.
Proof. reflexivity. Qed.
Example ParseNamed_digest :
  dreference.ParseNamed Ex.release
  = Some (dreference.MkNamed "quay.io" "openshift-release-dev/ocp-release" None
            (Some ("sha256", "e73ab4b33a9c3ff00c9f800a38d69853ca0c4dfa5a88e3df331f66df8f18ec55"))).
Proof. vm_compute. reflexivity. Qed.
Example ParseNamed_short_digest :
  dreference.ParseNamed "quay.io/openshift-release-dev/ocp-release@sha256:aa" = None.
Proof. vm_compute. reflexivity. Qed.
Example ParseNamed_upper_case_digest :
  dreference.ParseNamed
    "quay.io/openshift-release-dev/ocp-release@sha256:E73AB4B33A9C3FF00C9F800A38D69853CA0C4DFA5A88E3DF331F66DF8F18EC55"
  = None.
Proof. vm_compute. reflexivity. Qed.
Example ParseNamed_tag_and_port :
  dreference.ParseNamed "localhost:5001/openshift-release-dev/ocp-v4.0-art-dev:a1"
  = Some (dreference.MkNamed "localhost:5001" "openshift-release-dev/ocp-v4.0-art-dev"
            (Some "a1") None).
Proof. vm_compute. reflexivity. Qed.
Example ParseNamed_separators :
  dreference.ParseNamed "quay.io/a__b/c---d.e" <> None /\
  dreference.ParseNamed "quay.io/a___b" = None /\ dreference.ParseNamed "quay.io/a..b" = None /\
  dreference.ParseNamed "quay.io/-a" = None /\ dreference.ParseNamed "quay.io/Team/app" = None /\
  dreference.ParseNamed "quay.io/a:" = None /\ dreference.ParseNamed "quay.io/a:.b" = None /\
  dreference.ParseNamed "quay.io//a" = None /\ dreference.ParseNamed "quay..io/a" = None.
Proof. vm_compute. repeat split; [discriminate|reflexivity..]. Qed.
Example ParseNamed_not_canonical :
  dreference.ParseNamed "ubuntu" = None /\ dreference.ParseNamed "library/ubuntu" = None /\
  dreference.ParseNamed "docker.io/ubuntu" = None /\
  dreference.ParseNamed "index.docker.io/library/ubuntu" = None /\
  dreference.ParseNamed "docker.io/library/ubuntu" <> None.
Proof. vm_compute. repeat split; try reflexivity. discriminate. Qed.
Example ParseNamed_empty_domain :
  dreference.ParseNamed "a_b.c/app:1"
  = Some (dreference.MkNamed "" "a_b.c/app" (Some "1") None).
Proof. vm_compute. reflexivity. Qed.
Example Sprintf_progress : pulled_k_of_n 12 3 = "Pulled 3 of 12 images".
Proof. reflexivity. Qed.

(** ** The monad *)

Section Monad.
Context {A B : Type}.
Implicit Types (m : M A) (f : A -> M B) (w : World).

Lemma bind_ret_step m f w a :
    outcome (m w) = Ret a ->
    bind m f w = MkResult (outcome (f a (world (m w)))) (world (f a (world (m w))))
                          (events (m w) ++ events (f a (world (m w)))).
  Proof. intros H. unfold bind. rewrite H. reflexivity. Qed.

Lemma bind_raise_step m f w e :
    outcome (m w) = Raise e ->
    bind m f w = MkResult (Raise e) (world (m w)) (events (m w)).
  Proof. intros H. unfold bind. rewrite H. reflexivity. Qed.

Lemma bind_panic_step m f w msg :
    outcome (m w) = Panic msg ->
    bind m f w = MkResult (Panic msg) (world (m w)) (events (m w)).
  Proof. intros H. unfold bind. rewrite H. reflexivity. Qed.

  (** A normal return of a sequence is a normal return of both parts. *)
Lemma bind_inv_ret m f w b :
    outcome (bind m f w) = Ret b ->
    exists a, outcome (m w) = Ret a /\
              outcome (f a (world (m w))) = Ret b /\
              world (bind m f w) = world (f a (world (m w))) /\
              events (bind m f w) = events (m w) ++ events (f a (world (m w))).
  Proof.
    unfold bind. destruct (outcome (m w)) as [a|e|msg] eqn:Hm; cbn; intros H; try discriminate.
    exists a. auto.
  Qed.

End Monad.

Section OnError.
Context {A : Type}.
Implicit Types (m : M A) (h : error -> M A) (w : World).

Lemma on_error_ret_step m h w a : outcome (m w) = Ret a -> on_error m h w = m w.
Proof. intros H. unfold on_error. rewrite H. reflexivity. Qed.

Lemma on_error_panic_step m h w msg : outcome (m w) = Panic msg -> on_error m h w = m w.
Proof. intros H. unfold on_error. rewrite H. reflexivity. Qed.

Lemma on_error_raise_step m h w e :
  outcome (m w) = Raise e ->
  on_error m h w = MkResult (outcome (h e (world (m w)))) (world (h e (world (m w))))
                            (events (m w) ++ events (h e (world (m w)))).
Proof. intros H. unfold on_error. rewrite H. reflexivity. Qed.

Lemma on_error_inv_ret m h w a :
  outcome (on_error m h w) = Ret a ->
  (outcome (m w) = Ret a /\ on_error m h w = m w) \/
  (exists e, outcome (m w) = Raise e /\ outcome (h e (world (m w))) = Ret a /\
             world (on_error m h w) = world (h e (world (m w))) /\
             events (on_error m h w) = events (m w) ++ events (h e (world (m w)))).
Proof.
  destruct (outcome (m w)) as [a'|e|msg] eqn:Hm.
  - rewrite (on_error_ret_step _ _ _ _ Hm). rewrite Hm. intros [= ->]. left. auto.
  - rewrite (on_error_raise_step _ _ _ _ Hm). cbn. intros H. right. exists e. auto.
  - rewrite (on_error_panic_step _ _ _ _ Hm). rewrite Hm. discriminate.
Qed.

End OnError.

Lemma call_inv_ret {A} (E : Env) (o : Op) (f : World -> error + A * World) w a :
  outcome (call E o f w) = Ret a ->
  exists w', fails E (clock w) o = false /\ f w = inr (a, w') /\
             world (call E o f w) = tick w' /\ events (call E o f w) = [EvOp o true].
Proof.
  unfold call. destruct (fails E (clock w) o); cbn; [discriminate|].
  destruct (f w) as [e|[a' w']]; cbn; [discriminate|].
  intros [= ->]. eauto.
Qed.

Lemma call_events {A} (E : Env) (o : Op) (f : World -> error + A * World) w :
  exists ok, events (call E o f w) = [EvOp o ok] /\
             (ok = true <-> exists a, outcome (call E o f w) = Ret a) /\
             (ok = false <-> is_raise (outcome (call E o f w))).
Proof.
  unfold call, is_raise. destruct (fails E (clock w) o); cbn.
  - exists false. split; [done|]. split; split; try done; eauto. intros [? ?]; done.
  - destruct (f w) as [e|[a' w']]; cbn.
    + exists false. split; [done|]. split; split; try done; eauto. intros [? ?]; done.
    + exists true. split; [done|]. split; split; try done; eauto. intros [? ?]; done.
Qed.

Lemma same_state_refl w : same_state w w.
Proof. unfold same_state. auto 10. Qed.

Lemma same_state_tick w : same_state w (tick w).
Proof. unfold same_state. auto 10. Qed.

(** ** The loader on a missing bundle directory *)

Lemma checkBundleDir_missing E l w :
  fs w !! BundleLoader.absolutePath l (BundleLoader.bundleDir l) = None ->
  let r := BundleLoader.checkBundleDir E l w in
  (outcome r = Ret false \/ is_raise (outcome r)) /\
  events r = [EvOp (OsStat (BundleLoader.absolutePath l (BundleLoader.bundleDir l))) false] /\
  world r = tick w.
Proof.
  intros Hdir. unfold BundleLoader.checkBundleDir, on_error, bind, os_Stat, call, is_raise.
  destruct (fails E (clock w) _); cbn.
  - eauto.
  - rewrite Hdir. destruct (String.eqb _ ""); cbn; eauto.
Qed.

(** C6.  A load against a bundle directory that does not exist fails at
    once: the run returns an error, the only thing it did is the failed
    [Stat] of the directory (so no registry was built or started, no pin or
    mirror configuration was written, the runtime was not reloaded, nothing
    was pulled and no label or annotation was patched), and the observable
    state is the one before the run. *)
Theorem loader_fails_without_bundle_dir (E : Env) (l : BundleLoader.t) (w : World) :
  fs w !! BundleLoader.absolutePath l (BundleLoader.bundleDir l) = None ->
  is_raise (outcome (BundleLoader.Run E l w)) /\
  events (BundleLoader.Run E l w)
    = [EvOp (OsStat (BundleLoader.absolutePath l (BundleLoader.bundleDir l))) false] /\
  same_state w (world (BundleLoader.Run E l w)).
Proof.
  intros Hdir.
  destruct (checkBundleDir_missing E l w Hdir) as ([Hout|[e Hout]] & Hev & Hw).
  - unfold BundleLoader.Run. rewrite (bind_ret_step _ _ _ _ Hout). cbn.
    rewrite Hev, Hw. split; [unfold is_raise; eauto|]. split; [reflexivity|apply same_state_tick].
  - unfold BundleLoader.Run. rewrite (bind_raise_step _ _ _ _ Hout). cbn.
    rewrite Hev, Hw. split; [unfold is_raise; eauto|]. split; [reflexivity|apply same_state_tick].
Qed.

Lemma loader_fails_without_bundle_dir_witness :
  fs Ex.bare !! BundleLoader.absolutePath Ex.loader (BundleLoader.bundleDir Ex.loader) = None /\
  is_raise (outcome (BundleLoader.Run (Ex.env Ex.no_fault 0) Ex.loader Ex.bare)) /\
  events (BundleLoader.Run (Ex.env Ex.no_fault 0) Ex.loader Ex.bare)
    = [EvOp (OsStat "/var/lib/upgrade") false].
Proof.
  split; [vm_compute; reflexivity|].
  destruct (loader_fails_without_bundle_dir (Ex.env Ex.no_fault 0) Ex.loader Ex.bare)
    as (H1 & H2 & _); [vm_compute; reflexivity|].
  split; [exact H1|exact H2].
Defined.

(** ** The registry: what [Stop] removes *)

Lemma lookup_remove_tree name f p :
  remove_tree name f !! p = if within name p then None else f !! p.
Proof.
  unfold remove_tree. destruct (within name p) eqn:Hw.
  - apply map_lookup_filter_None. right. intros x _. cbn. rewrite Hw. discriminate.
  - destruct (f !! p) as [x|] eqn:Hp.
    + apply map_lookup_filter_Some. split; [exact Hp|]. cbn. exact Hw.
    + apply map_lookup_filter_None. left. exact Hp.
Qed.

Lemma within_refl name : within name name = true.
Proof. unfold within. rewrite String.eqb_refl. reflexivity. Qed.

(** A registry without a server cannot be stopped: the call panics before
    it reaches the removal of the temporary directory. *)
Lemma Stop_without_server E r w :
  Registry.server r = None ->
  Registry.Stop E r w = MkResult (Panic "invalid memory address or nil pointer dereference") w [].
Proof. intros H. unfold Registry.Stop. rewrite H. reflexivity. Qed.

(** A failed [Start] leaves the registry without a server. *)
Lemma Start_failure_keeps_server E r w r' e :
  outcome (Registry.Start E r w) = Ret (r', Some e) ->
  Registry.server r' = Registry.server r.
Proof.
  unfold Registry.Start.
  generalize (filepath.Join [Registry.tmp r; "tls.crt"]) as certFile.
  generalize (filepath.Join [Registry.tmp r; "tls.key"]) as keyFile.
  intros keyFile certFile H.
  apply on_error_inv_ret in H as [[H _]|(e0 & _ & H & _)].
  - apply bind_inv_ret in H as (u1 & _ & H & _).
    apply bind_inv_ret in H as (u2 & _ & H & _).
    apply on_error_inv_ret in H as [[H _]|(e1 & _ & H & _)].
    + apply bind_inv_ret in H as (addr & _ & H & _). cbn in H. congruence.
    + cbn in H. injection H as <- <-. reflexivity.
  - cbn in H. injection H as <- <-. reflexivity.
Qed.

(** When the shutdown and the removal succeed, [Stop] removes the
    temporary directory with everything in it and nothing else. *)
Lemma Stop_removes_tmp E r w :
  outcome (Registry.Stop E r w) = Ret tt ->
  Registry.tmp r <> "" ->
  fs (world (Registry.Stop E r w)) !! Registry.tmp r = None /\
  forall p, within (Registry.tmp r) p = false ->
            fs (world (Registry.Stop E r w)) !! p = fs w !! p.
Proof.
  unfold Registry.Stop, Registry.server_Shutdown, os_RemoveAll.
  destruct (Registry.server r) as [a|]; [|discriminate].
  intros H Htmp. apply bind_inv_ret in H as (u & H1 & H2 & Hw & _). rewrite Hw.
  apply call_inv_ret in H1 as (w1 & _ & [= <-] & Hw1 & _). rewrite Hw1 in *.
  apply call_inv_ret in H2 as (w2 & _ & H2 & Hw2 & _). rewrite Hw2.
  apply String.eqb_neq in Htmp. rewrite Htmp in H2.
  destruct (ends_with_dot (Registry.tmp r)); [discriminate|].
  injection H2 as <-. subst w1. cbn.
  split; [rewrite lookup_remove_tree, within_refl; reflexivity|].
  intros p Hp. rewrite lookup_remove_tree, Hp. reflexivity.
Qed.

Definition listen_fails (op : Op) : bool :=
  match op with NetListen _ => true | _ => false end.
Definition shutdown_fails (op : Op) : bool :=
  match op with ServerShutdown _ => true | _ => false end.

(** C3.  [Stop] does not always remove the temporary directory.  A
    registry is built for [localhost:5001] over the data root [/data];
    (1) its [Start] fails at [net.Listen], after the TLS files were
    written: [Stop] then panics on the nil server, and the temporary
    directory and the TLS files in it are still there; (2) its [Start]
    succeeds but the shutdown fails (the deadline expires): [Stop] returns
    the error and the temporary directory is still there. *)
Theorem registry_stop_leaves_tmp :
  let b := RegistryBuilder.Mk true "localhost:5001" "/data" None None in
  (let E := Ex.env listen_fails 0 in
   let built := Registry.Build E b Ex.bare in
   exists r, outcome built = Ret r /\ Registry.tmp r = "/tmp/0.registry" /\
   let started := Registry.Start E r (world built) in
   exists r', outcome started = Ret (r', Some (EFault (NetListen "localhost:5001"))) /\
   let stopped := Registry.Stop E r' (world started) in
   outcome stopped = Panic "invalid memory address or nil pointer dereference" /\
   fs (world stopped) !! "/tmp/0.registry" = Some Dir /\
   fs (world stopped) !! "/tmp/0.registry/tls.key" = Some (File "RSA PRIVATE KEY")) /\
  (let E := Ex.env shutdown_fails 0 in
   let built := Registry.Build E b Ex.bare in
   exists r, outcome built = Ret r /\ Registry.tmp r = "/tmp/0.registry" /\
   let started := Registry.Start E r (world built) in
   exists r', outcome started = Ret (r', None) /\
   let stopped := Registry.Stop E r' (world started) in
   outcome stopped = Raise (EFault (ServerShutdown "127.0.0.1:5001")) /\
   fs (world stopped) !! "/tmp/0.registry" = Some Dir).
Proof.
  split.
  - eexists. split; [vm_compute; reflexivity|]. split; [reflexivity|].
    eexists. split; [vm_compute; reflexivity|].
    vm_compute. auto.
  - eexists. split; [vm_compute; reflexivity|]. split; [reflexivity|].
    eexists. split; [vm_compute; reflexivity|].
    vm_compute. auto.
Qed.

(** ** Procedures that keep a part of the world *)

Section Keeps.
Context {X : Type} (proj : World -> X).

(** Whatever its outcome, [m] leaves [proj] of the world as it was. *)
Definition keeps {A} (m : M A) : Prop := forall w, proj (world (m w)) = proj w.

Lemma keeps_ret {A} (a : A) : keeps (ret a).
Proof. intros w. reflexivity. Qed.
Lemma keeps_raise {A} e : keeps (@raise A e).
Proof. intros w. reflexivity. Qed.
Lemma keeps_panic {A} msg : keeps (@panic A msg).
Proof. intros w. reflexivity. Qed.
Lemma keeps_emit ev : keeps (emit ev).
Proof. intros w. reflexivity. Qed.

Lemma keeps_bind {A B} (m : M A) (f : A -> M B) :
  keeps m -> (forall a, keeps (f a)) -> keeps (bind m f).
Proof.
  intros Hm Hf w. unfold bind. destruct (outcome (m w)) eqn:Ho; cbn; [|apply Hm..].
  rewrite Hf. apply Hm.
Qed.

Lemma keeps_on_error {A} (m : M A) (h : error -> M A) :
  keeps m -> (forall e, keeps (h e)) -> keeps (on_error m h).
Proof.
  intros Hm Hh w. unfold on_error. destruct (outcome (m w)) eqn:Ho; cbn; [apply Hm| |apply Hm].
  rewrite Hh. apply Hm.
Qed.

Lemma keeps_defer {A} (d : M unit) (m : M A) : keeps d -> keeps m -> keeps (defer d m).
Proof. intros Hd Hm w. unfold defer. cbn. rewrite Hd. apply Hm. Qed.

Lemma keeps_call {A} E o (f : World -> error + A * World) :
  (forall w, proj (tick w) = proj w) ->
  (forall w a w', f w = inr (a, w') -> proj w' = proj w) -> keeps (call E o f).
Proof.
  intros proj_tick Hf w. unfold call. destruct (fails E (clock w) o); cbn; [apply proj_tick|].
  destruct (f w) as [e|[a w']] eqn:Hfw; cbn; [apply proj_tick|].
  rewrite proj_tick. eapply Hf, Hfw.
Qed.

End Keeps.

(** Decompose a procedure into its calls; [tac] has to show that the
    effect of each call keeps the projection. *)
Ltac keeps_calls tac :=
  repeat first
    [ apply keeps_ret | apply keeps_raise | apply keeps_panic | apply keeps_emit
    | apply keeps_bind; [|intros ?]
    | apply keeps_on_error; [|intros ?]
    | apply keeps_defer
    | apply keeps_call;
      [ reflexivity
      | let w := fresh "w" in let a := fresh "a" in let w' := fresh "w'" in
        let H := fresh "H" in
        intros w a w' H;
        repeat match type of H with
               | context [match ?x with _ => _ end] => destruct x
               | context [if ?b then _ else _] => destruct b
               end;
        try discriminate; try (injection H as <- <-); tac ]
    | reflexivity
    | match goal with
      | |- keeps _ (match ?x with _ => _ end) => destruct x
      | |- keeps _ (if ?b then _ else _) => destruct b
      end ].

Ltac keeps_auto := keeps_calls ltac:(try reflexivity).

Section KeepsLoader.
Context (E : Env).

Definition conf (w : World) : option (list string) * option (string * list string) :=
  (pin w, mirror w).

Lemma logger_Info_keeps {X} (proj : World -> X) msg : keeps proj (logger_Info msg).
Proof. apply keeps_emit. Qed.

Lemma reportProgress_keeps_conf l format args :
  keeps conf (BundleLoader.reportProgress E l format args).
Proof. unfold BundleLoader.reportProgress, client.PatchAnnotation, logger_Info, logger_Error. keeps_auto. Qed.

Lemma pullPayload_keeps_conf l i n refs : keeps conf (BundleLoader.pullPayload E l i n refs).
Proof.
  revert i. induction refs as [|ref rest IH]; intros i; cbn [BundleLoader.pullPayload].
  - apply keeps_ret.
  - apply keeps_bind; [unfold CRIOTool.PullImage; keeps_auto|intros _].
    apply keeps_bind; [apply reportProgress_keeps_conf|intros _]. apply IH.
Qed.

Lemma populateCRIO_keeps_conf l release refs :
  keeps conf (BundleLoader.populateCRIO E l release refs).
Proof.
  unfold BundleLoader.populateCRIO.
  apply keeps_bind; [unfold CRIOTool.PullImage; keeps_auto|intros _].
  apply keeps_bind; [apply reportProgress_keeps_conf|intros _].
  apply pullPayload_keeps_conf.
Qed.

Lemma Stop_keeps_conf r : keeps conf (Registry.Stop E r).
Proof. unfold Registry.Stop, Registry.server_Shutdown, os_RemoveAll. keeps_auto. Qed.

Lemma deleteBundle_keeps_conf l : keeps conf (BundleLoader.deleteBundle E l).
Proof. unfold BundleLoader.deleteBundle, os_RemoveAll, logger_Info. keeps_auto. Qed.

Lemma loader_writeResult_keeps_conf l : keeps conf (BundleLoader.writeResult E l).
Proof.
  unfold BundleLoader.writeResult, client.Get, client.PatchLabel, logger_Info. keeps_auto.
Qed.

End KeepsLoader.

(** ** The runtime configuration after a load and after a clean *)

Section Conf.
Context (E : Env).

Lemma checkBundleDir_keeps_fs l : keeps fs (BundleLoader.checkBundleDir E l).
Proof. unfold BundleLoader.checkBundleDir, os_Stat. keeps_auto. Qed.

Lemma readMetadata_ret l w m :
  outcome (BundleLoader.readMetadata E l w) = Ret m ->
  exists data,
    fs w !! filepath.Join [BundleLoader.absolutePath l (BundleLoader.bundleDir l); "metadata.json"]
      = Some (File data) /\
    json_Unmarshal E data = JValue m.
Proof.
  unfold BundleLoader.readMetadata, os_ReadFile, BundleLoader.json_decode. intros H.
  apply bind_inv_ret in H as (data & Hread & H & _).
  apply call_inv_ret in Hread as (w1 & _ & Hread & _).
  exists data. destruct (fs w !! _) as [[|d]|]; try discriminate. injection Hread as -> _.
  split; [reflexivity|].
  apply bind_inv_ret in H as (res & Hdec & H & _).
  destruct (json_Unmarshal E data) as [| |m']; cbn in Hdec; try discriminate.
  - injection Hdec as <-. discriminate.
  - injection Hdec as <-. cbn in H. congruence.
Qed.

Lemma configureCRIO_ret l addr refs w :
  outcome (BundleLoader.configureCRIO E l addr refs w) = Ret tt ->
  conf (world (BundleLoader.configureCRIO E l addr refs w)) = (Some refs, Some (addr, refs)).
Proof.
  unfold BundleLoader.configureCRIO, CRIOTool.CreatePinConf, CRIOTool.CreateMirrorConf,
    CRIOTool.ReloadService. intros H.
  apply bind_inv_ret in H as (u1 & H1 & H & Hw & _). rewrite Hw. clear Hw.
  apply call_inv_ret in H1 as (w1 & _ & Heq & Hw1 & _). simplify_eq. rewrite Hw1 in *. clear Hw1.
  apply bind_inv_ret in H as (u2 & H2 & H & Hw & _). rewrite Hw. clear Hw.
  apply call_inv_ret in H2 as (w2 & _ & Heq & Hw2 & _). simplify_eq. rewrite Hw2 in *. clear Hw2.
  apply call_inv_ret in H as (w3 & _ & Heq & Hw3 & _). simplify_eq. rewrite Hw3. reflexivity.
Qed.

Lemma deconfigureCRIO_ret l w :
  outcome (BundleLoader.deconfigureCRIO E l w) = Ret tt ->
  conf (world (BundleLoader.deconfigureCRIO E l w)) = (pin w, None).
Proof.
  unfold BundleLoader.deconfigureCRIO, CRIOTool.RemoveMirrorConf, CRIOTool.ReloadService.
  intros H.
  apply bind_inv_ret in H as (u1 & H1 & H & Hw & _). rewrite Hw. clear Hw.
  apply call_inv_ret in H1 as (w1 & _ & Heq & Hw1 & _). simplify_eq. rewrite Hw1 in *. clear Hw1.
  apply call_inv_ret in H as (w3 & _ & Heq & Hw3 & _). simplify_eq. rewrite Hw3. reflexivity.
Qed.

Lemma cleanCRIO_ret c w :
  outcome (BundleCleaner.cleanCRIO E c w) = Ret tt ->
  conf (world (BundleCleaner.cleanCRIO E c w)) = (None, None).
Proof.
  unfold BundleCleaner.cleanCRIO, CRIOTool.RemoveMirrorConf, CRIOTool.RemovePinConf,
    CRIOTool.ReloadService. intros H.
  apply bind_inv_ret in H as (u1 & H1 & H & Hw & _). rewrite Hw. clear Hw.
  apply call_inv_ret in H1 as (w1 & _ & Heq & Hw1 & _). simplify_eq. rewrite Hw1 in *. clear Hw1.
  apply bind_inv_ret in H as (u2 & H2 & H & Hw & _). rewrite Hw. clear Hw.
  apply call_inv_ret in H2 as (w2 & _ & Heq & Hw2 & _). simplify_eq. rewrite Hw2 in *. clear Hw2.
  apply call_inv_ret in H as (w3 & _ & Heq & Hw3 & _). simplify_eq. rewrite Hw3. reflexivity.
Qed.

Lemma cleaner_writeResult_keeps_conf c : keeps conf (BundleCleaner.writeResult E c).
Proof.
  unfold BundleCleaner.writeResult, client.Get, client.PatchLabel, logger_Info. keeps_auto.
Qed.

Lemma loader_Run_conf l w :
  outcome (BundleLoader.Run E l w) = Ret tt ->
  exists data m,
    fs w !! filepath.Join [BundleLoader.absolutePath l (BundleLoader.bundleDir l); "metadata.json"]
      = Some (File data) /\
    json_Unmarshal E data = JValue m /\
    conf (world (BundleLoader.Run E l w)) = (Some (Images m), None).
Proof.
  unfold BundleLoader.Run. intros H.
  apply bind_inv_ret in H as (ex & Hc & H & Hw & _). rewrite Hw. clear Hw.
  destruct ex; cbn [negb] in H |- *; [|discriminate].
  apply bind_inv_ret in H as (m & Hm & H & Hw & _). rewrite Hw. clear Hw.
  apply readMetadata_ret in Hm as (data & Hfile & Hjson).
  rewrite checkBundleDir_keeps_fs in Hfile.
  exists data, m. split; [exact Hfile|]. split; [exact Hjson|].
  apply bind_inv_ret in H as (reg & _ & H & Hw & _). rewrite Hw. clear Hw.
  apply bind_inv_ret in H as (u0 & _ & H & Hw & _). rewrite Hw. clear Hw.
  apply bind_inv_ret in H as (addr & _ & H & Hw & _). rewrite Hw. clear Hw.
  apply bind_inv_ret in H as ([] & Hconf & H & Hw & _). rewrite Hw. clear Hw.
  apply configureCRIO_ret in Hconf.
  apply bind_inv_ret in H as (u2 & _ & H & Hw & _). rewrite Hw. clear Hw.
  apply bind_inv_ret in H as ([] & Hdeconf & H & Hw & _). rewrite Hw. clear Hw.
  apply deconfigureCRIO_ret in Hdeconf.
  match type of Hdeconf with
  | context [pin (world (BundleLoader.populateCRIO E l ?r ?i ?w0))] =>
      pose proof (populateCRIO_keeps_conf E l r i w0) as Hk
  end.
  rewrite Hconf in Hk. injection Hk as Hp _.
  apply bind_inv_ret in H as (u4 & _ & H & Hw & _). rewrite Hw. clear Hw.
  apply bind_inv_ret in H as (u5 & _ & H & Hw & _). rewrite Hw. clear Hw.
  apply bind_inv_ret in H as (u6 & _ & H & Hw & _). rewrite Hw. clear Hw.
  apply bind_inv_ret in H as (u7 & _ & H & Hw & _). rewrite Hw. clear Hw.
  rewrite loader_writeResult_keeps_conf, deleteBundle_keeps_conf.
  rewrite (logger_Info_keeps conf), Stop_keeps_conf, (logger_Info_keeps conf).
  rewrite Hdeconf. f_equal. exact Hp.
Qed.

Lemma cleaner_Run_conf c w :
  outcome (BundleCleaner.Run E c w) = Ret tt ->
  conf (world (BundleCleaner.Run E c w)) = (None, None).
Proof.
  unfold BundleCleaner.Run. intros H.
  apply bind_inv_ret in H as (u1 & _ & H & Hw & _). rewrite Hw. clear Hw.
  apply bind_inv_ret in H as (u2 & _ & H & Hw & _). rewrite Hw. clear Hw.
  apply bind_inv_ret in H as ([] & Hclean & H & Hw & _). rewrite Hw. clear Hw.
  apply cleanCRIO_ret in Hclean.
  apply bind_inv_ret in H as (u4 & _ & H & Hw & _). rewrite Hw. clear Hw.
  rewrite cleaner_writeResult_keeps_conf, (logger_Info_keeps conf). exact Hclean.
Qed.

End Conf.

(** C4.  After a successful load the mirror entry is absent and the pin
    entry lists the images of the bundle, that is the [images] of the
    [metadata.json] the bundle directory held when the load began; after a
    successful clean the mirror entry and the pin entry are both absent. *)
Theorem conf_after_load_and_clean (E : Env) :
  (forall (l : BundleLoader.t) (w : World),
     outcome (BundleLoader.Run E l w) = Ret tt ->
     exists data m,
       fs w !! filepath.Join [BundleLoader.absolutePath l (BundleLoader.bundleDir l);
                              "metadata.json"] = Some (File data) /\
       json_Unmarshal E data = JValue m /\
       mirror (world (BundleLoader.Run E l w)) = None /\
       pin (world (BundleLoader.Run E l w)) = Some (Images m)) /\
  (forall (c : BundleCleaner.t) (w : World),
     outcome (BundleCleaner.Run E c w) = Ret tt ->
     mirror (world (BundleCleaner.Run E c w)) = None /\
     pin (world (BundleCleaner.Run E c w)) = None).
Proof.
  split.
  - intros l w H. destruct (loader_Run_conf E l w H) as (data & m & Hf & Hj & Hc).
    exists data, m. injection Hc as Hp Hm. auto.
  - intros c w H. pose proof (cleaner_Run_conf E c w H) as Hc.
    injection Hc as Hp Hm. auto.
Qed.

Lemma conf_after_load_and_clean_witness :
  let E := Ex.env Ex.no_fault 0 in
  let loaded := BundleLoader.Run E Ex.loader Ex.extracted in
  let cleaned := BundleCleaner.Run E Ex.cleaner (world loaded) in
  (outcome loaded = Ret tt /\ mirror (world loaded) = None /\
   pin (world loaded) = Some [Ex.img_a; Ex.img_b]) /\
  (outcome cleaned = Ret tt /\ mirror (world cleaned) = None /\ pin (world cleaned) = None).
Proof.
  intros E loaded cleaned.
  destruct (conf_after_load_and_clean E) as [Hload Hclean].
  assert (Hl : outcome loaded = Ret tt) by (vm_compute; reflexivity).
  assert (Hc : outcome cleaned = Ret tt) by (vm_compute; reflexivity).
  split.
  - destruct (Hload Ex.loader Ex.extracted Hl) as (data & m & Hf & Hj & Hm & Hp).
    split; [exact Hl|]. split; [exact Hm|].
    vm_compute in Hf. injection Hf as <-. vm_compute in Hj. injection Hj as <-.
    exact Hp.
  - destruct (Hclean Ex.cleaner (world loaded) Hc) as (Hm & Hp). auto.
Defined.

(** ** The cleaner run twice *)

(** What [RemoveAll] leaves of a file system, and when it succeeds. *)
Definition removed (name : string) (f : gmap string FsNode) : gmap string FsNode :=
  if String.eqb name "" then f else remove_tree name f.
Definition removable (name : string) : bool :=
  String.eqb name "" || negb (ends_with_dot name).

(** The node object with the label set. *)
Definition labelled (key : string) (obj : NodeObject) : NodeObject :=
  MkNode (<[key := "true"]> (Labels obj)) (Annotations obj).

(** The state a successful clean leaves (the clock apart). *)
Definition clean_state (c : BundleCleaner.t) (obj : NodeObject) (w : World) : World :=
  let dir := BundleCleaner.absolutePath c (BundleCleaner.bundleDir c) in
  MkWorld (removed (dir +:+ ".tmp") (removed dir (fs w))) None None (store w)
          (<[BundleCleaner.node c := labelled labels.BundleCleaned obj]> (nodes w))
          (listeners w) (clock w).

Lemma same_state_trans w1 w2 w3 : same_state w1 w2 -> same_state w2 w3 -> same_state w1 w3.
Proof. unfold same_state. intuition congruence. Qed.

Lemma same_state_sym w1 w2 : same_state w1 w2 -> same_state w2 w1.
Proof. unfold same_state. intuition congruence. Qed.

Lemma set_fs_id w : set_fs (fs w) w = w.
Proof. destruct w. reflexivity. Qed.

Lemma call_ok {A} (E : Env) (o : Op) (f : World -> error + A * World) w a w' :
  fails E (clock w) o = false -> f w = inr (a, w') ->
  call E o f w = MkResult (Ret a) (tick w') [EvOp o true].
Proof. intros Hf Hw. unfold call. rewrite Hf, Hw. reflexivity. Qed.

Lemma os_RemoveAll_ret E name w :
  outcome (os_RemoveAll E name w) = Ret tt ->
  removable name = true /\
  world (os_RemoveAll E name w) = tick (set_fs (removed name (fs w)) w).
Proof.
  unfold os_RemoveAll, removable, removed. intros H.
  apply call_inv_ret in H as (w' & _ & H & Hw & _). rewrite Hw.
  destruct (String.eqb name ""); [simplify_eq; rewrite set_fs_id; auto|].
  destruct (ends_with_dot name); [discriminate|]. simplify_eq. auto.
Qed.

Lemma os_RemoveAll_ok E name w :
  fails E (clock w) (OsRemoveAll name) = false -> removable name = true ->
  os_RemoveAll E name w
  = MkResult (Ret tt) (tick (set_fs (removed name (fs w)) w)) [EvOp (OsRemoveAll name) true].
Proof.
  unfold os_RemoveAll, removable, removed. intros Hf Hr.
  destruct (String.eqb name "") eqn:Hn.
  - rewrite set_fs_id. apply call_ok; [exact Hf|reflexivity].
  - destruct (ends_with_dot name); [discriminate|].
    apply call_ok; [exact Hf|reflexivity].
Qed.

Lemma lookup_removed name f p :
  removed name f !! p = if negb (String.eqb name "") && within name p then None else f !! p.
Proof.
  unfold removed. destruct (String.eqb name ""); cbn; [reflexivity|].
  apply lookup_remove_tree.
Qed.

(** Removing the same two trees a second time changes nothing. *)
Lemma removed_twice a b f :
  removed a (removed b (removed a (removed b f))) = removed a (removed b f).
Proof.
  apply map_eq. intros p. rewrite !lookup_removed.
  destruct (negb (String.eqb a "") && within a p), (negb (String.eqb b "") && within b p);
    reflexivity.
Qed.

Lemma bytes_app a b : Str.bytes (a +:+ b) = Str.bytes a ++ Str.bytes b.
Proof.
  unfold Str.bytes. induction a as [|c a IH]; [reflexivity|].
  change (c :: list_ascii_of_string (a +:+ b)
          = c :: (list_ascii_of_string a ++ list_ascii_of_string b)).
  rewrite IH. reflexivity.
Qed.

Lemma removable_tmp dir : removable (dir +:+ ".tmp") = true.
Proof.
  unfold removable, ends_with_dot. rewrite bytes_app. cbn [Str.bytes list_ascii_of_string].
  rewrite rev_app_distr. cbn. apply orb_true_r.
Qed.

Lemma Sprintf_tmp dir : Sprintf "%s.tmp" [AStr dir] = dir +:+ ".tmp".
Proof. reflexivity. Qed.

Lemma bind_ret_intro {A B} (m : M A) (f : A -> M B) w a b :
  outcome (m w) = Ret a -> outcome (f a (world (m w))) = Ret b ->
  outcome (bind m f w) = Ret b.
Proof. intros Hm Hf. rewrite (bind_ret_step _ _ _ _ Hm). exact Hf. Qed.

Definition no_faults (E : Env) : Prop := forall n op, fails E n op = false.

Section Cleaner.
Context (E : Env).

Lemma cleanBundleDir_keeps_nodes c : keeps nodes (BundleCleaner.cleanBundleDir E c).
Proof. unfold BundleCleaner.cleanBundleDir, os_RemoveAll, logger_Info. keeps_auto. Qed.

Lemma cleanCRIO_keeps_nodes c : keeps nodes (BundleCleaner.cleanCRIO E c).
Proof.
  unfold BundleCleaner.cleanCRIO, CRIOTool.RemoveMirrorConf, CRIOTool.RemovePinConf,
    CRIOTool.ReloadService. keeps_auto.
Qed.

Lemma cleanBundleDir_ret c w :
  let dir := BundleCleaner.absolutePath c (BundleCleaner.bundleDir c) in
  outcome (BundleCleaner.cleanBundleDir E c w) = Ret tt ->
  removable dir = true /\
  same_state (world (BundleCleaner.cleanBundleDir E c w))
             (set_fs (removed (dir +:+ ".tmp") (removed dir (fs w))) w).
Proof.
  intros dir. unfold BundleCleaner.cleanBundleDir. fold dir. rewrite Sprintf_tmp. intros H.
  apply bind_inv_ret in H as ([] & H1 & H & Hw & _). rewrite Hw. clear Hw.
  apply os_RemoveAll_ret in H1 as (Hr & Hw1). rewrite Hw1 in *. clear Hw1.
  split; [exact Hr|].
  apply bind_inv_ret in H as ([] & _ & H & Hw & _). rewrite Hw. clear Hw.
  apply bind_inv_ret in H as ([] & H2 & H & Hw & _). rewrite Hw. clear Hw.
  apply os_RemoveAll_ret in H2 as (_ & Hw2).
  change (world (logger_Info "Removed bundle directory" ?x)) with x.
  cbn [logger_Info emit world] in Hw2 |- *. rewrite Hw2.
  unfold same_state. cbn. auto 10.
Qed.

Lemma cleanCRIO_world c w :
  outcome (BundleCleaner.cleanCRIO E c w) = Ret tt ->
  same_state (world (BundleCleaner.cleanCRIO E c w)) (set_pin None (set_mirror None w)).
Proof.
  unfold BundleCleaner.cleanCRIO, CRIOTool.RemoveMirrorConf, CRIOTool.RemovePinConf,
    CRIOTool.ReloadService. intros H.
  apply bind_inv_ret in H as (u1 & H1 & H & Hw & _). rewrite Hw. clear Hw.
  apply call_inv_ret in H1 as (w1 & _ & Heq & Hw1 & _). simplify_eq. rewrite Hw1 in *. clear Hw1.
  apply bind_inv_ret in H as (u2 & H2 & H & Hw & _). rewrite Hw. clear Hw.
  apply call_inv_ret in H2 as (w2 & _ & Heq & Hw2 & _). simplify_eq. rewrite Hw2 in *. clear Hw2.
  apply call_inv_ret in H as (w3 & _ & Heq & Hw3 & _). simplify_eq. rewrite Hw3.
  unfold same_state. cbn. auto 10.
Qed.

Lemma cleaner_writeResult_ret c w :
  outcome (BundleCleaner.writeResult E c w) = Ret tt ->
  exists obj, nodes w !! BundleCleaner.node c = Some obj /\
    same_state (world (BundleCleaner.writeResult E c w))
               (set_nodes (<[BundleCleaner.node c := labelled labels.BundleCleaned obj]> (nodes w)) w).
Proof.
  unfold BundleCleaner.writeResult, client.Get, client.PatchLabel. intros H.
  apply bind_inv_ret in H as (obj & H1 & H & Hw & _). rewrite Hw. clear Hw.
  apply call_inv_ret in H1 as (w1 & _ & Heq & Hw1 & _). rewrite Hw1 in *. clear Hw1.
  destruct (nodes w !! BundleCleaner.node c) as [obj'|] eqn:Hn; [|discriminate].
  simplify_eq. exists obj. split; [reflexivity|].
  apply bind_inv_ret in H as (u2 & H2 & H & Hw & _). rewrite Hw. clear Hw.
  apply call_inv_ret in H2 as (w2 & _ & Heq & Hw2 & _).
  cbn [logger_Info emit world]. rewrite Hw2. clear Hw2.
  cbn [nodes tick] in Heq. rewrite Hn in Heq. simplify_eq.
  unfold same_state. cbn. auto 10.
Qed.

Lemma cleaner_Run_ret c w :
  outcome (BundleCleaner.Run E c w) = Ret tt ->
  removable (BundleCleaner.absolutePath c (BundleCleaner.bundleDir c)) = true /\
  exists obj, nodes w !! BundleCleaner.node c = Some obj /\
              same_state (world (BundleCleaner.Run E c w)) (clean_state c obj w).
Proof.
  unfold BundleCleaner.Run. intros H.
  apply bind_inv_ret in H as ([] & H1 & H & Hw & _). rewrite Hw. clear Hw.
  pose proof (cleanBundleDir_keeps_nodes c w) as Hn1.
  apply cleanBundleDir_ret in H1 as (Hr & S1). split; [exact Hr|].
  apply bind_inv_ret in H as ([] & _ & H & Hw & _). rewrite Hw. clear Hw.
  apply bind_inv_ret in H as ([] & H2 & H & Hw & _). rewrite Hw. clear Hw.
  cbn [logger_Info emit world] in *.
  pose proof (cleanCRIO_keeps_nodes c (world (BundleCleaner.cleanBundleDir E c w))) as Hn2.
  apply cleanCRIO_world in H2 as S2.
  apply bind_inv_ret in H as ([] & _ & H & Hw & _). rewrite Hw. clear Hw.
  cbn [logger_Info emit world] in *.
  apply cleaner_writeResult_ret in H as (obj & Hobj & S3).
  rewrite Hn2, Hn1 in Hobj. exists obj. split; [exact Hobj|].
  unfold same_state in *. cbn in *.
  destruct S1 as (? & ? & ? & ? & ? & ?), S2 as (? & ? & ? & ? & ? & ?),
           S3 as (? & ? & ? & ? & ? & ?).
  repeat split; try congruence.
Qed.

End Cleaner.

Section CleanerTwice.
Context (E : Env) (Hnf : no_faults E).

Lemma call_outcome_ok {A} o (f : World -> error + A * World) w a w' :
  f w = inr (a, w') -> outcome (call E o f w) = Ret a.
Proof. intros Hf. erewrite call_ok; [reflexivity|apply Hnf|exact Hf]. Qed.

Lemma cleanBundleDir_ok c w :
  removable (BundleCleaner.absolutePath c (BundleCleaner.bundleDir c)) = true ->
  outcome (BundleCleaner.cleanBundleDir E c w) = Ret tt.
Proof.
  intros Hr. unfold BundleCleaner.cleanBundleDir. rewrite Sprintf_tmp.
  eapply bind_ret_intro; [rewrite os_RemoveAll_ok by (apply Hnf || exact Hr); reflexivity|].
  eapply bind_ret_intro; [reflexivity|].
  eapply bind_ret_intro; [|reflexivity].
  rewrite os_RemoveAll_ok by (apply Hnf || apply removable_tmp). reflexivity.
Qed.

Lemma cleanCRIO_ok c w : outcome (BundleCleaner.cleanCRIO E c w) = Ret tt.
Proof.
  unfold BundleCleaner.cleanCRIO, CRIOTool.RemoveMirrorConf, CRIOTool.RemovePinConf,
    CRIOTool.ReloadService.
  eapply bind_ret_intro; [eapply call_outcome_ok; reflexivity|].
  eapply bind_ret_intro; [eapply call_outcome_ok; reflexivity|].
  eapply call_outcome_ok; reflexivity.
Qed.

Lemma cleaner_writeResult_ok c w :
  is_Some (nodes w !! BundleCleaner.node c) ->
  outcome (BundleCleaner.writeResult E c w) = Ret tt.
Proof.
  intros [obj Hobj]. unfold BundleCleaner.writeResult, client.Get, client.PatchLabel.
  eapply bind_ret_intro; [eapply call_outcome_ok; cbn beta; rewrite Hobj; reflexivity|].
  erewrite (call_ok E (ClientGet _)); [|apply Hnf|cbn beta; rewrite Hobj; reflexivity].
  cbn [world].
  eapply bind_ret_intro; [|reflexivity].
  eapply call_outcome_ok. cbn. rewrite Hobj. reflexivity.
Qed.

Lemma cleaner_Run_ok c w :
  removable (BundleCleaner.absolutePath c (BundleCleaner.bundleDir c)) = true ->
  is_Some (nodes w !! BundleCleaner.node c) ->
  outcome (BundleCleaner.Run E c w) = Ret tt.
Proof.
  intros Hr Hn. unfold BundleCleaner.Run.
  eapply bind_ret_intro; [apply cleanBundleDir_ok, Hr|].
  eapply bind_ret_intro; [reflexivity|].
  eapply bind_ret_intro; [apply cleanCRIO_ok|].
  eapply bind_ret_intro; [reflexivity|].
  apply cleaner_writeResult_ok. cbn [logger_Info emit world].
  rewrite cleanCRIO_keeps_nodes, cleanBundleDir_keeps_nodes. exact Hn.
Qed.

End CleanerTwice.

(** A clean after a successful clean, in an environment without faults,
    succeeds and leaves the state as it found it. *)
Lemma cleaner_second_run (E1 E2 : Env) (c : BundleCleaner.t) (w : World) :
  outcome (BundleCleaner.Run E1 c w) = Ret tt -> no_faults E2 ->
  outcome (BundleCleaner.Run E2 c (world (BundleCleaner.Run E1 c w))) = Ret tt /\
  same_state (world (BundleCleaner.Run E1 c w))
             (world (BundleCleaner.Run E2 c (world (BundleCleaner.Run E1 c w)))).
Proof.
  intros H1 Hnf. apply cleaner_Run_ret in H1 as (Hr & obj & Hobj & S1).
  set (w1 := world (BundleCleaner.Run E1 c w)) in *.
  assert (Hn1 : nodes w1 !! BundleCleaner.node c = Some (labelled labels.BundleCleaned obj)).
  { destruct S1 as (_ & _ & _ & _ & -> & _). cbn. apply lookup_insert_eq. }
  assert (H2 : outcome (BundleCleaner.Run E2 c w1) = Ret tt).
  { apply cleaner_Run_ok; [exact Hnf|exact Hr|rewrite Hn1; eauto]. }
  split; [exact H2|].
  apply cleaner_Run_ret in H2 as (_ & obj1 & Hobj1 & S2).
  rewrite Hn1 in Hobj1. injection Hobj1 as <-.
  apply same_state_sym. eapply same_state_trans; [exact S2|].
  unfold same_state in *. destruct S1 as (F1 & P1 & M1 & T1 & N1 & L1).
  cbn in *. rewrite F1, P1, M1, T1, N1, L1.
  repeat split; try reflexivity.
  - apply removed_twice.
  - unfold labelled. cbn. rewrite !insert_insert_eq. reflexivity.
Qed.

(** C7.  The cleaner is idempotent.  In an environment that does not fail
    its calls, on a node that is registered in the cluster and for a bundle
    directory that [RemoveAll] accepts, a first run succeeds, a second run
    right after it succeeds too, and the second run leaves the file system,
    the runtime configuration and storage, the node objects and the
    listeners exactly as the first run left them. *)
Theorem cleaner_idempotent (E : Env) (c : BundleCleaner.t) (w : World) :
  no_faults E ->
  is_Some (nodes w !! BundleCleaner.node c) ->
  removable (BundleCleaner.absolutePath c (BundleCleaner.bundleDir c)) = true ->
  outcome (BundleCleaner.Run E c w) = Ret tt /\
  outcome (BundleCleaner.Run E c (world (BundleCleaner.Run E c w))) = Ret tt /\
  same_state (world (BundleCleaner.Run E c w))
             (world (BundleCleaner.Run E c (world (BundleCleaner.Run E c w)))).
Proof.
  intros Hnf Hn Hr.
  assert (H1 : outcome (BundleCleaner.Run E c w) = Ret tt) by (apply cleaner_Run_ok; assumption).
  split; [exact H1|]. apply cleaner_second_run; assumption.
Qed.

Lemma cleaner_idempotent_witness :
  let E := Ex.env Ex.no_fault 0 in
  let first := BundleCleaner.Run E Ex.cleaner Ex.extracted in
  let second := BundleCleaner.Run E Ex.cleaner (world first) in
  no_faults E /\
  outcome first = Ret tt /\ outcome second = Ret tt /\
  same_state (world first) (world second) /\
  fs (world first) = ∅ /\ fs Ex.extracted !! "/var/lib/upgrade.tmp" = Some Dir.
Proof.
  intros E first second.
  assert (Hnf : no_faults E) by (intros n op; reflexivity).
  destruct (cleaner_idempotent E Ex.cleaner Ex.extracted Hnf) as (H1 & H2 & HS).
  - vm_compute. eauto.
  - vm_compute. reflexivity.
  - split; [exact Hnf|]. split; [exact H1|]. split; [exact H2|]. split; [exact HS|].
    split; vm_compute; reflexivity.
Defined.

(** ** The digest file *)

Lemma be_bytes_length n x : length (sha256.be_bytes n x) = n.
Proof. induction n as [|n IH]; cbn; [reflexivity|]. rewrite IH. reflexivity. Qed.

(** The digest has 32 bytes. *)
Lemma sha256_Sum_length msg : length (sha256.Sum msg) = 32.
Proof. unfold sha256.Sum. rewrite !length_app, !be_bytes_length. reflexivity. Qed.

Lemma hex_EncodeToString_length src :
  String.length (hex.EncodeToString src) = 2 * length src.
Proof. induction src as [|b src IH]; cbn; [reflexivity|]. rewrite IH. lia. Qed.

Lemma hex_digit_lower n : hex.is_lower_hex (hex.digit n) = true.
Proof.
  destruct n as [|p]; [reflexivity|].
  do 5 (try destruct p as [p|p|]); reflexivity.
Qed.

Lemma hex_EncodeToString_lower src :
  Forall (fun c => hex.is_lower_hex c = true) (Str.bytes (hex.EncodeToString src)).
Proof.
  induction src as [|b src IH]; cbn; [constructor|].
  repeat constructor; try apply hex_digit_lower. exact IH.
Qed.

(** The line [writeDigest] writes for an archive with the bytes [data]. *)
Definition digest_line (c : BundleCreator.t) (data : string) : string :=
  hex.EncodeToString (sha256.Sum_string data) +:+ "  " +:+
  filepath.Base (BundleCreator.bundleFile c) +:+ newline.

Lemma defer_inv_ret {A} (d : M unit) (m : M A) w a :
  outcome (defer d m w) = Ret a ->
  outcome (m w) = Ret a /\ world (defer d m w) = world (d (world (m w))).
Proof. unfold defer. cbn. auto. Qed.

Lemma or_exit_inv_ret {A} (m : M A) format args w a :
  outcome (BundleCreator.or_exit m format args w) = Ret a ->
  outcome (m w) = Ret a /\ BundleCreator.or_exit m format args w = m w.
Proof.
  unfold BundleCreator.or_exit. intros H.
  apply on_error_inv_ret in H as [H|(e & _ & H & _)]; [exact H|].
  cbn in H. discriminate.
Qed.

Lemma Sprintf_digest sum base :
  Sprintf ("%s  %s" +:+ newline) [AStr sum; AStr base] = sum +:+ "  " +:+ base +:+ newline.
Proof. reflexivity. Qed.

Section Digest.
Context (E : Env).

Local Opaque hex.EncodeToString sha256.Sum_string filepath.Base.

Lemma close_keeps_fs name msg :
  keeps fs (on_error (file_Close E name) (fun _ => logger_Error msg)).
Proof. unfold file_Close, logger_Error. keeps_auto. Qed.

Lemma writeDigest_ret c w :
  outcome (BundleCreator.writeDigest E c w) = Ret tt ->
  exists data,
    fs w !! BundleCreator.bundleFile c = Some (File data) /\
    fs (world (BundleCreator.writeDigest E c w))
    = <[BundleCreator.digestFile c := File (digest_line c data)]> (fs w).
Proof.
  unfold BundleCreator.writeDigest, os_Open, io_Copy, os_OpenFile, fmt_Fprintf. intros H.
  apply bind_inv_ret in H as ([] & H1 & H & Hw & _). rewrite Hw. clear Hw.
  apply call_inv_ret in H1 as (w1 & _ & Heq & Hw1 & _). rewrite Hw1 in *. clear Hw1.
  destruct (fs w !! BundleCreator.bundleFile c) as [node|] eqn:Hb; [|discriminate].
  injection Heq as Heq. subst w1.
  apply defer_inv_ret in H as (H & Hw). rewrite Hw, close_keeps_fs. clear Hw.
  apply bind_inv_ret in H as (data & H2 & H & Hw & _). rewrite Hw. clear Hw.
  apply call_inv_ret in H2 as (w2 & _ & Heq & Hw2 & _). rewrite Hw2 in *. clear Hw2.
  cbn [fs tick] in Heq. rewrite Hb in Heq. destruct node as [|data']; [discriminate|].
  injection Heq as Hd Heq. subst w2 data'. exists data. split; [reflexivity|].
  apply bind_inv_ret in H as ([] & H3 & H & Hw & _). rewrite Hw. clear Hw.
  apply call_inv_ret in H3 as (w3 & _ & Heq & Hw3 & _). rewrite Hw3 in *. clear Hw3.
  apply defer_inv_ret in H as (H & Hw). rewrite Hw, close_keeps_fs. clear Hw.
  apply call_inv_ret in H as (w4 & _ & Heq4 & Hw4 & _). rewrite Hw4. clear Hw4.
  cbn [fs tick] in Heq.
  assert (Hw3 : w3 = set_fs (<[BundleCreator.digestFile c := File ""]> (fs w)) (tick (tick w))).
  { destruct (fs w !! BundleCreator.digestFile c) as [[|old]|]; congruence. }
  subst w3. cbn [fs set_fs tick] in Heq4. rewrite lookup_insert_eq in Heq4.
  rewrite Sprintf_digest in Heq4.
  injection Heq4 as Heq4. subst w4. cbn [fs set_fs tick]. rewrite insert_insert_eq.
  reflexivity.
Qed.

Lemma writeManifest_ret c w :
  outcome (BundleCreator.writeManifest E c w) = Ret tt ->
  fs (world (BundleCreator.writeManifest E c w))
  = <[BundleCreator.manifestFile c := File (manifest_template E)]> (fs w).
Proof.
  unfold BundleCreator.writeManifest, BundleCreator.TemplatesFS_ReadFile, os_WriteFile. intros H.
  apply bind_inv_ret in H as (content & H1 & H & Hw & _). rewrite Hw. clear Hw.
  apply call_inv_ret in H1 as (w1 & _ & Heq & Hw1 & _). rewrite Hw1 in *. clear Hw1.
  injection Heq as Hc Heq. subst w1 content.
  apply call_inv_ret in H as (w2 & _ & Heq & Hw2 & _). rewrite Hw2. clear Hw2.
  cbn [fs tick] in Heq.
  assert (Hw2 : w2 = set_fs (<[BundleCreator.manifestFile c := File (manifest_template E)]> (fs w))
                            (tick w)).
  { destruct (fs w !! BundleCreator.manifestFile c) as [[|old]|]; congruence. }
  subst w2. reflexivity.
Qed.

End Digest.

(** Split the first step off a sequence that returned normally; the goal
    follows the world into the rest of the sequence. *)
Ltac peel H a H1 :=
  let Hw := fresh "Hw" in
  apply bind_inv_ret in H as (a & H1 & H & Hw & _); rewrite Hw; clear Hw.

Ltac skip_step H :=
  let a := fresh "a" in let H1 := fresh "Hskip" in
  peel H a H1; clear H1.

Lemma bundle_digest_distinct c : BundleCreator.bundleFile c <> BundleCreator.digestFile c.
Proof.
  unfold BundleCreator.bundleFile, BundleCreator.digestFile. intros H.
  apply (inj (String.app _)) in H. discriminate.
Qed.

Lemma bundle_manifest_distinct c : BundleCreator.bundleFile c <> BundleCreator.manifestFile c.
Proof.
  unfold BundleCreator.bundleFile, BundleCreator.manifestFile. intros H.
  apply (inj (String.app _)) in H. discriminate.
Qed.

Lemma digest_manifest_distinct c : BundleCreator.digestFile c <> BundleCreator.manifestFile c.
Proof.
  unfold BundleCreator.digestFile, BundleCreator.manifestFile. intros H.
  apply (inj (String.app _)) in H. discriminate.
Qed.

Section RunDigest.
Local Opaque hex.EncodeToString sha256.Sum_string filepath.Base filepath.Join Sprintf.

Lemma creator_Run_digest E c w :
  outcome (BundleCreator.Run E c w) = Ret tt ->
  exists archive,
    fs (world (BundleCreator.Run E c w)) !! BundleCreator.bundleFile c = Some (File archive) /\
    fs (world (BundleCreator.Run E c w)) !! BundleCreator.digestFile c
    = Some (File (digest_line c archive)).
Proof.
  unfold BundleCreator.Run. intros H.
  do 16 skip_step H.
  peel H ipattern:([]) Hdigest.
  apply or_exit_inv_ret in Hdigest as (Hdigest & Hw). rewrite Hw in *. clear Hw.
  apply writeDigest_ret in Hdigest as (archive & Hbundle & Hfs).
  skip_step H.
  apply or_exit_inv_ret in H as (H & Hw). rewrite Hw. clear Hw.
  apply writeManifest_ret in H. rewrite H.
  change (world (console_Info ?f ?a (world (BundleCreator.writeDigest E c ?x))))
    with (world (BundleCreator.writeDigest E c x)).
  rewrite Hfs. exists archive.
  rewrite lookup_insert_ne by (apply not_eq_sym, bundle_manifest_distinct).
  rewrite lookup_insert_ne by (apply not_eq_sym, bundle_digest_distinct).
  rewrite lookup_insert_ne by (apply not_eq_sym, digest_manifest_distinct).
  rewrite lookup_insert_eq. split; [exact Hbundle|reflexivity].
Qed.

End RunDigest.

(** C9.  For every bundle the creator produced (its run returned
    normally), the digest file holds exactly: the SHA-256 of the bytes of
    the archive file, as 64 lowercase hexadecimal digits; two spaces; the
    base name of the archive file; a newline. *)
Theorem digest_file_matches_archive (E : Env) (c : BundleCreator.t) (w : World) :
  outcome (BundleCreator.Run E c w) = Ret tt ->
  exists archive sum,
    fs (world (BundleCreator.Run E c w)) !! BundleCreator.bundleFile c = Some (File archive) /\
    sum = hex.EncodeToString (sha256.Sum_string archive) /\
    String.length sum = 64 /\
    Forall (fun ch => hex.is_lower_hex ch = true) (Str.bytes sum) /\
    fs (world (BundleCreator.Run E c w)) !! BundleCreator.digestFile c
    = Some (File (sum +:+ "  " +:+ filepath.Base (BundleCreator.bundleFile c) +:+ newline)).
Proof.
  intros H. apply creator_Run_digest in H as (archive & Hb & Hd).
  exists archive, (hex.EncodeToString (sha256.Sum_string archive)).
  split; [exact Hb|]. split; [reflexivity|].
  split; [rewrite hex_EncodeToString_length; unfold sha256.Sum_string;
          rewrite sha256_Sum_length; reflexivity|].
  split; [apply hex_EncodeToString_lower|exact Hd].
Qed.

Lemma digest_file_matches_archive_witness :
  let r := BundleCreator.Run (Ex.env Ex.no_fault 0) Ex.creator Ex.bare in
  outcome r = Ret tt /\
  fs (world r) !! "/out/upgrade-4.13.4-x86_64.tar"
  = Some (File "archive of /home/core/.cache/upgrade-tool/4.13.4-x86_64") /\
  fs (world r) !! "/out/upgrade-4.13.4-x86_64.sha256"
  = Some (File ("c74a4b907ecc6c86eb5edf2a6681aba560066bfcdf8738ac2f41a0a35014d3b7  upgrade-4.13.4-x86_64.tar" +:+ newline)).
Proof.
  intros r.
  assert (Hr : outcome r = Ret tt) by (vm_compute; reflexivity).
  destruct (digest_file_matches_archive _ _ _ Hr) as (archive & sum & Hb & Hsum & _ & _ & Hd).
  split; [exact Hr|].
  change (BundleCreator.bundleFile Ex.creator) with "/out/upgrade-4.13.4-x86_64.tar" in Hb, Hd.
  change (BundleCreator.digestFile Ex.creator) with "/out/upgrade-4.13.4-x86_64.sha256" in Hd.
  split.
  - vm_compute. reflexivity.
  - fold r in Hb, Hd. rewrite Hd.
    assert (Ha : fs (world r) !! "/out/upgrade-4.13.4-x86_64.tar"
                 = Some (File "archive of /home/core/.cache/upgrade-tool/4.13.4-x86_64"))
      by (vm_compute; reflexivity).
    rewrite Ha in Hb. injection Hb as <-. subst sum. vm_compute. reflexivity.
Defined.

(** ** Procedures that emit no event of a kind *)

Section Quiet.
Context (Q : Event -> bool).

(** Whatever its outcome, [m] emits no event that [Q] selects. *)
Definition quiet {A} (m : M A) : Prop := forall w, Forall (fun ev => Q ev = false) (events (m w)).

Lemma quiet_ret {A} (a : A) : quiet (ret a).
Proof. intros w. constructor. Qed.
Lemma quiet_raise {A} e : quiet (@raise A e).
Proof. intros w. constructor. Qed.
Lemma quiet_panic {A} msg : quiet (@panic A msg).
Proof. intros w. constructor. Qed.
Lemma quiet_emit ev : Q ev = false -> quiet (emit ev).
Proof. intros H w. repeat constructor. exact H. Qed.

Lemma quiet_bind {A B} (m : M A) (f : A -> M B) :
  quiet m -> (forall a, quiet (f a)) -> quiet (bind m f).
Proof.
  intros Hm Hf w. unfold bind. destruct (outcome (m w)) eqn:Ho; cbn; [|apply Hm..].
  apply Forall_app. split; [apply Hm|apply Hf].
Qed.

Lemma quiet_on_error {A} (m : M A) (h : error -> M A) :
  quiet m -> (forall e, quiet (h e)) -> quiet (on_error m h).
Proof.
  intros Hm Hh w. unfold on_error. destruct (outcome (m w)) eqn:Ho; cbn; [apply Hm| |apply Hm].
  apply Forall_app. split; [apply Hm|apply Hh].
Qed.

Lemma quiet_defer {A} (d : M unit) (m : M A) : quiet d -> quiet m -> quiet (defer d m).
Proof. intros Hd Hm w. unfold defer. cbn. apply Forall_app. split; [apply Hm|apply Hd]. Qed.

Lemma quiet_call {A} E o (f : World -> error + A * World) :
  (forall ok, Q (EvOp o ok) = false) -> quiet (call E o f).
Proof.
  intros HQ w. unfold call. destruct (fails E (clock w) o); cbn; [repeat constructor; apply HQ|].
  destruct (f w) as [e|[a w']]; cbn; repeat constructor; apply HQ.
Qed.

(** An observation that only sees events of the kind finds nothing. *)
Lemma quiet_omap {X} (obs : Event -> option X) evs :
  (forall ev, Q ev = false -> obs ev = None) ->
  Forall (fun ev => Q ev = false) evs -> omap obs evs = [].
Proof.
  intros Hobs H. induction H as [|ev evs Hev _ IH]; [reflexivity|].
  cbn. rewrite (Hobs ev Hev). exact IH.
Qed.

End Quiet.

Ltac quiet_auto :=
  repeat first
    [ apply quiet_ret | apply quiet_raise | apply quiet_panic
    | apply quiet_emit; reflexivity
    | apply quiet_bind; [|intros ?]
    | apply quiet_on_error; [|intros ?]
    | apply quiet_defer
    | apply quiet_call; intros []; reflexivity
    | match goal with
      | |- quiet _ (match ?x with _ => _ end) => destruct x
      | |- quiet _ (if ?b then _ else _) => destruct b
      end ].

(** The events the two observations of a creator run look for. *)
Definition creator_event (ev : Event) : bool :=
  match marshalled_of ev, payload_tag_of ev with
  | None, None => false
  | _, _ => true
  end.

Lemma creator_event_marshalled ev : creator_event ev = false -> marshalled_of ev = None.
Proof. unfold creator_event. destruct (marshalled_of ev); [discriminate|reflexivity]. Qed.

Lemma creator_event_payload_tag ev : creator_event ev = false -> payload_tag_of ev = None.
Proof.
  unfold creator_event. destruct (marshalled_of ev), (payload_tag_of ev); try discriminate.
  reflexivity.
Qed.

(** ** What the creator records and in which order it copies *)

Lemma permute_aux_Permutation {A} n seed (l : list A) :
  length l = n -> permute_aux n seed l ≡ₚ l.
Proof.
  revert seed l. induction n as [|n IH]; intros seed l Hlen.
  - destruct l; [reflexivity|discriminate].
  - cbn [permute_aux].
    destruct (l !! (seed mod length l)) as [x|] eqn:Hx.
    + rewrite IH.
      * symmetry. apply delete_Permutation. exact Hx.
      * rewrite length_delete by eauto. lia.
    + apply lookup_ge_None in Hx.
      assert (seed mod length l < length l) by (apply Nat.mod_upper_bound; lia). lia.
Qed.

(** Whatever the seed, the iteration visits every entry once. *)
Lemma permute_Permutation {A} seed (l : list A) : permute seed l ≡ₚ l.
Proof. apply permute_aux_Permutation. reflexivity. Qed.

(** The query the creator sends, and what release discovery answers: the
    digest-pinned release reference and the (tag, source reference) pairs,
    as the map [findImages] builds from them. *)
Definition release_query (c : BundleCreator.t) : string :=
  Sprintf "%s:%s-%s" [AStr BundleCreator.bundleCreatorReleaseRepo;
                      AStr (BundleCreator.version c); AStr (BundleCreator.arch c)].
Definition release_ref (E : Env) (c : BundleCreator.t) : string :=
  Sprintf "%s@%s" [AStr BundleCreator.bundleCreatorReleaseRepo;
                   AStr (fst (release_info E (release_query c)))].
Definition discovered (E : Env) (c : BundleCreator.t) : gmap string string :=
  foldl (fun images tag => <[tag.1 := tag.2]> images) ∅ (snd (release_info E (release_query c))).

Section CreatorQuiet.
Context (E : Env).

Local Opaque filepath.Join Sprintf.

Lemma findImages_ret c w found :
  outcome (BundleCreator.findImages E c w) = Ret found ->
  found = (release_ref E c, discovered E c).
Proof.
  unfold BundleCreator.findImages, BundleCreator.jq_QueryBytes. intros H.
  apply bind_inv_ret in H as (u1 & _ & H & _).
  apply bind_inv_ret in H as (u2 & _ & H & _).
  apply bind_inv_ret in H as (digest & Hd & H & _).
  apply call_inv_ret in Hd as (w1 & _ & Heq & _). injection Heq as Heq _. subst digest.
  apply bind_inv_ret in H as (tags & Ht & H & _).
  apply call_inv_ret in Ht as (w2 & _ & Heq & _). injection Heq as Heq _. subst tags.
  cbn in H. injection H as <-. reflexivity.
Qed.

Lemma maps_Values_ret m w values :
  outcome (maps_Values E m w) = Ret values ->
  values = (permute (map_seed E (clock w)) (map_to_list m)).*2.
Proof. unfold maps_Values, range_map, bind. cbn. intros [= <-]. reflexivity. Qed.

Lemma maps_Keys_ret m w keys :
  outcome (maps_Keys E m w) = Ret keys ->
  keys = (permute (map_seed E (clock w)) (map_to_list m)).*1.
Proof. unfold maps_Keys, range_map, bind. cbn. intros [= <-]. reflexivity. Qed.

Lemma maps_Values_events m w : events (maps_Values E m w) = [].
Proof. reflexivity. Qed.

Lemma maps_Keys_events m w : events (maps_Keys E m w) = [].
Proof. reflexivity. Qed.

Lemma exec_Run_quiet msg args effect : quiet creator_event (exec_Run E msg args effect).
Proof. unfold exec_Run, logger_Info. quiet_auto. Qed.

Lemma dstRef_quiet c src registry : quiet creator_event (BundleCreator.dstRef c src registry).
Proof. unfold BundleCreator.dstRef, Registry.Address. quiet_auto. Qed.

Lemma downloadImage_quiet c certs src dst :
  quiet creator_event (BundleCreator.downloadImage E c certs src dst).
Proof.
  unfold BundleCreator.downloadImage, exec_LookPath.
  apply quiet_bind; [quiet_auto|intros _]. apply exec_Run_quiet.
Qed.

Lemma findImages_quiet c : quiet creator_event (BundleCreator.findImages E c).
Proof.
  unfold BundleCreator.findImages, exec_LookPath, BundleCreator.jq_QueryBytes.
  apply quiet_bind; [quiet_auto|intros _].
  apply quiet_bind; [apply exec_Run_quiet|intros _]. quiet_auto.
Qed.

Lemma Registry_Start_quiet r : quiet creator_event (Registry.Start E r).
Proof. unfold Registry.Start, os_WriteFile, Registry.net_Listen. quiet_auto. Qed.

Lemma createRegistry_quiet c dir : quiet creator_event (BundleCreator.createRegistry E c dir).
Proof.
  unfold BundleCreator.createRegistry.
  apply quiet_bind;
    [unfold Registry.Build, Registry.makeSelfSignedCert, os_MkdirTemp; cbn; quiet_auto|intros r].
  apply quiet_bind; [apply Registry_Start_quiet|intros started]. quiet_auto.
Qed.

Lemma Registry_Stop_quiet r : quiet creator_event (Registry.Stop E r).
Proof. unfold Registry.Stop, Registry.server_Shutdown, os_RemoveAll. quiet_auto. Qed.

Lemma writeBundle_quiet c dir : quiet creator_event (BundleCreator.writeBundle E c dir).
Proof.
  unfold BundleCreator.writeBundle, exec_LookPath.
  apply quiet_bind; [quiet_auto|intros _]. apply exec_Run_quiet.
Qed.

Lemma writeDigest_quiet c : quiet creator_event (BundleCreator.writeDigest E c).
Proof.
  unfold BundleCreator.writeDigest, os_Open, io_Copy, os_OpenFile, fmt_Fprintf, file_Close,
    logger_Error.
  quiet_auto.
Qed.

Lemma writeManifest_quiet c : quiet creator_event (BundleCreator.writeManifest E c).
Proof.
  unfold BundleCreator.writeManifest, BundleCreator.TemplatesFS_ReadFile, os_WriteFile.
  quiet_auto.
Qed.

Lemma or_exit_quiet {A} (m : M A) format args :
  quiet creator_event m -> quiet creator_event (BundleCreator.or_exit m format args).
Proof.
  intros Hm. unfold BundleCreator.or_exit, console_Error.
  apply quiet_on_error; [exact Hm|intros e]. quiet_auto.
Qed.

End CreatorQuiet.

Definition marshal_event (ev : Event) : bool :=
  match marshalled_of ev with Some _ => true | None => false end.

Lemma marshal_event_marshalled ev : marshal_event ev = false -> marshalled_of ev = None.
Proof. unfold marshal_event. destruct (marshalled_of ev); [discriminate|reflexivity]. Qed.

Lemma quiet_marshal {A} (m : M A) : quiet creator_event m -> quiet marshal_event m.
Proof.
  intros Hm w. eapply Forall_impl; [apply Hm|]. intros ev Hev.
  unfold marshal_event. rewrite (creator_event_marshalled ev Hev). reflexivity.
Qed.

Section CreatorObs.
Context (E : Env).

Local Opaque filepath.Join Sprintf.

Lemma writeMetadata_recorded c m dir w :
  recorded (events (BundleCreator.writeMetadata E c m dir w)) = [m].
Proof.
  unfold BundleCreator.writeMetadata, os_WriteFile.
  rewrite (bind_ret_step _ _ _ tt) by reflexivity. cbn [events emit world].
  match goal with |- context [call E ?o ?f w] => destruct (call_events E o f w) as (ok & -> & _) end.
  reflexivity.
Qed.

Lemma writeMetadata_payload_tags c m dir w :
  payload_tags (events (BundleCreator.writeMetadata E c m dir w)) = [].
Proof.
  unfold BundleCreator.writeMetadata, os_WriteFile.
  rewrite (bind_ret_step _ _ _ tt) by reflexivity. cbn [events emit world].
  match goal with |- context [call E ?o ?f w] => destruct (call_events E o f w) as (ok & -> & _) end.
  reflexivity.
Qed.

Lemma downloadPayload_recorded c registry certs images i n tags :
  quiet marshal_event (BundleCreator.downloadPayload E c registry certs images i n tags).
Proof.
  revert i. induction tags as [|tag rest IH]; intros i; cbn [BundleCreator.downloadPayload].
  - apply quiet_ret.
  - apply quiet_bind; [unfold console_Info; quiet_auto|intros _].
    apply quiet_bind; [apply quiet_marshal, dstRef_quiet|intros dst].
    apply quiet_bind; [apply quiet_marshal, downloadImage_quiet|intros _]. apply IH.
Qed.

Lemma downloadImages_recorded c registry release images :
  quiet marshal_event (BundleCreator.downloadImages E c registry release images).
Proof.
  unfold BundleCreator.downloadImages.
  apply quiet_bind; [unfold os_MkdirTemp; quiet_auto|intros certs].
  apply quiet_defer; [unfold os_RemoveAll, logger_Error; quiet_auto|].
  apply quiet_bind; [unfold os_WriteFile; quiet_auto|intros _].
  apply quiet_bind; [apply quiet_marshal, dstRef_quiet|intros dst].
  apply quiet_bind; [unfold console_Info; quiet_auto|intros _].
  apply quiet_bind; [apply quiet_marshal, downloadImage_quiet|intros _].
  apply quiet_bind; [unfold maps_Keys, range_map; intros w; constructor|intros tags].
  apply downloadPayload_recorded.
Qed.

(** A completed loop announced exactly the tags it was given, in order. *)
Lemma downloadPayload_tags c registry certs images i n tags w :
  outcome (BundleCreator.downloadPayload E c registry certs images i n tags w) = Ret tt ->
  payload_tags (events (BundleCreator.downloadPayload E c registry certs images i n tags w)) = tags.
Proof.
  revert i w. induction tags as [|tag rest IH]; intros i w; cbn [BundleCreator.downloadPayload].
  - reflexivity.
  - intros H. unfold payload_tags in *.
    apply bind_inv_ret in H as (u1 & _ & H & _ & Hev). rewrite Hev, omap_app. clear Hev.
    apply bind_inv_ret in H as (dst & _ & H & _ & Hev). rewrite Hev, omap_app. clear Hev.
    apply bind_inv_ret in H as (u2 & _ & H & _ & Hev). rewrite Hev, omap_app. clear Hev.
    rewrite (IH _ _ H).
    rewrite (quiet_omap creator_event _ _ creator_event_payload_tag (dstRef_quiet _ _ _ _)).
    rewrite (quiet_omap creator_event _ _ creator_event_payload_tag
               (downloadImage_quiet E _ _ _ _ _)).
    reflexivity.
Qed.

Lemma downloadImages_tags c registry release images w :
  outcome (BundleCreator.downloadImages E c registry release images w) = Ret tt ->
  exists seed,
    payload_tags (events (BundleCreator.downloadImages E c registry release images w))
    = slices_Sort (permute seed (map_to_list images)).*1.
Proof.
  unfold BundleCreator.downloadImages. intros H. unfold payload_tags.
  apply bind_inv_ret in H as (certs & _ & H & _ & Hev). rewrite Hev, omap_app. clear Hev.
  rewrite (quiet_omap creator_event _ _ creator_event_payload_tag)
    by (unfold os_MkdirTemp; quiet_auto).
  apply defer_inv_ret in H as (H & _). unfold defer at 1. cbn [events]. rewrite omap_app.
  rewrite (quiet_omap creator_event _ (events (on_error _ _ _)) creator_event_payload_tag)
    by (unfold os_RemoveAll, logger_Error; quiet_auto).
  apply bind_inv_ret in H as (u1 & _ & H & _ & Hev). rewrite Hev, omap_app. clear Hev.
  rewrite (quiet_omap creator_event _ _ creator_event_payload_tag)
    by (unfold os_WriteFile; quiet_auto).
  apply bind_inv_ret in H as (dst & _ & H & _ & Hev). rewrite Hev, omap_app. clear Hev.
  rewrite (quiet_omap creator_event _ _ creator_event_payload_tag (dstRef_quiet _ _ _ _)).
  apply bind_inv_ret in H as (u2 & _ & H & _ & Hev). rewrite Hev, omap_app. clear Hev.
  rewrite (quiet_omap creator_event _ (events (console_Info _ _ _)) creator_event_payload_tag)
    by (unfold console_Info; quiet_auto).
  apply bind_inv_ret in H as (u3 & _ & H & _ & Hev). rewrite Hev, omap_app. clear Hev.
  rewrite (quiet_omap creator_event _ _ creator_event_payload_tag
             (downloadImage_quiet E _ _ _ _ _)).
  apply bind_inv_ret in H as (tags & Htags & H & _ & Hev). rewrite Hev, omap_app. clear Hev.
  apply maps_Keys_ret in Htags. rewrite maps_Keys_events.
  apply downloadPayload_tags in H. unfold payload_tags in H. rewrite H.
  cbn [app omap list_omap]. rewrite ?app_nil_r. eexists. rewrite Htags. reflexivity.
Qed.

End CreatorObs.

(** Split a quiet first step off a sequence that returned normally: it
    contributes nothing to the two observations in the goal. *)
Ltac quiet_step H a H1 tac :=
  let Hev := fresh "Hev" in
  apply bind_inv_ret in H as (a & H1 & H & _ & Hev); rewrite Hev, !omap_app; clear Hev;
  match type of H1 with
  | outcome ?r = _ =>
      rewrite (quiet_omap creator_event marshalled_of (events r) creator_event_marshalled)
        by tac;
      rewrite (quiet_omap creator_event payload_tag_of (events r) creator_event_payload_tag)
        by tac
  end;
  cbn [app].

Section CreatorRun.
Context (E : Env).

Local Opaque filepath.Join Sprintf.

Lemma os_UserCacheDir_quiet : quiet creator_event (os_UserCacheDir E).
Proof. unfold os_UserCacheDir. quiet_auto. Qed.

Lemma createDir_quiet dir : quiet creator_event (BundleCreator.createDir E dir).
Proof. unfold BundleCreator.createDir, os_MkdirAll. quiet_auto. Qed.

(** What a successful run recorded for [metadata.json] and which tags it
    announced: the values and the keys of the discovered map, each taken
    in the order of an iteration of the map, the keys then sorted. *)
Lemma creator_Run_observed c w :
  outcome (BundleCreator.Run E c w) = Ret tt ->
  exists seed_keys seed_values,
    recorded (events (BundleCreator.Run E c w))
    = [MkMetadata (BundleCreator.version c) (BundleCreator.arch c) (release_ref E c)
                  (permute seed_values (map_to_list (discovered E c))).*2] /\
    payload_tags (events (BundleCreator.Run E c w))
    = slices_Sort (permute seed_keys (map_to_list (discovered E c))).*1.
Proof.
  unfold BundleCreator.Run, recorded, payload_tags. intros H.
  quiet_step H cacheDir H1 ltac:(apply or_exit_quiet, os_UserCacheDir_quiet). clear H1.
  quiet_step H u1 H1 ltac:(apply or_exit_quiet, createDir_quiet). clear H1.
  quiet_step H u2 H1 ltac:(apply quiet_emit; reflexivity). clear H1.
  quiet_step H found Hfound ltac:(apply or_exit_quiet, findImages_quiet).
  apply or_exit_inv_ret in Hfound as (Hfound & _). apply findImages_ret in Hfound.
  subst found. cbn [fst snd] in H |- *.
  quiet_step H u3 H1 ltac:(apply quiet_emit; reflexivity). clear H1.
  quiet_step H u4 H1 ltac:(apply quiet_emit; reflexivity). clear H1.
  quiet_step H registry H1 ltac:(apply or_exit_quiet, createRegistry_quiet). clear H1.
  apply bind_inv_ret in H as ([] & Hdl & H & _ & Hev). rewrite Hev, !omap_app. clear Hev.
  apply on_error_inv_ret in Hdl as [(Hdl & Heq)|(e & _ & Hdl & _)];
    [|cbn in Hdl; discriminate].
  rewrite Heq in *. clear Heq.
  rewrite (quiet_omap marshal_event marshalled_of _ marshal_event_marshalled
             (downloadImages_recorded E _ _ _ _ _)).
  destruct (downloadImages_tags E _ _ _ _ _ Hdl) as (seed_keys & Htags).
  unfold payload_tags in Htags. rewrite Htags. clear Htags. cbn [app].
  quiet_step H u6 H1 ltac:(apply quiet_emit; reflexivity). clear H1.
  quiet_step H u7 H1 ltac:(apply or_exit_quiet, Registry_Stop_quiet). clear H1.
  quiet_step H u8 H1 ltac:(apply quiet_emit; reflexivity). clear H1.
  apply bind_inv_ret in H as (values & Hvalues & H & _ & Hev). rewrite Hev, !omap_app. clear Hev.
  rewrite maps_Values_events. apply maps_Values_ret in Hvalues. cbn [app omap list_omap].
  apply bind_inv_ret in H as (u9 & Hmeta & H & _ & Hev). rewrite Hev, !omap_app. clear Hev.
  apply or_exit_inv_ret in Hmeta as (_ & Heq). rewrite Heq in *. clear Heq.
  match goal with
  | |- context [omap marshalled_of (events (BundleCreator.writeMetadata E c ?m ?d ?w0))] =>
      pose proof (writeMetadata_recorded E c m d w0) as Hr;
      pose proof (writeMetadata_payload_tags E c m d w0) as Ht
  end.
  unfold recorded in Hr. unfold payload_tags in Ht. rewrite Hr, Ht. clear Hr Ht.
  quiet_step H u10 H1 ltac:(apply quiet_emit; reflexivity). clear H1.
  quiet_step H u11 H1 ltac:(apply or_exit_quiet, writeBundle_quiet). clear H1.
  quiet_step H u12 H1 ltac:(apply quiet_emit; reflexivity). clear H1.
  quiet_step H u13 H1 ltac:(apply or_exit_quiet, writeDigest_quiet). clear H1.
  quiet_step H u14 H1 ltac:(apply quiet_emit; reflexivity). clear H1.
  rewrite (quiet_omap creator_event marshalled_of _ creator_event_marshalled)
    by (apply or_exit_quiet, writeManifest_quiet).
  rewrite (quiet_omap creator_event payload_tag_of _ creator_event_payload_tag)
    by (apply or_exit_quiet, writeManifest_quiet).
  exists seed_keys. eexists. rewrite Hvalues, app_nil_r. split; reflexivity.
Qed.

End CreatorRun.

Lemma slices_Sort_Permutation l : slices_Sort l ≡ₚ l.
Proof. apply merge_sort_Permutation. Qed.

Lemma slices_Sort_Sorted l : Sorted String.le (slices_Sort l).
Proof. apply Sorted_merge_sort. apply _. Qed.

(** Sorting forgets the order of its input. *)
Lemma slices_Sort_perm l1 l2 : l1 ≡ₚ l2 -> slices_Sort l1 = slices_Sort l2.
Proof.
  intros Hp. apply (Sorted_unique String.le); try apply slices_Sort_Sorted.
  rewrite !slices_Sort_Permutation. exact Hp.
Qed.

(** ** Where the files of a bundle lie *)

Lemma of_bytes_bytes s : Str.of_bytes (Str.bytes s) = s.
Proof. apply string_of_list_ascii_of_string. Qed.

(** A path element that [Clean] keeps as it is: not empty, not [.], not
    [..], without a slash. *)
Definition simple_name (name : string) : bool :=
  negb (Str.contains Str.slash (Str.bytes name)) &&
  negb (filepath.is_skipped (Str.bytes name)) && negb (filepath.is_dotdot (Str.bytes name)).

Lemma split_aux_no_sep c cur n :
  Str.contains c n = false -> Str.split_aux c cur n = [rev cur ++ n].
Proof.
  unfold Str.contains. revert cur. induction n as [|x n IH]; intros cur H; cbn in *.
  - rewrite app_nil_r. reflexivity.
  - destruct (Ascii.eqb x c); [discriminate|].
    rewrite IH by (destruct (Str.index c n); [discriminate|reflexivity]).
    cbn. rewrite <- app_assoc. reflexivity.
Qed.

Lemma split_aux_app c cur l n :
  Str.contains c n = false ->
  Str.split_aux c cur (l ++ c :: n) = Str.split_aux c cur l ++ [n].
Proof.
  intros Hn. revert cur. induction l as [|x l IH]; intros cur; cbn.
  - rewrite Ascii.eqb_refl. rewrite (split_aux_no_sep c [] n Hn). reflexivity.
  - destruct (Ascii.eqb x c); cbn; rewrite IH; reflexivity.
Qed.

Lemma clean_elems_snoc rooted out elems e :
  filepath.is_skipped e = false -> filepath.is_dotdot e = false ->
  filepath.clean_elems rooted out (elems ++ [e]) = filepath.clean_elems rooted out elems ++ [e].
Proof.
  intros Hs Hd. revert out. induction elems as [|x elems IH]; intros out.
  - cbn [app filepath.clean_elems]. rewrite Hs, Hd. reflexivity.
  - cbn [app filepath.clean_elems].
    destruct (filepath.is_skipped x); [apply IH|].
    destruct (filepath.is_dotdot x); [|apply IH].
    destruct out as [|top out']; [destruct rooted; apply IH|].
    destruct (filepath.is_dotdot top); apply IH.
Qed.

Lemma join_snoc sep xs y :
  xs <> [] -> Str.join sep (xs ++ [y]) = Str.join sep xs ++ sep ++ y.
Proof.
  induction xs as [|x xs IH]; intros Hne; [contradiction|].
  destruct xs as [|x' xs]; [reflexivity|].
  change (x ++ sep ++ Str.join sep ((x' :: xs) ++ [y])
          = (x ++ sep ++ Str.join sep (x' :: xs)) ++ sep ++ y).
  rewrite IH by discriminate. rewrite <- !app_assoc. reflexivity.
Qed.

Lemma bytes_of_bytes l : Str.bytes (Str.of_bytes l) = l.
Proof. apply list_ascii_of_string_of_list_ascii. Qed.

Lemma of_bytes_app a b : Str.of_bytes (a ++ b) = Str.of_bytes a +:+ Str.of_bytes b.
Proof.
  rewrite <- (of_bytes_bytes (Str.of_bytes a +:+ Str.of_bytes b)).
  rewrite bytes_app, !bytes_of_bytes. reflexivity.
Qed.

Lemma clean_bytes_ends p elems bn :
  p <> [] -> Str.split Str.slash p = elems ++ [bn] ->
  filepath.is_skipped bn = false -> filepath.is_dotdot bn = false ->
  exists pre, filepath.clean_bytes p = pre ++ bn.
Proof.
  intros Hp Hs Hsk Hdd. destruct p as [|c t]; [contradiction|].
  unfold filepath.clean_bytes. rewrite Hs, (clean_elems_snoc _ _ _ _ Hsk Hdd).
  set (ce := filepath.clean_elems (Ascii.eqb c Str.slash) [] elems).
  assert (Hj : exists pre body0 body,
             Str.join [Str.slash] (ce ++ [bn]) = body0 :: body /\ body0 :: body = pre ++ bn).
  { destruct ce as [|e0 ce'].
    - destruct bn as [|b0 bn']; [discriminate|]. exists [], b0, bn'. split; reflexivity.
    - rewrite join_snoc by discriminate.
      destruct (Str.join [Str.slash] (e0 :: ce')) as [|j0 j] eqn:Hj.
      + exists [Str.slash], Str.slash, bn. split; reflexivity.
      + exists ((j0 :: j) ++ [Str.slash]), j0, (j ++ [Str.slash] ++ bn).
        split; [reflexivity|]. rewrite <- app_assoc. reflexivity. }
  destruct Hj as (pre & body0 & body & -> & Hb).
  destruct (Ascii.eqb c Str.slash).
  - exists (Str.slash :: pre). rewrite Hb. reflexivity.
  - exists pre. exact Hb.
Qed.

(** However the directory is written, the path of a file in it ends with
    the name of the file. *)
Lemma Join_ends d name :
  simple_name name = true -> exists pre, filepath.Join [d; name] = pre +:+ name.
Proof.
  intros Hs. unfold simple_name in Hs.
  apply andb_true_iff in Hs as [Hs Hdd]. apply andb_true_iff in Hs as [Hc Hsk].
  apply negb_true_iff in Hc, Hsk, Hdd.
  assert (Hn : String.eqb name "" = false).
  { apply String.eqb_neq. intros ->. discriminate. }
  assert (He : exists p elems,
             filepath.Join [d; name] = filepath.Clean (Str.of_bytes p) /\ p <> [] /\
             Str.split Str.slash p = elems ++ [Str.bytes name]).
  { cbn [filepath.Join]. destruct (String.eqb d "") eqn:Hd.
    - rewrite Hn. exists (Str.bytes name), []. split; [reflexivity|]. split.
      + intros H. rewrite H in Hsk. discriminate.
      + unfold Str.split. rewrite (split_aux_no_sep _ _ _ Hc). reflexivity.
    - exists (Str.bytes d ++ Str.slash :: Str.bytes name),
        (Str.split_aux Str.slash [] (Str.bytes d)).
      split; [reflexivity|]. split.
      + intros H. apply app_eq_nil in H as [_ H]. discriminate.
      + unfold Str.split. apply split_aux_app. exact Hc. }
  destruct He as (p & elems & -> & Hp & Hsplit).
  unfold filepath.Clean. rewrite bytes_of_bytes.
  destruct (clean_bytes_ends p elems _ Hp Hsplit Hsk Hdd) as (pre & ->).
  exists (Str.of_bytes pre). rewrite of_bytes_app, of_bytes_bytes. reflexivity.
Qed.

Lemma last_byte_app pre s a :
  last (Str.bytes s) = Some a -> last (Str.bytes (pre +:+ s)) = Some a.
Proof. intros H. rewrite bytes_app, last_app, H. reflexivity. Qed.

(** Two paths that end with different bytes are different. *)
Lemma ends_differ pre1 s1 pre2 s2 a1 a2 :
  last (Str.bytes s1) = Some a1 -> last (Str.bytes s2) = Some a2 -> a1 <> a2 ->
  pre1 +:+ s1 <> pre2 +:+ s2.
Proof.
  intros H1 H2 Hne Heq. apply (last_byte_app pre1) in H1. apply (last_byte_app pre2) in H2.
  rewrite Heq in H1. congruence.
Qed.

Lemma metadata_file_not_output E c :
  creator_metadata_file E c <> BundleCreator.bundleFile c /\
  creator_metadata_file E c <> BundleCreator.digestFile c /\
  creator_metadata_file E c <> BundleCreator.manifestFile c.
Proof.
  unfold creator_metadata_file.
  destruct (Join_ends (creator_dir E c) "metadata.json" eq_refl) as (pre & ->).
  unfold BundleCreator.bundleFile, BundleCreator.digestFile, BundleCreator.manifestFile.
  repeat split; eapply ends_differ; try reflexivity; discriminate.
Qed.

(** ** What the calls of the registry return *)

Lemma os_MkdirTemp_ret (E : Env) pattern w t :
  outcome (os_MkdirTemp E pattern w) = Ret t ->
  t = temp_dir E (clock w) pattern /\ fs w !! t = None /\
  os_MkdirTemp E pattern w
  = MkResult (Ret t) (tick (set_fs (<[t := Dir]> (fs w)) w)) [EvOp (OsMkdirTemp pattern) true].
Proof.
  unfold os_MkdirTemp, call. destruct (fails E (clock w) _); [discriminate|].
  destruct (fs w !! temp_dir E (clock w) pattern) eqn:Hf; [discriminate|].
  cbn. intros [= <-]. auto.
Qed.

Lemma Build_ret (E : Env) (b : RegistryBuilder.t) (w : World) (r : Registry.t) :
  outcome (Registry.Build E b w) = Ret r ->
  let tmp := temp_dir E (clock w) "*.registry" in
  Registry.tmp r = tmp /\ fs w !! tmp = None /\
  fs (world (Registry.Build E b w)) = <[tmp := Dir]> (fs w) /\
  Registry.address r = RegistryBuilder.address b /\
  Registry.root r = RegistryBuilder.root b /\
  Registry.listener r = None /\ Registry.server r = None /\
  match RegistryBuilder.cert b, RegistryBuilder.key b with
  | Some cert, Some key =>
      Registry.cert r = cert /\ Registry.key r = key /\
      events (Registry.Build E b w) = [EvOp (OsMkdirTemp "*.registry") true]
  | _, _ =>
      (Registry.cert r, Registry.key r) = key_pair E (S (clock w)) (RegistryBuilder.address b)
  end.
Proof.
  intros H tmp. unfold Registry.Build in *.
  destruct (negb (RegistryBuilder.logger b)); [discriminate|].
  destruct (String.eqb (RegistryBuilder.address b) ""); [discriminate|].
  destruct (String.eqb (RegistryBuilder.root b) ""); [discriminate|].
  destruct (RegistryBuilder.cert b) as [c|], (RegistryBuilder.key b) as [k|];
    try discriminate.
  - apply bind_inv_ret in H as (t & H1 & H & Hw & Hev). rewrite Hw, Hev.
    apply os_MkdirTemp_ret in H1 as (-> & Hf & ->). fold tmp in Hf |- *.
    cbn in H. injection H as <-. cbn. auto 10.
  - apply bind_inv_ret in H as (t & H1 & H & Hw & _). rewrite Hw. clear Hw.
    apply os_MkdirTemp_ret in H1 as (-> & Hf & Heq). fold tmp in Hf, Heq. rewrite Heq in *.
    clear Heq. cbn [world] in *.
    apply bind_inv_ret in H as (ck & H2 & H & Hw2 & _). rewrite Hw2. clear Hw2.
    unfold Registry.makeSelfSignedCert in *.
    apply call_inv_ret in H2 as (w' & _ & H2 & Hw' & _). rewrite Hw'. clear Hw'.
    cbn in H2. injection H2 as <- <-.
    cbn in H. injection H as <-. cbn.
    destruct (key_pair E _ _). auto 10.
Qed.

Lemma os_WriteFile_ret (E : Env) name data w :
  outcome (os_WriteFile E name data w) = Ret tt ->
  fs w !! name <> Some Dir /\
  os_WriteFile E name data w
  = MkResult (Ret tt) (tick (set_fs (<[name := File data]> (fs w)) w))
             [EvOp (OsWriteFile name data) true].
Proof.
  unfold os_WriteFile, call. destruct (fails E (clock w) _); [discriminate|].
  destruct (fs w !! name) as [[]|]; cbn; try discriminate; auto.
Qed.

Lemma net_Listen_ret (E : Env) addr w a :
  outcome (Registry.net_Listen E addr w) = Ret a ->
  a = bound_address E (clock w) addr /\ (a ∉ listeners w) /\
  Registry.net_Listen E addr w
  = MkResult (Ret a) (tick (set_listeners (a :: listeners w) w)) [EvOp (NetListen addr) true].
Proof.
  unfold Registry.net_Listen, call. destruct (fails E (clock w) _); [discriminate|].
  destruct (bool_decide _) eqn:Hin; [discriminate|].
  apply bool_decide_eq_false in Hin. cbn. intros [= <-]. auto.
Qed.

Lemma Start_ok (E : Env) (r : Registry.t) (w : World) (r' : Registry.t) :
  outcome (Registry.Start E r w) = Ret (r', None) ->
  let certFile := filepath.Join [Registry.tmp r; "tls.crt"] in
  let keyFile := filepath.Join [Registry.tmp r; "tls.key"] in
  let a := bound_address E (S (S (clock w))) (Registry.address r) in
  (a ∉ listeners w) /\
  r' = Registry.set_server (Some a) (Registry.set_listener (Some a) r) /\
  listeners (world (Registry.Start E r w)) = a :: listeners w /\
  fs (world (Registry.Start E r w))
  = <[keyFile := File (Registry.key r)]> (<[certFile := File (Registry.cert r)]> (fs w)) /\
  (forall w', Registry.Address r' w' = MkResult (Ret a) w' []).
Proof.
  unfold Registry.Start.
  generalize (filepath.Join [Registry.tmp r; "tls.crt"]) as certFile.
  generalize (filepath.Join [Registry.tmp r; "tls.key"]) as keyFile.
  intros keyFile certFile H. cbv zeta.
  apply on_error_inv_ret in H as [[H Heq]|(e0 & _ & H & _)]; [|discriminate].
  rewrite Heq. clear Heq.
  apply bind_inv_ret in H as ([] & H1 & H & Hw & _). rewrite Hw. clear Hw.
  apply os_WriteFile_ret in H1 as (_ & H1). rewrite H1 in *. clear H1. cbn [world] in *.
  apply bind_inv_ret in H as ([] & H2 & H & Hw & _). rewrite Hw. clear Hw.
  apply os_WriteFile_ret in H2 as (_ & H2). rewrite H2 in *. clear H2. cbn [world] in *.
  apply on_error_inv_ret in H as [[H Heq]|(e1 & _ & H & _)]; [|discriminate].
  rewrite Heq. clear Heq.
  apply bind_inv_ret in H as (a & H3 & H & Hw & _). rewrite Hw. clear Hw.
  apply net_Listen_ret in H3 as (Ha & Hin & H3). rewrite H3 in *. clear H3.
  cbn in Ha, Hin. subst a.
  cbn in H. injection H as <-. cbn.
  split; [exact Hin|]. split; [reflexivity|]. split; [reflexivity|]. split; [reflexivity|].
  intros w'. reflexivity.
Qed.

(** ** What the creator copies *)

Definition copy_event (ev : Event) : bool :=
  match copy_of ev with Some _ => true | None => false end.

Lemma copy_event_copy_of ev : copy_event ev = false -> copy_of ev = None.
Proof. unfold copy_event. destruct (copy_of ev); [discriminate|reflexivity]. Qed.

Lemma mapM_cons_Some {X Y} (f : X -> option Y) x l y k :
  f x = Some y -> mapM f l = Some k -> mapM f (x :: l) = Some (y :: k).
Proof. intros Hx Hl. cbn. rewrite Hx. cbn. rewrite Hl. reflexivity. Qed.

Section CreatorCopies.
Context (E : Env).

Local Opaque filepath.Join Sprintf.

Lemma downloadImage_copies c certs src dst w :
  outcome (BundleCreator.downloadImage E c certs src dst w) = Ret tt ->
  copies (events (BundleCreator.downloadImage E c certs src dst w))
  = [(Sprintf "docker://%s" [AStr src], Sprintf "docker://%s" [AStr dst], true)].
Proof.
  unfold BundleCreator.downloadImage, exec_LookPath, exec_Run, copies. intros H.
  apply bind_inv_ret in H as ([] & H1 & H & _ & Hev). rewrite Hev, omap_app. clear Hev.
  apply call_inv_ret in H1 as (w1 & _ & _ & _ & Hev). rewrite Hev. clear Hev.
  apply bind_inv_ret in H as ([] & H2 & _ & _ & Hev). rewrite Hev, omap_app. clear Hev.
  apply on_error_inv_ret in H2 as [[H2 Heq]|(e & _ & H2 & _)]; [|discriminate].
  rewrite Heq. apply call_inv_ret in H2 as (w2 & _ & _ & _ & Hev). rewrite Hev.
  reflexivity.
Qed.

Lemma dstRef_ret c src registry addr w dst :
  Registry.listener registry = Some addr ->
  outcome (BundleCreator.dstRef c src registry w) = Ret dst ->
  destination addr src = Some dst /\
  BundleCreator.dstRef c src registry w = MkResult (Ret dst) w [].
Proof.
  unfold BundleCreator.dstRef, destination, Registry.Address. intros Hl.
  destruct (dreference.ParseNamed src) as [ref|]; [|discriminate].
  rewrite Hl. unfold bind, ret. cbn. intros [= <-]. split; reflexivity.
Qed.

Lemma downloadPayload_copies c registry addr certs images i n tags w :
  Registry.listener registry = Some addr ->
  outcome (BundleCreator.downloadPayload E c registry certs images i n tags w) = Ret tt ->
  mapM (copy_to addr) ((fun tag => default "" (images !! tag)) <$> tags)
  = Some (copies (events (BundleCreator.downloadPayload E c registry certs images i n tags w))).
Proof.
  intros Hl. revert i w.
  induction tags as [|tag rest IH]; intros i w; cbn [BundleCreator.downloadPayload].
  - reflexivity.
  - intros H. unfold copies in *.
    apply bind_inv_ret in H as (u1 & _ & H & _ & Hev). rewrite Hev, omap_app. clear Hev.
    apply bind_inv_ret in H as (dst & Hd & H & _ & Hev). rewrite Hev, omap_app. clear Hev.
    apply (dstRef_ret _ _ _ _ _ _ Hl) in Hd as (Hdst & Heq). rewrite Heq in *. clear Heq.
    cbn [world events] in *.
    apply bind_inv_ret in H as ([] & Hc & H & _ & Hev). rewrite Hev, omap_app. clear Hev.
    pose proof (downloadImage_copies _ _ _ _ _ Hc) as Hcp. unfold copies in Hcp. rewrite Hcp.
    clear Hcp. rewrite fmap_cons.
    apply mapM_cons_Some; [unfold copy_to; rewrite Hdst; reflexivity|].
    exact (IH _ _ H).
Qed.

Lemma downloadImages_copies c registry addr release images w :
  Registry.listener registry = Some addr ->
  outcome (BundleCreator.downloadImages E c registry release images w) = Ret tt ->
  mapM (copy_to addr) (release :: by_tag images)
  = Some (copies (events (BundleCreator.downloadImages E c registry release images w))).
Proof.
  unfold BundleCreator.downloadImages. intros Hl H. unfold copies.
  apply bind_inv_ret in H as (certs & _ & H & _ & Hev). rewrite Hev, omap_app. clear Hev.
  rewrite (quiet_omap copy_event _ _ copy_event_copy_of)
    by (unfold os_MkdirTemp; quiet_auto).
  apply defer_inv_ret in H as (H & _). unfold defer at 1. cbn [events]. rewrite omap_app.
  rewrite (quiet_omap copy_event _ (events (on_error _ _ _)) copy_event_copy_of)
    by (unfold os_RemoveAll, logger_Error; quiet_auto).
  apply bind_inv_ret in H as (u1 & _ & H & _ & Hev). rewrite Hev, omap_app. clear Hev.
  rewrite (quiet_omap copy_event _ _ copy_event_copy_of)
    by (unfold os_WriteFile; quiet_auto).
  apply bind_inv_ret in H as (dst & Hd & H & _ & Hev). rewrite Hev, omap_app. clear Hev.
  apply (dstRef_ret _ _ _ _ _ _ Hl) in Hd as (Hdst & Heq). rewrite Heq in *. clear Heq.
  cbn [world events] in *.
  apply bind_inv_ret in H as (u2 & _ & H & _ & Hev). rewrite Hev, omap_app. clear Hev.
  apply bind_inv_ret in H as ([] & Hc & H & _ & Hev). rewrite Hev, omap_app. clear Hev.
  pose proof (downloadImage_copies _ _ _ _ _ Hc) as Hcp. unfold copies in Hcp. rewrite Hcp.
  clear Hcp.
  apply bind_inv_ret in H as (tags & Htags & H & _ & Hev). rewrite Hev, omap_app. clear Hev.
  apply maps_Keys_ret in Htags. rewrite maps_Keys_events.
  apply (downloadPayload_copies _ _ _ _ _ _ _ _ _ Hl) in H. unfold copies in H.
  cbn [app omap list_omap events console_Info emit]. rewrite app_nil_r.
  apply mapM_cons_Some; [unfold copy_to; rewrite Hdst; reflexivity|].
  rewrite <- H. unfold by_tag. rewrite Htags.
  rewrite (slices_Sort_perm (permute _ (map_to_list images)).*1 (map_to_list images).*1)
    by (rewrite permute_Permutation; reflexivity).
  reflexivity.
Qed.

End CreatorCopies.

(** Split a first step that copies nothing off a sequence that returned
    normally. *)
Ltac copy_step H a H1 tac :=
  let Hev := fresh "Hev" in
  apply bind_inv_ret in H as (a & H1 & H & _ & Hev); rewrite Hev, !omap_app; clear Hev;
  match type of H1 with
  | outcome ?r = _ =>
      rewrite (quiet_omap copy_event copy_of (events r) copy_event_copy_of) by tac
  end;
  cbn [app].

Section CreatorRunCopies.
Context (E : Env).

Local Opaque filepath.Join Sprintf.

Lemma or_exit_copies_nothing {A} (m : M A) format args :
  quiet copy_event m -> quiet copy_event (BundleCreator.or_exit m format args).
Proof.
  intros Hm. unfold BundleCreator.or_exit, console_Error.
  apply quiet_on_error; [exact Hm|intros e]. quiet_auto.
Qed.

Lemma findImages_copies_nothing c : quiet copy_event (BundleCreator.findImages E c).
Proof.
  unfold BundleCreator.findImages, exec_LookPath, exec_Run, BundleCreator.jq_QueryBytes,
    logger_Info.
  quiet_auto.
Qed.

Lemma createRegistry_copies_nothing c dir :
  quiet copy_event (BundleCreator.createRegistry E c dir).
Proof.
  unfold BundleCreator.createRegistry.
  apply quiet_bind;
    [unfold Registry.Build, Registry.makeSelfSignedCert, os_MkdirTemp; cbn; quiet_auto|intros r].
  apply quiet_bind;
    [unfold Registry.Start, os_WriteFile, Registry.net_Listen; quiet_auto|intros started].
  quiet_auto.
Qed.

Lemma Registry_Stop_copies_nothing r : quiet copy_event (Registry.Stop E r).
Proof. unfold Registry.Stop, Registry.server_Shutdown, os_RemoveAll. quiet_auto. Qed.

Lemma writeMetadata_copies_nothing c m dir :
  quiet copy_event (BundleCreator.writeMetadata E c m dir).
Proof. unfold BundleCreator.writeMetadata, os_WriteFile. quiet_auto. Qed.

Lemma writeBundle_copies_nothing c dir : quiet copy_event (BundleCreator.writeBundle E c dir).
Proof.
  unfold BundleCreator.writeBundle, exec_LookPath, exec_Run, logger_Info. quiet_auto.
Qed.

Lemma writeDigest_copies_nothing c : quiet copy_event (BundleCreator.writeDigest E c).
Proof.
  unfold BundleCreator.writeDigest, os_Open, io_Copy, os_OpenFile, fmt_Fprintf, file_Close,
    logger_Error.
  quiet_auto.
Qed.

Lemma writeManifest_copies_nothing c : quiet copy_event (BundleCreator.writeManifest E c).
Proof.
  unfold BundleCreator.writeManifest, BundleCreator.TemplatesFS_ReadFile, os_WriteFile.
  quiet_auto.
Qed.

(** A registry the creator got started listens at the address bound for
    [localhost:5001]. *)
Lemma createRegistry_listens c dir w registry :
  outcome (BundleCreator.createRegistry E c dir w) = Ret registry ->
  exists n, Registry.listener registry = Some (bound_address E n "localhost:5001").
Proof.
  unfold BundleCreator.createRegistry. intros H.
  apply bind_inv_ret in H as (r0 & Hb & H & _).
  apply Build_ret in Hb as (_ & _ & _ & Ha & _). cbn in Ha.
  apply bind_inv_ret in H as ([r1 [e|]] & Hs & H & _); cbn [fst snd] in H; [discriminate|].
  apply Start_ok in Hs as (_ & -> & _). cbn in H. injection H as <-.
  rewrite Ha. eexists. reflexivity.
Qed.

(** The copies of a successful run: the release image, then the payload
    images by ascending tag, each to its destination in the registry. *)
Lemma creator_Run_copies c w :
  outcome (BundleCreator.Run E c w) = Ret tt ->
  exists n,
    mapM (copy_to (bound_address E n "localhost:5001"))
         (release_ref E c :: by_tag (discovered E c))
    = Some (copies (events (BundleCreator.Run E c w))).
Proof.
  unfold BundleCreator.Run, copies. intros H.
  copy_step H cacheDir H1
    ltac:(apply or_exit_copies_nothing; unfold os_UserCacheDir; quiet_auto).
  clear H1.
  copy_step H u1 H1
    ltac:(apply or_exit_copies_nothing; unfold BundleCreator.createDir, os_MkdirAll; quiet_auto).
  clear H1.
  copy_step H u2 H1 ltac:(apply quiet_emit; reflexivity). clear H1.
  copy_step H found Hfound ltac:(apply or_exit_copies_nothing, findImages_copies_nothing).
  apply or_exit_inv_ret in Hfound as (Hfound & _). apply findImages_ret in Hfound.
  subst found. cbn [fst snd] in H |- *.
  copy_step H u3 H1 ltac:(apply quiet_emit; reflexivity). clear H1.
  copy_step H u4 H1 ltac:(apply quiet_emit; reflexivity). clear H1.
  copy_step H registry Hreg ltac:(apply or_exit_copies_nothing, createRegistry_copies_nothing).
  apply or_exit_inv_ret in Hreg as (Hreg & _).
  apply createRegistry_listens in Hreg as (n & Hl). exists n.
  apply bind_inv_ret in H as ([] & Hdl & H & _ & Hev). rewrite Hev, !omap_app. clear Hev.
  apply on_error_inv_ret in Hdl as [(Hdl & Heq)|(e & _ & Hdl & _)];
    [|cbn in Hdl; discriminate].
  rewrite Heq in *. clear Heq.
  pose proof (downloadImages_copies E _ _ _ _ _ _ Hl Hdl) as Hcp. unfold copies in Hcp.
  rewrite Hcp. clear Hcp. f_equal.
  copy_step H u6 H1 ltac:(apply quiet_emit; reflexivity). clear H1.
  copy_step H u7 H1 ltac:(apply or_exit_copies_nothing, Registry_Stop_copies_nothing). clear H1.
  copy_step H u8 H1 ltac:(apply quiet_emit; reflexivity). clear H1.
  apply bind_inv_ret in H as (values & _ & H & _ & Hev). rewrite Hev, !omap_app. clear Hev.
  rewrite maps_Values_events. cbn [app omap list_omap].
  copy_step H u9 H1 ltac:(apply or_exit_copies_nothing, writeMetadata_copies_nothing). clear H1.
  copy_step H u10 H1 ltac:(apply quiet_emit; reflexivity). clear H1.
  copy_step H u11 H1 ltac:(apply or_exit_copies_nothing, writeBundle_copies_nothing). clear H1.
  copy_step H u12 H1 ltac:(apply quiet_emit; reflexivity). clear H1.
  copy_step H u13 H1 ltac:(apply or_exit_copies_nothing, writeDigest_copies_nothing). clear H1.
  copy_step H u14 H1 ltac:(apply quiet_emit; reflexivity). clear H1.
  rewrite (quiet_omap copy_event copy_of
             (events (BundleCreator.or_exit (BundleCreator.writeManifest E c) _ _ _))
             copy_event_copy_of)
    by (apply or_exit_copies_nothing, writeManifest_copies_nothing).
  rewrite app_nil_r. reflexivity.
Qed.

End CreatorRunCopies.

(** ** What the creator writes *)

Section CreatorFiles.
Context (E : Env).

Local Opaque hex.EncodeToString sha256.Sum_string filepath.Base filepath.Join Sprintf.

Lemma writeBundle_ret c dir w :
  outcome (BundleCreator.writeBundle E c dir w) = Ret tt ->
  fs (world (BundleCreator.writeBundle E c dir w))
  = <[BundleCreator.bundleFile c := File (archive_bytes E (fs w) dir)]> (fs w).
Proof.
  unfold BundleCreator.writeBundle, exec_LookPath, exec_Run. intros H.
  apply bind_inv_ret in H as ([] & H1 & H & Hw & _). rewrite Hw. clear Hw.
  apply call_inv_ret in H1 as (w1 & _ & Heq & Hw1 & _). rewrite Hw1 in *. clear Hw1.
  injection Heq as <-.
  apply bind_inv_ret in H as ([] & H2 & _ & Hw & _). rewrite Hw. clear Hw.
  cbn [logger_Info emit world].
  apply on_error_inv_ret in H2 as [[H2 Heq]|(e & _ & H2 & _)]; [|discriminate].
  rewrite Heq. clear Heq.
  apply call_inv_ret in H2 as (w2 & _ & Heq & Hw2 & _). rewrite Hw2. clear Hw2.
  injection Heq as <-. reflexivity.
Qed.

Lemma writeMetadata_ret c metadata dir w :
  outcome (BundleCreator.writeMetadata E c metadata dir w) = Ret tt ->
  fs (world (BundleCreator.writeMetadata E c metadata dir w))
  = <[filepath.Join [dir; "metadata.json"] := File (json_Marshal E metadata)]> (fs w).
Proof.
  unfold BundleCreator.writeMetadata. intros H.
  apply bind_inv_ret in H as ([] & _ & H & Hw & _). rewrite Hw. clear Hw.
  cbn [emit world] in H |- *.
  apply os_WriteFile_ret in H as (_ & ->). reflexivity.
Qed.

(** What a successful run leaves in [metadata.json]: the encoding of the
    version, the architecture, the release reference and the values of the
    discovered map in the order of an iteration of the map. *)
Lemma creator_Run_metadata c w :
  outcome (BundleCreator.Run E c w) = Ret tt ->
  exists k,
    fs (world (BundleCreator.Run E c w)) !! creator_metadata_file E c
    = Some (File (json_Marshal E
                    (MkMetadata (BundleCreator.version c) (BundleCreator.arch c)
                                (release_ref E c)
                                (permute (map_seed E k) (map_to_list (discovered E c))).*2))).
Proof.
  destruct (metadata_file_not_output E c) as (Hnb & Hnd & Hnm).
  unfold creator_metadata_file, creator_dir in *.
  unfold BundleCreator.Run. intros H.
  peel H cacheDir Hcache.
  apply or_exit_inv_ret in Hcache as (Hcache & _).
  unfold os_UserCacheDir in Hcache. apply call_inv_ret in Hcache as (w0 & _ & Heq & _).
  injection Heq as <- _.
  do 2 skip_step H.
  peel H found Hfound.
  apply or_exit_inv_ret in Hfound as (Hfound & _). apply findImages_ret in Hfound. subst found.
  cbn [fst snd] in H |- *.
  do 7 skip_step H.
  peel H values Hvalues.
  apply maps_Values_ret in Hvalues.
  match type of Hvalues with context [map_seed E ?k] => exists k end.
  rewrite <- Hvalues. clear Hvalues.
  peel H ipattern:([]) Hmeta.
  apply or_exit_inv_ret in Hmeta as (Hmeta & Hw). rewrite Hw in *. clear Hw.
  apply writeMetadata_ret in Hmeta.
  skip_step H.
  peel H ipattern:([]) Hbundle.
  apply or_exit_inv_ret in Hbundle as (Hbundle & Hw). rewrite Hw in *. clear Hw.
  apply writeBundle_ret in Hbundle.
  skip_step H.
  peel H ipattern:([]) Hdigest.
  apply or_exit_inv_ret in Hdigest as (Hdigest & Hw). rewrite Hw in *. clear Hw.
  apply writeDigest_ret in Hdigest as (archive & _ & Hfs).
  skip_step H.
  apply or_exit_inv_ret in H as (H & Hw). rewrite Hw. clear Hw.
  apply writeManifest_ret in H. rewrite H. clear H.
  rewrite lookup_insert_ne by (apply not_eq_sym; exact Hnm).
  change (world (console_Info ?f ?a (world (BundleCreator.writeDigest E c ?x))))
    with (world (BundleCreator.writeDigest E c x)).
  rewrite Hfs. clear Hfs.
  rewrite lookup_insert_ne by (apply not_eq_sym; exact Hnd).
  change (world (console_Info ?f ?a (world (BundleCreator.writeBundle E c ?d ?x))))
    with (world (BundleCreator.writeBundle E c d x)).
  rewrite Hbundle. clear Hbundle.
  rewrite lookup_insert_ne by (apply not_eq_sym; exact Hnb).
  change (world (console_Info ?f ?a (world (BundleCreator.writeMetadata E c ?m ?d ?x))))
    with (world (BundleCreator.writeMetadata E c m d x)).
  rewrite Hmeta. apply lookup_insert_eq.
Qed.

End CreatorFiles.

Lemma File_inj a b : Some (File a) = Some (File b) -> a = b.
Proof. intros [= ->]. reflexivity. Qed.





(** C2, as the code has it.  In a successful run the payload images are
    announced by ascending tag, every discovered tag once, and copied in
    that order after the release image, each to its destination in the
    registry; the images list written to [metadata.json] has one entry per
    discovered tag, and its order is that of an iteration of the map of
    discovered pairs (an order the environment chooses), not the order of
    the tags. *)
Theorem creator_copies_by_tag_records_by_iteration
        (E : Env) (c : BundleCreator.t) (w : World) :
  outcome (BundleCreator.Run E c w) = Ret tt ->
  Sorted String.le (slices_Sort (map_to_list (discovered E c)).*1) /\
  payload_tags (events (BundleCreator.Run E c w)) = slices_Sort (map_to_list (discovered E c)).*1 /\
  (exists n,
     mapM (copy_to (bound_address E n "localhost:5001"))
          (release_ref E c
           :: ((fun tag => default "" (discovered E c !! tag))
                 <$> slices_Sort (map_to_list (discovered E c)).*1))
     = Some (copies (events (BundleCreator.Run E c w)))) /\
  exists k,
    fs (world (BundleCreator.Run E c w)) !! creator_metadata_file E c
    = Some (File (json_Marshal E
                    (MkMetadata (BundleCreator.version c) (BundleCreator.arch c)
                                (release_ref E c)
                                (permute (map_seed E k) (map_to_list (discovered E c))).*2))) /\
    (permute (map_seed E k) (map_to_list (discovered E c))).*2
    ≡ₚ (map_to_list (discovered E c)).*2 /\
    length (permute (map_seed E k) (map_to_list (discovered E c))).*2 = size (discovered E c).
Proof.
  intros H. destruct (creator_Run_observed E c w H) as (sk & sv & _ & Ht).
  assert (Hs : slices_Sort (permute sk (map_to_list (discovered E c))).*1
               = slices_Sort (map_to_list (discovered E c)).*1).
  { apply slices_Sort_perm. rewrite permute_Permutation. reflexivity. }
  rewrite Ht, Hs. split; [apply slices_Sort_Sorted|]. split; [reflexivity|].
  split; [exact (creator_Run_copies E c w H)|].
  destruct (creator_Run_metadata E c w H) as (k & Hfile).
  exists k. split; [exact Hfile|].
  split; [rewrite permute_Permutation; reflexivity|].
  rewrite length_fmap, permute_Permutation. apply length_map_to_list.
Qed.

Lemma creator_copies_by_tag_records_by_iteration_witness :
  let E := Ex.env Ex.no_fault 1 in
  let r := BundleCreator.Run E Ex.creator Ex.workstation in
  outcome r = Ret tt /\
  payload_tags (events r) = ["a"; "b"] /\
  (exists n,
     mapM (copy_to (bound_address E n "localhost:5001")) [Ex.release; Ex.img_a; Ex.img_b]
     = Some (copies (events r))) /\
  exists images,
    fs (world r) !! "/home/core/.cache/upgrade-tool/4.13.4-x86_64/metadata.json"
    = Some (File (json_Marshal E (MkMetadata "4.13.4" "x86_64" Ex.release images))) /\
    images ≡ₚ [Ex.img_a; Ex.img_b] /\ length images = 2.
Proof.
  intros E r.
  assert (Hr : outcome r = Ret tt) by (vm_compute; reflexivity).
  assert (Hd : map_to_list (discovered E Ex.creator) = [("a", Ex.img_a); ("b", Ex.img_b)])
    by (vm_compute; reflexivity).
  destruct (creator_copies_by_tag_records_by_iteration E Ex.creator Ex.workstation Hr)
    as (_ & Ht & Hcopies & k & Hfile & Hp & Hlen).
  split; [exact Hr|]. split.
  - unfold r. rewrite Ht. vm_compute. reflexivity.
  - split; [exact Hcopies|]. eexists. split; [exact Hfile|]. split.
    + rewrite Hd in Hp. exact Hp.
    + rewrite Hlen. vm_compute. reflexivity.
Defined.

(** C2, as the specification words it, fails.  Version 4.13.4,
    architecture x86_64, discovered tags [a] and [b]: in the run in which
    the iteration of the map starts at its second entry, the images are
    copied by ascending tag, and the images list in [metadata.json] has
    length 2 and holds the reference of tag [b] before that of tag [a]:
    it is not in tag order, however the file is read. *)
Lemma creator_images_not_in_tag_order :
  let E := Ex.env Ex.no_fault 1 in
  let r := BundleCreator.Run E Ex.creator Ex.workstation in
  let file := "/home/core/.cache/upgrade-tool/4.13.4-x86_64/metadata.json" in
  outcome r = Ret tt /\
  map_to_list (discovered E Ex.creator) = [("a", Ex.img_a); ("b", Ex.img_b)] /\
  copies (events r) = Ex.copied /\
  fs (world r) !! file
  = Some (File (json_Marshal E (MkMetadata "4.13.4" "x86_64" Ex.release [Ex.img_b; Ex.img_a]))) /\
  ~ images_in_tag_order (discovered E Ex.creator) [Ex.img_b; Ex.img_a] /\
  forall images,
    fs (world r) !! file
    = Some (File (json_Marshal E (MkMetadata "4.13.4" "x86_64" Ex.release images))) ->
    ~ images_in_tag_order (discovered E Ex.creator) images.
Proof.
  intros E r file.
  assert (Hfile : fs (world r) !! file
                  = Some (File (json_Marshal E (MkMetadata "4.13.4" "x86_64" Ex.release
                                                           [Ex.img_b; Ex.img_a]))))
    by (vm_compute; reflexivity).
  assert (Hno : forall images,
             json_Marshal E (MkMetadata "4.13.4" "x86_64" Ex.release [Ex.img_b; Ex.img_a])
             = json_Marshal E (MkMetadata "4.13.4" "x86_64" Ex.release images) ->
             ~ images_in_tag_order (discovered E Ex.creator) images).
  { intros images Heq Ho. unfold images_in_tag_order in Ho. vm_compute in Ho. subst images.
    vm_compute in Heq. discriminate Heq. }
  split; [vm_compute; reflexivity|]. split; [vm_compute; reflexivity|].
  split; [vm_compute; reflexivity|]. split; [exact Hfile|].
  split; [apply Hno; reflexivity|].
  intros images Hf. rewrite Hfile in Hf. apply Hno, File_inj, Hf.
Qed.

(** The scenario with its literal references.  [img-a:1] is not a
    canonical name: after the copy of the release image, the destination of
    the first payload image cannot be computed, the run ends with the exit
    code 1, and no [metadata.json] is written. *)
Example creator_scenario_with_short_names :
  let r := BundleCreator.Run Ex.short_names Ex.creator Ex.workstation in
  outcome r = Raise (exit_Error 1) /\
  dreference.ParseNamed "img-a:1" = None /\
  copies (events r) = [("docker://" +:+ Ex.release,
                        "docker://127.0.0.1:5001/openshift-release-dev/ocp-release:e73ab4b33a9c3ff00c9f800a38d69853ca0c4dfa5a88e3df331f66df8f18ec55",
                        true)] /\
  payload_tags (events r) = ["a"] /\
  fs (world r) !! "/home/core/.cache/upgrade-tool/4.13.4-x86_64/metadata.json" = None.
Proof. vm_compute. repeat split; reflexivity. Qed.

(** ** The loader: pulls and progress messages *)

(** The events the two observations of a loader run look for. *)
Definition loader_event (ev : Event) : bool :=
  match pull_of ev, progress_of ev with
  | None, None => false
  | _, _ => true
  end.

Definition no_loader_event (evs : list Event) : Prop :=
  Forall (fun ev => loader_event ev = false) evs.

Lemma loader_event_pull ev : loader_event ev = false -> pull_of ev = None.
Proof. unfold loader_event. destruct (pull_of ev); [discriminate|reflexivity]. Qed.

Lemma loader_event_progress ev : loader_event ev = false -> progress_of ev = None.
Proof.
  unfold loader_event. destruct (pull_of ev), (progress_of ev); try discriminate. reflexivity.
Qed.

Lemma no_loader_event_pulls evs : no_loader_event evs -> pulls evs = [].
Proof. apply quiet_omap, loader_event_pull. Qed.

Lemma no_loader_event_progress evs : no_loader_event evs -> progress evs = [].
Proof. apply quiet_omap, loader_event_progress. Qed.

(** The run returned an error right after the call [op] failed. *)
Definition aborted_at {A} (r : Result A) (op : Op) : Prop :=
  is_raise (outcome r) /\ exists pre, events r = pre ++ [EvOp op false].

Section LoaderPulls.
Context (E : Env).

Local Opaque filepath.Join.

Lemma PullImage_cases ref w :
  (outcome (CRIOTool.PullImage E ref w) = Ret tt /\
   events (CRIOTool.PullImage E ref w) = [EvOp (OpPullImage ref) true]) \/
  (is_raise (outcome (CRIOTool.PullImage E ref w)) /\
   events (CRIOTool.PullImage E ref w) = [EvOp (OpPullImage ref) false]).
Proof.
  unfold CRIOTool.PullImage, call, is_raise. destruct (fails E (clock w) _); cbn; eauto.
Qed.

(** A progress report always returns; it carries the rendered text,
    whether the patch went through or not. *)
Lemma reportProgress_cases l format args w :
  outcome (BundleLoader.reportProgress E l format args w) = Ret tt /\
  exists ok,
    events (BundleLoader.reportProgress E l format args w)
    = [EvOp (ClientPatchAnnotation (BundleLoader.node l) annotations.Progress
                                   (Sprintf format args)) ok;
       if ok then EvLog LInfo "Reported progress"
       else EvLog LError "Failed to apply progress patch"].
Proof.
  unfold BundleLoader.reportProgress, client.PatchAnnotation, on_error, bind, call.
  destruct (fails E (clock w) _); cbn; [split; [reflexivity|exists false; reflexivity]|].
  destruct (nodes w !! BundleLoader.node l); cbn;
    (split; [reflexivity|]); [exists true|exists false]; reflexivity.
Qed.

Lemma reportProgress_progress l format args w :
  progress (events (BundleLoader.reportProgress E l format args w)) = [Sprintf format args] /\
  pulls (events (BundleLoader.reportProgress E l format args w)) = [].
Proof.
  destruct (reportProgress_cases l format args w) as (_ & ok & ->).
  destruct ok; split; reflexivity.
Qed.

(** The payload loop: [m] images are pulled and reported with the counters
    [i+1 .. i+m]; either that is all of them and the loop returns, or the
    pull of the next one fails and the loop returns its error at once. *)
Lemma pullPayload_shape l i n refs w :
  exists m,
    m <= length refs /\
    progress (events (BundleLoader.pullPayload E l i n refs w))
    = pulled_k_of_n n <$> seq (i + 1) m /\
    ((m = length refs /\
      outcome (BundleLoader.pullPayload E l i n refs w) = Ret tt /\
      pulls (events (BundleLoader.pullPayload E l i n refs w)) = (fun ref => (ref, true)) <$> refs) \/
     (exists ref,
        refs !! m = Some ref /\
        pulls (events (BundleLoader.pullPayload E l i n refs w))
        = ((fun ref => (ref, true)) <$> take m refs) ++ [(ref, false)] /\
        aborted_at (BundleLoader.pullPayload E l i n refs w) (OpPullImage ref))).
Proof.
  revert i w. induction refs as [|ref rest IH]; intros i w; cbn [BundleLoader.pullPayload].
  - exists 0. split; [reflexivity|]. split; [reflexivity|]. left. auto.
  - destruct (PullImage_cases ref w) as [(Ho & Hev)|([e Ho] & Hev)].
    + rewrite (bind_ret_step _ _ _ _ Ho). cbn [outcome events world].
      set (w1 := world (CRIOTool.PullImage E ref w)).
      destruct (reportProgress_cases l "Pulled %d of %d images" [AInt (i + 1); AInt n] w1)
        as (Hr & ok & Hrev).
      rewrite (bind_ret_step _ _ _ _ Hr). cbn [outcome events world].
      set (w2 := world (BundleLoader.reportProgress E l _ _ w1)).
      destruct (IH (S i) w2) as (m & Hm & Hprog & Hcases).
      exists (S m). split; [cbn; lia|]. unfold progress, pulls in *.
      rewrite Hev, Hrev, !omap_app, Hprog. split.
      { destruct ok; cbn; rewrite Nat.add_1_r; reflexivity. }
      destruct Hcases as [(-> & Hout & Hpulls)|(ref' & Href & Hpulls & [e He] & pre & Hpre)].
      * left. split; [reflexivity|]. split; [exact Hout|]. rewrite Hpulls.
        destruct ok; reflexivity.
      * right. exists ref'. split; [exact Href|]. rewrite Hpulls. split.
        { destruct ok; reflexivity. }
        split; [exists e; exact He|]. rewrite Hpre.
        eexists. rewrite !app_assoc. reflexivity.
    + rewrite (bind_raise_step _ _ _ _ Ho). cbn [outcome events world].
      exists 0. split; [lia|]. rewrite Hev. split; [reflexivity|]. right.
      exists ref. split; [reflexivity|]. split; [reflexivity|].
      split; [exists e; reflexivity|]. exists []. reflexivity.
Qed.

End LoaderPulls.

(** The shapes the pulls and the progress messages of a load can have, for
    the release reference [release] and the payload references [refs]:
    nothing was pulled; or the pull of the release image failed; or the
    release image and the first [m] payload images were pulled and
    reported, and then either all were done or the next pull failed. *)
Definition pulls_shape {A} (release : string) (refs : list string) (r : Result A) : Prop :=
  (pulls (events r) = [(release, false)] /\ progress (events r) = [] /\
   aborted_at r (OpPullImage release)) \/
  exists m,
    m <= length refs /\
    progress (events r)
    = "Pulled release image" :: (pulled_k_of_n (length refs) <$> seq 1 m) /\
    ((m = length refs /\
      pulls (events r) = (release, true) :: ((fun ref => (ref, true)) <$> refs)) \/
     (exists ref,
        refs !! m = Some ref /\
        pulls (events r)
        = (release, true) :: ((fun ref => (ref, true)) <$> take m refs) ++ [(ref, false)] /\
        aborted_at r (OpPullImage ref))).

Section LoaderRun.
Context (E : Env).

Local Opaque filepath.Join.

Lemma populateCRIO_shape l release refs w :
  pulls_shape release refs (BundleLoader.populateCRIO E l release refs w) /\
  (outcome (BundleLoader.populateCRIO E l release refs w) = Ret tt ->
   progress (events (BundleLoader.populateCRIO E l release refs w))
   = "Pulled release image" :: (pulled_k_of_n (length refs) <$> seq 1 (length refs)) /\
   pulls (events (BundleLoader.populateCRIO E l release refs w))
   = (release, true) :: ((fun ref => (ref, true)) <$> refs)) /\
  (outcome (BundleLoader.populateCRIO E l release refs w) = Ret tt \/
   is_raise (outcome (BundleLoader.populateCRIO E l release refs w))).
Proof.
  unfold BundleLoader.populateCRIO, pulls_shape.
  destruct (PullImage_cases E release w) as [(Ho & Hev)|([e Ho] & Hev)].
  - rewrite (bind_ret_step _ _ _ _ Ho). cbn [outcome events world].
    set (w1 := world (CRIOTool.PullImage E release w)).
    destruct (reportProgress_cases E l "Pulled release image" [] w1) as (Hr & ok & Hrev).
    rewrite (bind_ret_step _ _ _ _ Hr). cbn [outcome events world].
    set (w2 := world (BundleLoader.reportProgress E l _ _ w1)).
    destruct (pullPayload_shape E l 0 (length refs) refs w2) as (m & Hm & Hprog & Hcases).
    unfold progress, pulls, aborted_at in *. rewrite Hev, Hrev, !omap_app, Hprog.
    assert (Hp : omap progress_of
                   [EvOp (ClientPatchAnnotation (BundleLoader.node l) annotations.Progress
                                                (Sprintf "Pulled release image" [])) ok;
                    if ok then EvLog LInfo "Reported progress"
                    else EvLog LError "Failed to apply progress patch"]
                 = ["Pulled release image"]) by (destruct ok; reflexivity).
    assert (Hq : omap pull_of
                   [EvOp (ClientPatchAnnotation (BundleLoader.node l) annotations.Progress
                                                (Sprintf "Pulled release image" [])) ok;
                    if ok then EvLog LInfo "Reported progress"
                    else EvLog LError "Failed to apply progress patch"]
                 = []) by (destruct ok; reflexivity).
    rewrite Hp, Hq. cbn [omap list_omap pull_of progress_of app].
    destruct Hcases as [(-> & Hout & Hpulls)|(ref' & Href & Hpulls & [e He] & pre & Hpre)].
    + rewrite Hpulls, Hout. split; [|split; [auto|left; reflexivity]].
      right. exists (length refs). split; [lia|]. split; [reflexivity|]. left. auto.
    + rewrite Hpulls, He. split; [|split; [discriminate|right; exists e; reflexivity]].
      right. exists m. split; [exact Hm|]. split; [reflexivity|]. right.
      exists ref'. split; [exact Href|]. split; [reflexivity|].
      split; [exists e; reflexivity|]. rewrite Hpre.
      eexists (_ :: _ :: _ :: pre). reflexivity.
  - rewrite (bind_raise_step _ _ _ _ Ho). cbn [outcome events world].
    unfold progress, pulls, aborted_at. rewrite Hev.
    split; [|split; [discriminate|right; exists e; reflexivity]].
    left. split; [reflexivity|]. split; [reflexivity|].
    split; [exists e; reflexivity|]. exists []. reflexivity.
Qed.

Lemma checkBundleDir_quiet l : quiet loader_event (BundleLoader.checkBundleDir E l).
Proof. unfold BundleLoader.checkBundleDir, os_Stat. quiet_auto. Qed.

Lemma readMetadata_quiet l : quiet loader_event (BundleLoader.readMetadata E l).
Proof.
  unfold BundleLoader.readMetadata, os_ReadFile, BundleLoader.json_decode, logger_Info.
  quiet_auto.
Qed.

Lemma startRegistry_quiet l : quiet loader_event (BundleLoader.startRegistry E l).
Proof.
  unfold BundleLoader.startRegistry.
  apply quiet_bind;
    [unfold Registry.Build, Registry.makeSelfSignedCert, os_MkdirTemp; cbn; quiet_auto|intros r].
  apply quiet_bind;
    [unfold Registry.Start, os_WriteFile, Registry.net_Listen; quiet_auto|intros started].
  unfold Registry.Address, logger_Info. quiet_auto.
Qed.

Lemma configureCRIO_quiet l addr refs : quiet loader_event (BundleLoader.configureCRIO E l addr refs).
Proof.
  unfold BundleLoader.configureCRIO, CRIOTool.CreatePinConf, CRIOTool.CreateMirrorConf,
    CRIOTool.ReloadService. quiet_auto.
Qed.

(** What follows the pulls in [Run]. *)
Definition after_pulls (l : BundleLoader.t) (registry : Registry.t) : M unit :=
  BundleLoader.deconfigureCRIO E l ;;;
  logger_Info "Populated CRI-O" ;;;
  Registry.Stop E registry ;;;
  logger_Info "Stopped registry" ;;;
  BundleLoader.deleteBundle E l ;;;
  BundleLoader.writeResult E l.

Lemma after_pulls_quiet l registry : quiet loader_event (after_pulls l registry).
Proof.
  unfold after_pulls, BundleLoader.deconfigureCRIO, CRIOTool.RemoveMirrorConf,
    CRIOTool.ReloadService, Registry.Stop, Registry.server_Shutdown, os_RemoveAll,
    BundleLoader.deleteBundle, BundleLoader.writeResult, client.Get, client.PatchLabel,
    logger_Info.
  quiet_auto.
Qed.

End LoaderRun.

(** How a load relates to its pulls: it fails before them, leaving no pull
    and no progress message; or it reads the metadata and runs
    [populateCRIO] on it, with no pull and no progress message before or
    after, and ends with it if it fails. *)
Definition metadata_file (l : BundleLoader.t) : string :=
  filepath.Join [BundleLoader.absolutePath l (BundleLoader.bundleDir l); "metadata.json"].

Definition loader_cases (E : Env) (l : BundleLoader.t) (w : World) (r : Result unit) : Prop :=
  (no_loader_event (events r) /\ outcome r <> Ret tt) \/
  exists data metadata pre w1 post,
    fs w !! metadata_file l = Some (File data) /\
    json_Unmarshal E data = JValue metadata /\
    no_loader_event pre /\ no_loader_event post /\
    events r
    = pre ++ events (BundleLoader.populateCRIO E l (Release metadata) (Images metadata) w1) ++ post /\
    (outcome (BundleLoader.populateCRIO E l (Release metadata) (Images metadata) w1) = Ret tt \/
     (post = [] /\
      outcome r = outcome (BundleLoader.populateCRIO E l (Release metadata) (Images metadata) w1))).

Section LoaderCases.
Context (E : Env).

Local Opaque filepath.Join.

Lemma loader_cases_prefix l w0 (r : Result unit) pre0 :
  no_loader_event pre0 -> loader_cases E l w0 r ->
  loader_cases E l w0 (MkResult (outcome r) (world r) (pre0 ++ events r)).
Proof.
  intros Hpre [(Hq & Ho)|(data & metadata & pre & w1 & post & Hf & Hj & Hq1 & Hq2 & Hev & Ho)].
  - left. cbn. split; [apply Forall_app; auto|exact Ho].
  - right. exists data, metadata, (pre0 ++ pre), w1, post. cbn.
    split; [exact Hf|]. split; [exact Hj|]. split; [apply Forall_app; auto|].
    split; [exact Hq2|]. split; [rewrite Hev, app_assoc; reflexivity|exact Ho].
Qed.

Lemma loader_cases_bind {A} l w0 (m : M A) (f : A -> M unit) w :
  quiet loader_event m ->
  (forall a, outcome (m w) = Ret a -> loader_cases E l w0 (f a (world (m w)))) ->
  loader_cases E l w0 (bind m f w).
Proof.
  intros Hq Hf. destruct (outcome (m w)) as [a|e|msg] eqn:Ho.
  - rewrite (bind_ret_step _ _ _ _ Ho). apply loader_cases_prefix; [apply Hq|apply Hf; reflexivity].
  - rewrite (bind_raise_step _ _ _ _ Ho). left. cbn. split; [apply Hq|discriminate].
  - rewrite (bind_panic_step _ _ _ _ Ho). left. cbn. split; [apply Hq|discriminate].
Qed.

Lemma loader_Run_cases l w : loader_cases E l w (BundleLoader.Run E l w).
Proof.
  unfold BundleLoader.Run.
  apply loader_cases_bind; [apply checkBundleDir_quiet|intros ex Hex].
  destruct ex; cbn [negb]; [|left; cbn; split; [constructor|discriminate]].
  apply loader_cases_bind; [apply readMetadata_quiet|intros metadata Hm].
  apply readMetadata_ret in Hm as (data & Hf & Hj). rewrite checkBundleDir_keeps_fs in Hf.
  apply loader_cases_bind; [apply startRegistry_quiet|intros registry _].
  apply loader_cases_bind; [apply quiet_emit; reflexivity|intros _ _].
  apply loader_cases_bind; [unfold Registry.Address; quiet_auto|intros addr _].
  apply loader_cases_bind; [apply configureCRIO_quiet|intros _ _].
  match goal with |- loader_cases _ _ _ (bind _ _ ?w1) => set (w' := w1) end.
  change (loader_cases E l w
            (bind (BundleLoader.populateCRIO E l (Release metadata) (Images metadata))
                  (fun _ => after_pulls E l registry) w')).
  right. exists data, metadata, [], w'.
  destruct (outcome (BundleLoader.populateCRIO E l (Release metadata) (Images metadata) w'))
    as [[]|e|msg] eqn:Ho.
  - rewrite (bind_ret_step _ _ _ _ Ho). eexists. cbn [events outcome].
    split; [exact Hf|]. split; [exact Hj|]. split; [constructor|].
    split; [apply after_pulls_quiet|]. split; [reflexivity|left; reflexivity].
  - rewrite (bind_raise_step _ _ _ _ Ho). exists []. cbn [events outcome].
    split; [exact Hf|]. split; [exact Hj|]. split; [constructor|]. split; [constructor|].
    split; [rewrite app_nil_r; reflexivity|right; auto].
  - rewrite (bind_panic_step _ _ _ _ Ho). exists []. cbn [events outcome].
    split; [exact Hf|]. split; [exact Hj|]. split; [constructor|]. split; [constructor|].
    split; [rewrite app_nil_r; reflexivity|right; auto].
Qed.

(** A load has the pulls and the progress messages of its [populateCRIO],
    if it gets there. *)
Lemma loader_Run_pulls l w :
  (pulls (events (BundleLoader.Run E l w)) = [] /\
   progress (events (BundleLoader.Run E l w)) = [] /\
   outcome (BundleLoader.Run E l w) <> Ret tt) \/
  exists data metadata,
    fs w !! metadata_file l = Some (File data) /\
    json_Unmarshal E data = JValue metadata /\
    pulls_shape (Release metadata) (Images metadata) (BundleLoader.Run E l w) /\
    (outcome (BundleLoader.Run E l w) = Ret tt ->
     progress (events (BundleLoader.Run E l w))
     = "Pulled release image"
         :: (pulled_k_of_n (length (Images metadata)) <$> seq 1 (length (Images metadata))) /\
     pulls (events (BundleLoader.Run E l w))
     = (Release metadata, true) :: ((fun ref => (ref, true)) <$> Images metadata)).
Proof.
  destruct (loader_Run_cases l w)
    as [(Hq & Ho)|(data & metadata & pre & w1 & post & Hf & Hj & Hq1 & Hq2 & Hev & Ho)].
  - left. split; [apply no_loader_event_pulls, Hq|].
    split; [apply no_loader_event_progress, Hq|exact Ho].
  - right. exists data, metadata. split; [exact Hf|]. split; [exact Hj|].
    set (p := BundleLoader.populateCRIO E l (Release metadata) (Images metadata) w1) in *.
    destruct (populateCRIO_shape E l (Release metadata) (Images metadata) w1)
      as (Hshape & Hret & Hout). fold p in Hshape, Hret, Hout.
    assert (Hpulls : pulls (events (BundleLoader.Run E l w)) = pulls (events p)).
    { rewrite Hev. unfold pulls. rewrite !omap_app.
      fold (pulls pre). fold (pulls post).
      rewrite (no_loader_event_pulls _ Hq1), (no_loader_event_pulls _ Hq2), app_nil_r.
      reflexivity. }
    assert (Hprog : progress (events (BundleLoader.Run E l w)) = progress (events p)).
    { rewrite Hev. unfold progress. rewrite !omap_app.
      fold (progress pre). fold (progress post).
      rewrite (no_loader_event_progress _ Hq1), (no_loader_event_progress _ Hq2), app_nil_r.
      reflexivity. }
    assert (Habort : forall op, aborted_at p op -> aborted_at (BundleLoader.Run E l w) op).
    { intros op ([e He] & pre' & Hpre').
      destruct Ho as [Ho|(-> & Ho)]; [congruence|].
      split; [exists e; congruence|]. exists (pre ++ pre').
      rewrite Hev, Hpre', app_nil_r, app_assoc. reflexivity. }
    split.
    + unfold pulls_shape in *. rewrite Hpulls, Hprog.
      destruct Hshape as [(H1 & H2 & H3)|(m & Hm & H2 & [H3|(ref & Href & H3 & H4)])].
      * left. auto.
      * right. exists m. auto.
      * right. exists m. split; [exact Hm|]. split; [exact H2|]. right.
        exists ref. auto.
    + intros Hr. rewrite Hpulls, Hprog. apply Hret.
      destruct Ho as [Ho|(_ & Ho)]; [exact Ho|congruence].
Qed.

End LoaderCases.

Lemma string_app_inv_tail a b s : a +:+ s = b +:+ s -> a = b.
Proof.
  intros H. apply (f_equal Str.bytes) in H. rewrite !bytes_app in H.
  apply app_inv_tail in H. rewrite <- (of_bytes_bytes a), <- (of_bytes_bytes b), H. reflexivity.
Qed.

(** The text of a progress message determines its counter. *)
Lemma pulled_k_of_n_inj n k1 k2 : pulled_k_of_n n k1 = pulled_k_of_n n k2 -> k1 = k2.
Proof.
  unfold pulled_k_of_n. intros H.
  change (Sprintf "Pulled %d of %d images" [AInt k1; AInt n])
    with ("Pulled " +:+ pretty k1 +:+ " of " +:+ pretty n +:+ " images") in H.
  change (Sprintf "Pulled %d of %d images" [AInt k2; AInt n])
    with ("Pulled " +:+ pretty k2 +:+ " of " +:+ pretty n +:+ " images") in H.
  apply (inj (String.app "Pulled ")) in H.
  apply string_app_inv_tail in H. apply (inj pretty) in H. exact H.
Qed.

(** C5.  In every load, either nothing is pulled and nothing reported; or
    the pull of the release image fails and the run returns its error with
    that failed pull as its last event; or the release image and the
    first [m] payload images are pulled and the progress messages are the
    one for the release image followed by "Pulled k of n images" for k = 1,
    2, ..., m: one message for each successful payload pull, with
    strictly increasing counter, and none for a failed pull.  Then either
    all [n] payload images were pulled, or the pull of the next image
    failed, nothing was pulled after it and the run returned its error
    with the failed pull as its last event. *)
Theorem loader_progress_follows_pulls (E : Env) (l : BundleLoader.t) (w : World) :
  (pulls (events (BundleLoader.Run E l w)) = [] /\
   progress (events (BundleLoader.Run E l w)) = []) \/
  exists release refs, pulls_shape release refs (BundleLoader.Run E l w).
Proof.
  destruct (loader_Run_pulls E l w) as [(H1 & H2 & _)|(data & metadata & _ & _ & Hs & _)].
  - left. auto.
  - right. exists (Release metadata), (Images metadata). exact Hs.
Qed.

Definition pull_fails (ref : string) (op : Op) : bool :=
  match op with
  | OpPullImage r => String.eqb r ref
  | _ => false
  end.

Example loader_aborts_at_failed_pull :
  let r := BundleLoader.Run (Ex.env (pull_fails Ex.img_b) 0) Ex.loader Ex.extracted in
  outcome r = Raise (EFault (OpPullImage Ex.img_b)) /\
  pulls (events r) = [(Ex.release, true); (Ex.img_a, true); (Ex.img_b, false)] /\
  progress (events r) = ["Pulled release image"; "Pulled 1 of 2 images"] /\
  last (events r) = Some (EvOp (OpPullImage Ex.img_b) false).
Proof. vm_compute. auto. Qed.

(** C10.  For a bundle whose [metadata.json] decodes to [metadata], with
    [n] the length of its [images] list: the progress messages of a load
    are none, or the fixed message "Pulled release image" followed by
    "Pulled k of n images" for k = 1, ..., m with m <= n; the release image
    has no counter and is not counted in [n].  When the load succeeds, the
    pulls are the release image and then the [n] images, and the counters
    run from 1 to [n]. *)
Theorem loader_counter_excludes_release
        (E : Env) (l : BundleLoader.t) (w : World) (data : string) (metadata : Metadata) :
  fs w !! metadata_file l = Some (File data) ->
  json_Unmarshal E data = JValue metadata ->
  (exists m,
     m <= length (Images metadata) /\
     (progress (events (BundleLoader.Run E l w)) = [] \/
      progress (events (BundleLoader.Run E l w))
      = "Pulled release image" :: (pulled_k_of_n (length (Images metadata)) <$> seq 1 m))) /\
  (outcome (BundleLoader.Run E l w) = Ret tt ->
   pulls (events (BundleLoader.Run E l w))
   = (Release metadata, true) :: ((fun ref => (ref, true)) <$> Images metadata) /\
   progress (events (BundleLoader.Run E l w))
   = "Pulled release image"
       :: (pulled_k_of_n (length (Images metadata)) <$> seq 1 (length (Images metadata)))).
Proof.
  intros Hf Hj.
  destruct (loader_Run_pulls E l w)
    as [(H1 & H2 & Ho)|(data' & metadata' & Hf' & Hj' & Hs & Hret)].
  - split; [exists 0; split; [lia|left; exact H2]|]. intros Hr. contradiction.
  - rewrite Hf in Hf'. injection Hf' as <-. rewrite Hj in Hj'. injection Hj' as <-.
    split.
    + destruct Hs as [(_ & H2 & _)|(m & Hm & H2 & _)].
      * exists 0. split; [lia|left; exact H2].
      * exists m. split; [exact Hm|right; exact H2].
    + intros Hr. destruct (Hret Hr) as (Hprog & Hpulls). auto.
Qed.

Lemma loader_counter_excludes_release_witness :
  let E := Ex.env Ex.no_fault 0 in
  let r := BundleLoader.Run E Ex.loader Ex.extracted in
  outcome r = Ret tt /\
  pulls (events r) = [(Ex.release, true); (Ex.img_a, true); (Ex.img_b, true)] /\
  progress (events r) = ["Pulled release image"; "Pulled 1 of 2 images"; "Pulled 2 of 2 images"].
Proof.
  intros E r.
  assert (Hr : outcome r = Ret tt) by (vm_compute; reflexivity).
  destruct (loader_counter_excludes_release E Ex.loader Ex.extracted
              (Ex.marshal Ex.metadata) Ex.metadata) as (_ & H).
  - vm_compute. reflexivity.
  - vm_compute. reflexivity.
  - destruct (H Hr) as (Hpulls & Hprog). split; [exact Hr|].
    split; [exact Hpulls|exact Hprog].
Defined.

(** ** The loader: which failures abort the run *)

(** A trace in which the only failed calls are progress patches, each
    followed at once by the log entry of its failure. *)
Fixpoint benign (evs : list Event) : bool :=
  match evs with
  | [] => true
  | EvOp op ok :: rest =>
      if ok then benign rest
      else is_progress_patch op &&
           match rest with
           | EvLog LError msg :: _ => String.eqb msg "Failed to apply progress patch"
           | _ => false
           end && benign rest
  | _ :: rest => benign rest
  end.

(** A run is orderly when a normal return (or a panic) comes with a benign
    trace, and an error return comes right after a failed call that is not
    a progress patch, with a benign trace before it. *)
Definition orderly {A} (r : Result A) : Prop :=
  match outcome r with
  | Raise _ => exists pre op, events r = pre ++ [EvOp op false] /\
                              is_progress_patch op = false /\ benign pre = true
  | _ => benign (events r) = true
  end.

Definition sound {A} (m : M A) : Prop := forall w, orderly (m w).

Lemma benign_app evs1 evs2 : benign evs1 = true -> benign evs2 = true -> benign (evs1 ++ evs2) = true.
Proof.
  induction evs1 as [|ev evs1 IH]; intros H1 H2; [exact H2|].
  destruct ev as [op [|]|lvl msg|lvl format args]; cbn in H1 |- *; try (apply IH; assumption).
  apply andb_prop in H1 as [H1 Hb]. apply andb_prop in H1 as [Hp Hlog].
  rewrite Hp, (IH Hb H2). destruct evs1 as [|[| [|] msg |] evs1]; try discriminate.
  cbn. rewrite Hlog. reflexivity.
Qed.

Lemma benign_failed evs op :
  benign evs = true -> In (EvOp op false) evs -> is_progress_patch op = true.
Proof.
  induction evs as [|ev evs IH]; intros Hb Hin; [destruct Hin|].
  destruct Hin as [->|Hin].
  - cbn in Hb. apply andb_prop in Hb as [Hb _]. apply andb_prop in Hb as [Hb _]. exact Hb.
  - apply IH; [|exact Hin].
    destruct ev as [op' [|]|lvl msg|lvl format args]; cbn in Hb; try exact Hb.
    apply andb_prop in Hb as [_ Hb]. exact Hb.
Qed.

Lemma benign_logged evs pre op post :
  benign evs = true -> evs = pre ++ EvOp op false :: post ->
  exists post', post = EvLog LError "Failed to apply progress patch" :: post'.
Proof.
  revert evs. induction pre as [|ev pre IH]; intros evs Hb ->.
  - cbn in Hb. apply andb_prop in Hb as [Hb _]. apply andb_prop in Hb as [_ Hlog].
    destruct post as [|[| [|] msg |] post]; try discriminate.
    apply String.eqb_eq in Hlog. subst msg. eauto.
  - apply (IH (pre ++ EvOp op false :: post)); [|reflexivity].
    destruct ev as [op' [|]|lvl msg|lvl format args]; cbn in Hb; try exact Hb.
    apply andb_prop in Hb as [_ Hb]. exact Hb.
Qed.

Section Sound.

Lemma sound_ret {A} (a : A) : sound (ret a).
Proof. intros w. reflexivity. Qed.
Lemma sound_panic {A} msg : sound (@panic A msg).
Proof. intros w. reflexivity. Qed.
Lemma sound_log lvl msg : sound (emit (EvLog lvl msg)).
Proof. intros w. reflexivity. Qed.

Lemma sound_bind {A B} (m : M A) (f : A -> M B) :
  sound m -> (forall a, sound (f a)) -> sound (bind m f).
Proof.
  intros Hm Hf w. specialize (Hm w). unfold orderly in *.
  destruct (outcome (m w)) as [a|e|msg] eqn:Ho.
  - rewrite (bind_ret_step _ _ _ _ Ho). cbn [outcome events].
    specialize (Hf a (world (m w))). unfold orderly in Hf.
    destruct (outcome (f a (world (m w)))) as [b|e|msg].
    + apply benign_app; assumption.
    + destruct Hf as (pre & op & -> & Hop & Hpre).
      exists (events (m w) ++ pre), op. rewrite app_assoc.
      split; [reflexivity|]. split; [exact Hop|apply benign_app; assumption].
    + apply benign_app; assumption.
  - rewrite (bind_raise_step _ _ _ _ Ho). exact Hm.
  - rewrite (bind_panic_step _ _ _ _ Ho). exact Hm.
Qed.

Lemma sound_call {A} E o (f : World -> error + A * World) :
  is_progress_patch o = false -> sound (call E o f).
Proof.
  intros Ho w. unfold orderly, call. destruct (fails E (clock w) o); cbn.
  - exists [], o. auto.
  - destruct (f w) as [e|[a w']]; cbn; [exists [], o; auto|reflexivity].
Qed.

End Sound.

Ltac sound_auto :=
  repeat first
    [ apply sound_ret | apply sound_panic | apply sound_log
    | apply sound_bind; [|intros ?]
    | apply sound_call; reflexivity
    | match goal with
      | |- sound (match ?x with _ => _ end) => destruct x
      | |- sound (if ?b then _ else _) => destruct b
      end ].

Section LoaderSound.
Context (E : Env).

Local Opaque filepath.Join.

Lemma reportProgress_sound l format args : sound (BundleLoader.reportProgress E l format args).
Proof.
  intros w. unfold orderly.
  destruct (reportProgress_cases E l format args w) as (-> & ok & ->).
  destruct ok; reflexivity.
Qed.

Lemma pullPayload_sound l i n refs : sound (BundleLoader.pullPayload E l i n refs).
Proof.
  revert i. induction refs as [|ref rest IH]; intros i; cbn [BundleLoader.pullPayload].
  - apply sound_ret.
  - apply sound_bind; [unfold CRIOTool.PullImage; sound_auto|intros _].
    apply sound_bind; [apply reportProgress_sound|intros _]. apply IH.
Qed.

Lemma populateCRIO_sound l release refs : sound (BundleLoader.populateCRIO E l release refs).
Proof.
  unfold BundleLoader.populateCRIO.
  apply sound_bind; [unfold CRIOTool.PullImage; sound_auto|intros _].
  apply sound_bind; [apply reportProgress_sound|intros _]. apply pullPayload_sound.
Qed.

Lemma readMetadata_sound l : sound (BundleLoader.readMetadata E l).
Proof.
  unfold BundleLoader.readMetadata.
  apply sound_bind; [unfold os_ReadFile; sound_auto|intros data].
  apply sound_bind; [|intros [m|]; unfold logger_Info; sound_auto].
  intros w. unfold BundleLoader.json_decode, orderly.
  destruct (json_Unmarshal E data); cbn; try reflexivity.
  eexists [], _. split; [reflexivity|]. split; reflexivity.
Qed.

(** The same for a procedure that hands its error back as a value. *)
Definition orderly2 {X} (r : Result (X * option error)) : Prop :=
  match outcome r with
  | Ret (_, None) | Panic _ => benign (events r) = true
  | Ret (_, Some _) | Raise _ =>
      exists pre op, events r = pre ++ [EvOp op false] /\
                     is_progress_patch op = false /\ benign pre = true
  end.

Lemma orderly2_bind {A X} (m : M A) (f : A -> M (X * option error)) w :
  sound m -> (forall a w', orderly2 (f a w')) -> orderly2 (bind m f w).
Proof.
  intros Hm Hf. specialize (Hm w). unfold orderly, orderly2 in *.
  destruct (outcome (m w)) as [a|e|msg] eqn:Ho.
  - rewrite (bind_ret_step _ _ _ _ Ho). cbn [outcome events].
    specialize (Hf a (world (m w))).
    destruct (outcome (f a (world (m w)))) as [[x [e|]]|e|msg].
    + destruct Hf as (pre & op & -> & Hop & Hpre).
      exists (events (m w) ++ pre), op. rewrite app_assoc.
      split; [reflexivity|]. split; [exact Hop|apply benign_app; assumption].
    + apply benign_app; assumption.
    + destruct Hf as (pre & op & -> & Hop & Hpre).
      exists (events (m w) ++ pre), op. rewrite app_assoc.
      split; [reflexivity|]. split; [exact Hop|apply benign_app; assumption].
    + apply benign_app; assumption.
  - rewrite (bind_raise_step _ _ _ _ Ho). exact Hm.
  - rewrite (bind_panic_step _ _ _ _ Ho). exact Hm.
Qed.

Lemma orderly2_caught {X} (m : M (X * option error)) (x : X) w :
  orderly2 (m w) -> orderly2 (on_error m (fun e => ret (x, Some e)) w).
Proof.
  intros Hm. unfold orderly2 in *.
  destruct (outcome (m w)) as [[x' [e|]]|e|msg] eqn:Ho.
  - rewrite (on_error_ret_step _ _ _ _ Ho), Ho. exact Hm.
  - rewrite (on_error_ret_step _ _ _ _ Ho), Ho. exact Hm.
  - rewrite (on_error_raise_step _ _ _ _ Ho). cbn. rewrite app_nil_r. exact Hm.
  - rewrite (on_error_panic_step _ _ _ _ Ho), Ho. exact Hm.
Qed.

Lemma Start_orderly r w : orderly2 (Registry.Start E r w).
Proof.
  unfold Registry.Start.
  apply orderly2_caught.
  apply orderly2_bind; [unfold os_WriteFile; sound_auto|intros _ w1].
  apply orderly2_bind; [unfold os_WriteFile; sound_auto|intros _ w2].
  apply orderly2_caught.
  apply orderly2_bind; [unfold Registry.net_Listen; sound_auto|intros a w3].
  reflexivity.
Qed.

Lemma startRegistry_sound l :
  BundleLoader.absolutePath l (BundleLoader.bundleDir l) <> "" ->
  sound (BundleLoader.startRegistry E l).
Proof.
  intros Hdir. apply String.eqb_neq in Hdir. unfold BundleLoader.startRegistry.
  apply sound_bind.
  { unfold Registry.Build. cbn [RegistryBuilder.logger RegistryBuilder.address
      RegistryBuilder.root RegistryBuilder.cert RegistryBuilder.key negb].
    rewrite Hdir. change (String.eqb "localhost:0" "") with false. cbv iota.
    unfold Registry.makeSelfSignedCert, os_MkdirTemp. sound_auto. }
  intros r w. unfold orderly.
  pose proof (Start_orderly r w) as H. unfold orderly2 in H.
  destruct (outcome (Registry.Start E r w)) as [[r' [e|]]|e|msg] eqn:Ho.
  - rewrite (bind_ret_step _ _ _ _ Ho). cbn. rewrite app_nil_r. exact H.
  - rewrite (bind_ret_step _ _ _ _ Ho). cbn [outcome events world snd fst].
    assert (Hs : sound (let* _ := Registry.Address r' in
                        logger_Info "Started registry" ;;; ret r'))
      by (unfold Registry.Address, logger_Info; sound_auto).
    specialize (Hs (world (Registry.Start E r w))). unfold orderly in Hs.
    match type of Hs with
    | match outcome ?x with _ => _ end => destruct (outcome x) as [a|e|msg]
    end.
    + apply benign_app; assumption.
    + destruct Hs as (pre & op & -> & Hop & Hpre).
      exists (events (Registry.Start E r w) ++ pre), op. rewrite app_assoc.
      split; [reflexivity|]. split; [exact Hop|apply benign_app; assumption].
    + apply benign_app; assumption.
  - rewrite (bind_raise_step _ _ _ _ Ho). exact H.
  - rewrite (bind_panic_step _ _ _ _ Ho). exact H.
Qed.

End LoaderSound.

Section LoaderOrderly.
Context (E : Env).

Local Opaque filepath.Join.

Lemma orderly_prefix {A} (r : Result A) pre :
  benign pre = true -> orderly r -> orderly (MkResult (outcome r) (world r) (pre ++ events r)).
Proof.
  intros Hpre Hr. unfold orderly in *. cbn [outcome events].
  destruct (outcome r) as [a|e|msg].
  - apply benign_app; assumption.
  - destruct Hr as (pre' & op & -> & Hop & Hpre').
    exists (pre ++ pre'), op. rewrite app_assoc.
    split; [reflexivity|]. split; [exact Hop|apply benign_app; assumption].
  - apply benign_app; assumption.
Qed.

Lemma checkBundleDir_cases l w :
  let dir := BundleLoader.absolutePath l (BundleLoader.bundleDir l) in
  (outcome (BundleLoader.checkBundleDir E l w) = Ret true /\
   events (BundleLoader.checkBundleDir E l w) = [EvOp (OsStat dir) true] /\ dir <> "") \/
  ((outcome (BundleLoader.checkBundleDir E l w) = Ret false \/
    is_raise (outcome (BundleLoader.checkBundleDir E l w))) /\
   events (BundleLoader.checkBundleDir E l w) = [EvOp (OsStat dir) false]).
Proof.
  intros dir. unfold BundleLoader.checkBundleDir, on_error, bind, os_Stat, call, is_raise.
  fold dir. destruct (fails E (clock w) _); cbn; [right; eauto|].
  destruct (String.eqb dir "") eqn:Hd; cbn; [right; eauto|].
  apply String.eqb_neq in Hd. destruct (fs w !! dir); cbn; [left; auto|right; eauto].
Qed.

(** What [Run] does once the bundle directory is known to exist. *)
Definition load (l : BundleLoader.t) : M unit :=
  let* metadata := BundleLoader.readMetadata E l in
  let* registry := BundleLoader.startRegistry E l in
  logger_Info "Populating CRI-O" ;;;
  let* addr := Registry.Address registry in
  BundleLoader.configureCRIO E l addr (Images metadata) ;;;
  BundleLoader.populateCRIO E l (Release metadata) (Images metadata) ;;;
  BundleLoader.deconfigureCRIO E l ;;;
  logger_Info "Populated CRI-O" ;;;
  Registry.Stop E registry ;;;
  logger_Info "Stopped registry" ;;;
  BundleLoader.deleteBundle E l ;;;
  BundleLoader.writeResult E l.

Lemma load_sound l :
  BundleLoader.absolutePath l (BundleLoader.bundleDir l) <> "" -> sound (load l).
Proof.
  intros Hdir. unfold load.
  apply sound_bind; [apply readMetadata_sound|intros metadata].
  apply sound_bind; [apply startRegistry_sound, Hdir|intros registry].
  apply sound_bind; [apply sound_log|intros _].
  apply sound_bind; [unfold Registry.Address; sound_auto|intros addr].
  apply sound_bind;
    [unfold BundleLoader.configureCRIO, CRIOTool.CreatePinConf, CRIOTool.CreateMirrorConf,
       CRIOTool.ReloadService; sound_auto|intros _].
  apply sound_bind; [apply populateCRIO_sound|intros _].
  unfold BundleLoader.deconfigureCRIO, CRIOTool.RemoveMirrorConf, CRIOTool.ReloadService,
    Registry.Stop, Registry.server_Shutdown, os_RemoveAll, BundleLoader.deleteBundle,
    BundleLoader.writeResult, client.Get, client.PatchLabel, logger_Info.
  sound_auto.
Qed.

Lemma loader_Run_orderly l w : orderly (BundleLoader.Run E l w).
Proof.
  unfold BundleLoader.Run.
  destruct (checkBundleDir_cases l w) as [(Ho & Hev & Hdir)|([Ho|[e Ho]] & Hev)].
  - rewrite (bind_ret_step _ _ _ _ Ho), Hev. cbn [negb].
    apply (orderly_prefix (load l (world (BundleLoader.checkBundleDir E l w)))
                          [EvOp (OsStat _) true]); [reflexivity|].
    apply load_sound, Hdir.
  - rewrite (bind_ret_step _ _ _ _ Ho), Hev. cbn. eexists [], _. auto.
  - rewrite (bind_raise_step _ _ _ _ Ho), Hev. cbn. eexists [], _. auto.
Qed.

End LoaderOrderly.

Lemma structural_not_progress op : structural op = true -> is_progress_patch op = false.
Proof. destruct op; cbn; congruence. Qed.

(** C8.  In every load:
    (1) when a structural operation fails (writing the pin or the mirror
        configuration, removing the mirror, reloading the runtime, pulling
        an image, reading the node or patching its [bundle-loaded] label),
        the run returns an error and that failed call is its last event;
    (2) every error return of the run comes right after a failed call
        that is not a progress patch: a failed progress patch never is the
        reason for an error;
    (3) every failed progress patch is followed at once by the log entry
        "Failed to apply progress patch";
    (4) when the only calls that failed are progress patches, the run
        does not return an error. *)
Theorem loader_tolerates_only_progress_failures (E : Env) (l : BundleLoader.t) (w : World) :
  (forall op, In (EvOp op false) (events (BundleLoader.Run E l w)) ->
              structural op = true -> aborted_at (BundleLoader.Run E l w) op) /\
  (is_raise (outcome (BundleLoader.Run E l w)) ->
   exists op, is_progress_patch op = false /\ aborted_at (BundleLoader.Run E l w) op) /\
  (forall pre node key text post,
     events (BundleLoader.Run E l w)
     = pre ++ EvOp (ClientPatchAnnotation node key text) false :: post ->
     exists post', post = EvLog LError "Failed to apply progress patch" :: post') /\
  ((forall op, In (EvOp op false) (events (BundleLoader.Run E l w)) ->
               is_progress_patch op = true) ->
   ~ is_raise (outcome (BundleLoader.Run E l w))).
Proof.
  cut ((forall op, In (EvOp op false) (events (BundleLoader.Run E l w)) ->
                   structural op = true -> aborted_at (BundleLoader.Run E l w) op) /\
       (is_raise (outcome (BundleLoader.Run E l w)) ->
        exists op, is_progress_patch op = false /\ aborted_at (BundleLoader.Run E l w) op) /\
       (forall pre node key text post,
          events (BundleLoader.Run E l w)
          = pre ++ EvOp (ClientPatchAnnotation node key text) false :: post ->
          exists post', post = EvLog LError "Failed to apply progress patch" :: post')).
  { intros (H1 & H2 & H3). split; [exact H1|]. split; [exact H2|]. split; [exact H3|].
    intros Hall Hr. destruct (H2 Hr) as (op & Hop & _ & pre & Hev).
    rewrite (Hall op) in Hop; [discriminate|].
    rewrite Hev. apply in_or_app. right. left. reflexivity. }
  pose proof (loader_Run_orderly E l w) as H. unfold orderly, aborted_at in *.
  destruct (outcome (BundleLoader.Run E l w)) as [a|e|msg] eqn:Ho.
  - split; [|split].
    + intros op Hin Hs. apply (benign_failed _ _ H) in Hin.
      rewrite (structural_not_progress _ Hs) in Hin. discriminate.
    + intros [e He]. discriminate.
    + intros pre node key text post Hev. eapply benign_logged; eauto.
  - destruct H as (pre0 & op0 & Hev0 & Hop0 & Hpre0). split; [|split].
    + intros op Hin Hs. rewrite Hev0 in Hin. apply in_app_or in Hin as [Hin|[Hin|[]]].
      * apply (benign_failed _ _ Hpre0) in Hin.
        rewrite (structural_not_progress _ Hs) in Hin. discriminate.
      * injection Hin as <-. split; [exists e; reflexivity|]. exists pre0. exact Hev0.
    + intros _. exists op0. split; [exact Hop0|].
      split; [exists e; reflexivity|]. exists pre0. exact Hev0.
    + intros pre node key text post Hev. rewrite Hev0 in Hev.
      destruct (exists_last (l := post)) as (post0 & last_ev & ->).
      * intros ->. apply (app_inj_tail pre0 pre) in Hev as (_ & Heq).
        injection Heq as ->. discriminate.
      * change (pre ++ EvOp (ClientPatchAnnotation node key text) false :: post0 ++ [last_ev])
          with (pre ++ (EvOp (ClientPatchAnnotation node key text) false :: post0) ++ [last_ev])
          in Hev.
        rewrite app_assoc in Hev. apply app_inj_tail in Hev as (Hpre & _).
        destruct (benign_logged _ _ _ _ Hpre0 Hpre) as (post' & ->).
        eexists. reflexivity.
  - split; [|split].
    + intros op Hin Hs. apply (benign_failed _ _ H) in Hin.
      rewrite (structural_not_progress _ Hs) in Hin. discriminate.
    + intros [e He]. discriminate.
    + intros pre node key text post Hev. eapply benign_logged; eauto.
Qed.

Definition reload_fails (op : Op) : bool :=
  match op with OpReloadService => true | _ => false end.

Lemma loader_tolerates_only_progress_failures_witness :
  let patched := BundleLoader.Run (Ex.env is_progress_patch 0) Ex.loader Ex.extracted in
  let reloaded := BundleLoader.Run (Ex.env reload_fails 0) Ex.loader Ex.extracted in
  (outcome patched = Ret tt /\ ~ is_raise (outcome patched) /\
   progress (events patched)
   = ["Pulled release image"; "Pulled 1 of 2 images"; "Pulled 2 of 2 images"] /\
   Annotations <$> nodes (world patched) !! "node1" = Some ∅ /\
   Labels <$> nodes (world patched) !! "node1" = Some {[labels.BundleLoaded := "true"]}) /\
  (In (EvOp OpReloadService false) (events reloaded) /\ aborted_at reloaded OpReloadService).
Proof.
  intros patched reloaded. split.
  - destruct (loader_tolerates_only_progress_failures (Ex.env is_progress_patch 0)
                Ex.loader Ex.extracted) as (_ & _ & _ & H4).
    split; [vm_compute; reflexivity|]. split.
    + apply H4. intros op Hin. vm_compute in Hin.
      repeat (destruct Hin as [Hin|Hin];
              [try discriminate Hin; injection Hin as <-; reflexivity|]).
      destruct Hin.
    + split; [vm_compute; reflexivity|]. split; vm_compute; reflexivity.
  - destruct (loader_tolerates_only_progress_failures (Ex.env reload_fails 0)
                Ex.loader Ex.extracted) as (H1 & _).
    assert (Hin : In (EvOp OpReloadService false) (events reloaded)) by (vm_compute; tauto).
    split; [exact Hin|]. apply H1; [exact Hin|reflexivity].
Defined.

(** ** The registry: building, starting, stopping *)

(** A builder [Build] refuses: a mandatory field is missing, or only one of
    certificate and key is set. *)
Definition incomplete (b : RegistryBuilder.t) : Prop :=
  RegistryBuilder.logger b = false \/ RegistryBuilder.address b = "" \/
  RegistryBuilder.root b = "" \/
  (is_Some (RegistryBuilder.cert b) /\ RegistryBuilder.key b = None) \/
  (RegistryBuilder.cert b = None /\ is_Some (RegistryBuilder.key b)).

Lemma call_nonempty {A} (E : Env) (o : Op) (f : World -> error + A * World) w :
  events (call E o f w) <> [].
Proof.
  unfold call. destruct (fails E (clock w) o); [discriminate|].
  destruct (f w) as [e|[a w']]; discriminate.
Qed.

Lemma bind_events_nonempty {A B} (m : M A) (f : A -> M B) w :
  events (m w) <> [] -> events (bind m f w) <> [].
Proof.
  intros H. unfold bind. destruct (outcome (m w)); cbn; [|exact H|exact H].
  intros Heq. apply app_eq_nil in Heq as [Heq _]. contradiction.
Qed.

(** [Build] checks its parameters before it touches the environment.  A
    builder that lacks the logger, the address or the root, or that has
    only one of certificate and key, is refused with an error message,
    the world unchanged and nothing recorded; and only such a builder is.
    A builder that is complete but for the key (the certificate) is
    refused with the message that names the key (the certificate). *)
Theorem registry_Build_validates_first (E : Env) (b : RegistryBuilder.t) (w : World) :
  (incomplete b <-> exists msg, Registry.Build E b w = MkResult (Raise (EMsg msg)) w []) /\
  (RegistryBuilder.logger b = true -> RegistryBuilder.address b <> "" ->
   RegistryBuilder.root b <> "" ->
   forall cert key,
     (Registry.Build E (NewRegistry.SetCertificate (Some cert) None b) w
      = MkResult (Raise (EMsg "key is mandatory when certificate is set")) w []) /\
     (Registry.Build E (NewRegistry.SetCertificate None (Some key) b) w
      = MkResult (Raise (EMsg "certificate is mandatory when key is set")) w [])).
Proof.
  split.
  - unfold incomplete, Registry.Build. destruct b as [lg addr rt c k]. cbn.
    destruct lg; cbn.
    2:{ split; [intros _; eexists; reflexivity|auto]. }
    destruct (String.eqb addr "") eqn:Ha.
    { apply String.eqb_eq in Ha. split; [intros _; eexists; reflexivity|auto]. }
    apply String.eqb_neq in Ha.
    destruct (String.eqb rt "") eqn:Hr.
    { apply String.eqb_eq in Hr. split; [intros _; eexists; reflexivity|auto]. }
    apply String.eqb_neq in Hr.
    destruct c as [c|], k as [k|].
    + split.
      * intros [?|[?|[?|[[_ ?]|[? _]]]]]; congruence.
      * intros [msg Hb]. apply (f_equal events) in Hb. cbn [events] in Hb.
        apply bind_events_nonempty in Hb; [destruct Hb|apply call_nonempty].
    + split; [intros _; eexists; reflexivity|]. intros _. right. right. right. left. eauto.
    + split; [intros _; eexists; reflexivity|]. intros _. right. right. right. right. eauto.
    + split.
      * intros [?|[?|[?|[[[? ?] _]|[_ [? ?]]]]]]; congruence.
      * intros [msg Hb]. apply (f_equal events) in Hb. cbn [events] in Hb.
        apply bind_events_nonempty in Hb; [destruct Hb|apply call_nonempty].
  - intros Hl Ha Hr cert key. apply String.eqb_neq in Ha, Hr.
    unfold Registry.Build, NewRegistry.SetCertificate. cbn. rewrite Hl, Ha, Hr. cbn. auto.
Qed.

Lemma registry_Build_validates_first_witness :
  let b := NewRegistry.SetRoot "/data"
             (NewRegistry.SetAddress "localhost:5001" (NewRegistry.SetLogger true NewRegistry.New)) in
  Registry.Build (Ex.env Ex.no_fault 0) (NewRegistry.SetCertificate (Some "CERT") None b) Ex.bare
  = MkResult (Raise (EMsg "key is mandatory when certificate is set")) Ex.bare [] /\
  Registry.Build (Ex.env Ex.no_fault 0) (NewRegistry.SetCertificate None (Some "KEY") b) Ex.bare
  = MkResult (Raise (EMsg "certificate is mandatory when key is set")) Ex.bare [].
Proof.
  intros b.
  apply (proj2 (registry_Build_validates_first (Ex.env Ex.no_fault 0) b Ex.bare));
    [reflexivity|discriminate|discriminate].
Defined.

(** The registry [Build] returns.  Its temporary directory is the one the
    environment names for the pattern [*.registry]; it did not exist, it
    is a directory now, and nothing else changed in the file system.
    Address and root are the builder's; there is no listener and no
    server yet.  Certificate and key are the builder's when it has both,
    and then the creation of the directory is the only call; else they are
    the pair generated for the address. *)
Theorem registry_Build_creates_fresh_tmp (E : Env) (b : RegistryBuilder.t) (w : World)
        (r : Registry.t) :
  outcome (Registry.Build E b w) = Ret r ->
  let tmp := temp_dir E (clock w) "*.registry" in
  Registry.tmp r = tmp /\ fs w !! tmp = None /\
  fs (world (Registry.Build E b w)) = <[tmp := Dir]> (fs w) /\
  Registry.address r = RegistryBuilder.address b /\
  Registry.root r = RegistryBuilder.root b /\
  Registry.listener r = None /\ Registry.server r = None /\
  match RegistryBuilder.cert b, RegistryBuilder.key b with
  | Some cert, Some key =>
      Registry.cert r = cert /\ Registry.key r = key /\
      events (Registry.Build E b w) = [EvOp (OsMkdirTemp "*.registry") true]
  | _, _ =>
      (Registry.cert r, Registry.key r) = key_pair E (S (clock w)) (RegistryBuilder.address b)
  end.
Proof. apply Build_ret. Qed.

Lemma registry_Build_creates_fresh_tmp_witness :
  let E := Ex.env Ex.no_fault 0 in
  let b := NewRegistry.SetCertificate (Some "CERT") (Some "KEY")
             (NewRegistry.SetRoot "/data"
                (NewRegistry.SetAddress "localhost:5001"
                   (NewRegistry.SetLogger true NewRegistry.New))) in
  exists r, outcome (Registry.Build E b Ex.bare) = Ret r /\
            Registry.tmp r = "/tmp/0.registry" /\ Registry.cert r = "CERT" /\
            Registry.key r = "KEY" /\
            events (Registry.Build E b Ex.bare) = [EvOp (OsMkdirTemp "*.registry") true].
Proof.
  intros E b. eexists. split; [reflexivity|].
  destruct (registry_Build_creates_fresh_tmp E b Ex.bare _ eq_refl)
    as (H1 & _ & _ & _ & _ & _ & _ & H2 & H3 & H4).
  auto.
Defined.

Lemma bind_inv_raise {A B} (m : M A) (f : A -> M B) w e :
  outcome (bind m f w) = Raise e ->
  (outcome (m w) = Raise e /\ world (bind m f w) = world (m w) /\
   events (bind m f w) = events (m w)) \/
  (exists a, outcome (m w) = Ret a /\ outcome (f a (world (m w))) = Raise e /\
             world (bind m f w) = world (f a (world (m w))) /\
             events (bind m f w) = events (m w) ++ events (f a (world (m w)))).
Proof.
  unfold bind. destruct (outcome (m w)) as [a|e'|msg]; cbn; intros H.
  - right. exists a. auto.
  - left. injection H as ->. auto.
  - discriminate.
Qed.

Lemma call_inv_raise {A} (E : Env) (o : Op) (f : World -> error + A * World) w e :
  outcome (call E o f w) = Raise e ->
  (e = EFault o \/ f w = inl e) /\
  world (call E o f w) = tick w /\ events (call E o f w) = [EvOp o false].
Proof.
  unfold call. destruct (fails E (clock w) o); cbn.
  - intros [= <-]. auto.
  - destruct (f w) as [e'|[a w']]; cbn; [|discriminate]. intros [= <-]. auto.
Qed.

(** When the generation of the self-signed certificate fails, [Build]
    returns the error and leaves behind the temporary directory it had
    just created. *)
Theorem registry_Build_keeps_tmp_on_cert_failure (E : Env) (b : RegistryBuilder.t) (w : World) :
  outcome (Registry.Build E b w)
  = Raise (EFault (OpMakeSelfSignedCert (RegistryBuilder.address b))) ->
  let tmp := temp_dir E (clock w) "*.registry" in
  fs w !! tmp = None /\
  fs (world (Registry.Build E b w)) = <[tmp := Dir]> (fs w) /\
  events (Registry.Build E b w)
  = [EvOp (OsMkdirTemp "*.registry") true;
     EvOp (OpMakeSelfSignedCert (RegistryBuilder.address b)) false].
Proof.
  intros H. cbv zeta. unfold Registry.Build in *.
  destruct (negb (RegistryBuilder.logger b)); [discriminate|].
  destruct (String.eqb (RegistryBuilder.address b) ""); [discriminate|].
  destruct (String.eqb (RegistryBuilder.root b) ""); [discriminate|].
  destruct (RegistryBuilder.cert b) as [c|], (RegistryBuilder.key b) as [k|];
    try discriminate.
  - apply bind_inv_raise in H as [(H & _)|(t & _ & H & _)]; [|discriminate].
    unfold os_MkdirTemp in H. apply call_inv_raise in H as ([H|H] & _); [discriminate|].
    destruct (fs w !! _); discriminate.
  - apply bind_inv_raise in H as [(H & _)|(t & H1 & H & Hw & Hev)].
    { unfold os_MkdirTemp in H. apply call_inv_raise in H as ([H|H] & _); [discriminate|].
      destruct (fs w !! _); discriminate. }
    rewrite Hw, Hev. clear Hw Hev.
    apply os_MkdirTemp_ret in H1 as (-> & Hf & Heq). rewrite Heq in *. clear Heq.
    cbn [world events] in *.
    apply bind_inv_raise in H as [(H & Hw & Hev)|(ck & _ & H & _)]; [|discriminate].
    rewrite Hw, Hev. unfold Registry.makeSelfSignedCert in *.
    apply call_inv_raise in H as (_ & -> & ->). cbn. auto.
Qed.

Definition cert_fails (op : Op) : bool :=
  match op with OpMakeSelfSignedCert _ => true | _ => false end.

Lemma registry_Build_keeps_tmp_on_cert_failure_witness :
  let E := Ex.env cert_fails 0 in
  let b := RegistryBuilder.Mk true "localhost:5001" "/data" None None in
  fs Ex.bare !! "/tmp/0.registry" = None /\
  fs (world (Registry.Build E b Ex.bare)) !! "/tmp/0.registry" = Some Dir.
Proof.
  intros E b.
  destruct (registry_Build_keeps_tmp_on_cert_failure E b Ex.bare eq_refl) as (H1 & H2 & _).
  split; [exact H1|]. rewrite H2. apply lookup_insert_eq.
Defined.

(** A [Start] that returns without error wrote the certificate to
    [tls.crt] and the key to [tls.key] in the temporary directory, bound
    the address of the registry to an address nobody listened at, and left
    the registry with that listener and a server: [Address] answers the
    bound address from then on. *)
Theorem registry_Start_binds_and_serves (E : Env) (r : Registry.t) (w : World) (r' : Registry.t) :
  outcome (Registry.Start E r w) = Ret (r', None) ->
  let certFile := filepath.Join [Registry.tmp r; "tls.crt"] in
  let keyFile := filepath.Join [Registry.tmp r; "tls.key"] in
  let a := bound_address E (S (S (clock w))) (Registry.address r) in
  (a ∉ listeners w) /\
  r' = Registry.set_server (Some a) (Registry.set_listener (Some a) r) /\
  listeners (world (Registry.Start E r w)) = a :: listeners w /\
  fs (world (Registry.Start E r w))
  = <[keyFile := File (Registry.key r)]> (<[certFile := File (Registry.cert r)]> (fs w)) /\
  (forall w', Registry.Address r' w' = MkResult (Ret a) w' []).
Proof. apply Start_ok. Qed.

Lemma filter_other_id (a : string) (l : list string) :
  a ∉ l -> filter (fun x => x <> a) l = l.
Proof.
  induction l as [|x l IH]; intros Hin; [reflexivity|].
  apply not_elem_of_cons in Hin as [Hne Hin].
  rewrite filter_cons_True by congruence. rewrite IH by exact Hin. reflexivity.
Qed.

(** [Start], then a successful [Stop]: the listeners are those before the
    start, the temporary directory is gone, and every path outside it,
    the two TLS files aside, is as it was. *)
Theorem registry_Start_Stop_round_trip (E : Env) (r : Registry.t) (w : World) (r' : Registry.t) :
  outcome (Registry.Start E r w) = Ret (r', None) ->
  outcome (Registry.Stop E r' (world (Registry.Start E r w))) = Ret tt ->
  Registry.tmp r <> "" ->
  let w' := world (Registry.Stop E r' (world (Registry.Start E r w))) in
  listeners w' = listeners w /\
  fs w' !! Registry.tmp r = None /\
  (forall p, within (Registry.tmp r) p = false ->
             p <> filepath.Join [Registry.tmp r; "tls.crt"] ->
             p <> filepath.Join [Registry.tmp r; "tls.key"] ->
             fs w' !! p = fs w !! p).
Proof.
  intros Hs Hp Htmp w'.
  destruct (Start_ok E r w r' Hs) as (Hin & -> & Hl & Hfs & _).
  set (a := bound_address E (S (S (clock w))) (Registry.address r)) in *.
  change (Registry.tmp r)
    with (Registry.tmp (Registry.set_server (Some a) (Registry.set_listener (Some a) r)))
    in Htmp.
  destruct (Stop_removes_tmp _ _ _ Hp Htmp) as (Hgone & Hrest).
  cbn [Registry.tmp Registry.set_server Registry.set_listener] in Hgone, Hrest.
  fold w' in Hgone, Hrest.
  split; [|split; [exact Hgone|]].
  - subst w'. unfold Registry.Stop, Registry.server_Shutdown, os_RemoveAll in *.
    cbn [Registry.server Registry.set_server Registry.tmp Registry.set_listener] in *.
    apply bind_inv_ret in Hp as ([] & H1 & H2 & Hw & _). rewrite Hw.
    apply call_inv_ret in H1 as (w1 & _ & H1 & Hw1 & _). rewrite Hw1 in *.
    injection H1 as H1.
    apply call_inv_ret in H2 as (w2 & _ & H2 & Hw2 & _). rewrite Hw2.
    assert (Hl1 : listeners w1 = listeners w).
    { subst w1. cbn. rewrite Hl. rewrite filter_cons_False by (intros Hne; apply Hne; reflexivity).
      apply filter_other_id, Hin. }
    assert (Hl2 : listeners w2 = listeners w1); [|rewrite <- Hl1, <- Hl2; reflexivity].
    cbn in H2.
    repeat match type of H2 with
           | (if ?c then _ else _) = _ => destruct c
           end; try discriminate; injection H2 as <-; reflexivity.
  - intros p Hp1 Hp2 Hp3. rewrite (Hrest p Hp1), Hfs.
    rewrite lookup_insert_ne by congruence. rewrite lookup_insert_ne by congruence. reflexivity.
Qed.

Lemma registry_Start_binds_and_serves_witness :
  let E := Ex.env Ex.no_fault 0 in
  let r := Registry.Mk "localhost:5001" "/data" "/tmp/0.registry" "CERT" "KEY" None None in
  exists r', outcome (Registry.Start E r Ex.bare) = Ret (r', None) /\
             listeners (world (Registry.Start E r Ex.bare)) = ["127.0.0.1:5001"] /\
             Registry.Address r' Ex.bare = MkResult (Ret "127.0.0.1:5001") Ex.bare [].
Proof.
  intros E r. eexists. split; [vm_compute; reflexivity|].
  destruct (registry_Start_binds_and_serves E r Ex.bare _ eq_refl) as (_ & _ & Hl & _ & Ha).
  split; [exact Hl|apply Ha].
Defined.

Lemma registry_Start_Stop_round_trip_witness :
  let E := Ex.env Ex.no_fault 0 in
  let r := Registry.Mk "localhost:5001" "/data" "/tmp/0.registry" "CERT" "KEY" None None in
  exists r', outcome (Registry.Start E r Ex.bare) = Ret (r', None) /\
             let w' := world (Registry.Stop E r' (world (Registry.Start E r Ex.bare))) in
             listeners w' = [] /\ fs w' !! "/tmp/0.registry" = None.
Proof.
  intros E r. eexists. split; [vm_compute; reflexivity|].
  destruct (registry_Start_Stop_round_trip E r Ex.bare _ eq_refl eq_refl) as (Hl & Hf & _);
    [discriminate|].
  split; [exact Hl|exact Hf].
Defined.

(** ** The loader, step by step *)

Lemma checkBundleDir_spec (E : Env) (l : BundleLoader.t) (w : World) :
  let dir := BundleLoader.absolutePath l (BundleLoader.bundleDir l) in
  let r := BundleLoader.checkBundleDir E l w in
  world r = tick w /\
  (fails E (clock w) (OsStat dir) = true -> outcome r = Raise (EFault (OsStat dir))) /\
  (fails E (clock w) (OsStat dir) = false ->
   outcome r = Ret (negb (String.eqb dir "") && bool_decide (is_Some (fs w !! dir)))).
Proof.
  intros dir r. subst r. unfold BundleLoader.checkBundleDir. fold dir. clearbody dir.
  unfold on_error, bind, os_Stat, call.
  destruct (bool_decide_reflect (is_Some (fs w !! dir))) as [[x Hx]|Hn];
    destruct (fails E (clock w) (OsStat dir)), (String.eqb dir "");
    try rewrite Hx; cbn; try (repeat split; intros; try discriminate; reflexivity).
  all: destruct (fs w !! dir) eqn:Hf; [exfalso; apply Hn; eauto|].
  all: cbn; repeat split; intros; try discriminate; reflexivity.
Qed.

(** [checkBundleDir] only looks: it changes nothing in the world but the
    count of calls.  When the environment fails the call to [Stat], that
    failure is the result; otherwise the answer is whether the absolute
    bundle directory, a non-empty path, names an existing entry.  A
    missing directory is the answer [false], not an error. *)
Theorem checkBundleDir_reads_only (E : Env) (l : BundleLoader.t) (w : World) :
  let dir := BundleLoader.absolutePath l (BundleLoader.bundleDir l) in
  let r := BundleLoader.checkBundleDir E l w in
  world r = tick w /\
  (fails E (clock w) (OsStat dir) = true -> outcome r = Raise (EFault (OsStat dir))) /\
  (fails E (clock w) (OsStat dir) = false ->
   outcome r = Ret (negb (String.eqb dir "") && bool_decide (is_Some (fs w !! dir)))).
Proof. apply checkBundleDir_spec. Qed.

Lemma checkBundleDir_reads_only_witness :
  let w := MkWorld {["/var/lib/upgrade" := File "not a directory"]} None None [] ∅ [] 0 in
  outcome (BundleLoader.checkBundleDir (Ex.env Ex.no_fault 0) Ex.loader w) = Ret true /\
  outcome (BundleLoader.checkBundleDir (Ex.env Ex.no_fault 0) Ex.loader Ex.bare) = Ret false.
Proof.
  intros w. split.
  - apply (proj2 (proj2 (checkBundleDir_reads_only (Ex.env Ex.no_fault 0) Ex.loader w))).
    reflexivity.
  - apply (proj2 (proj2 (checkBundleDir_reads_only (Ex.env Ex.no_fault 0) Ex.loader Ex.bare))).
    reflexivity.
Defined.

Lemma reportProgress_spec (E : Env) (l : BundleLoader.t) (format : string)
        (args : list arg) (w : World) :
  let r := BundleLoader.reportProgress E l format args w in
  outcome r = Ret tt /\
  fs (world r) = fs w /\ pin (world r) = pin w /\ mirror (world r) = mirror w /\
  store (world r) = store w /\ listeners (world r) = listeners w /\
  (nodes (world r) = nodes w \/
   exists obj, nodes w !! BundleLoader.node l = Some obj /\
               nodes (world r)
               = <[BundleLoader.node l :=
                     MkNode (Labels obj)
                            (<[annotations.Progress := Sprintf format args]> (Annotations obj))]>
                   (nodes w)).
Proof.
  intros r. subst r.
  unfold BundleLoader.reportProgress, on_error, bind, client.PatchAnnotation, call.
  destruct (fails E (clock w) _); cbn; [auto 10|].
  destruct (nodes w !! BundleLoader.node l) as [obj|] eqn:Hn; cbn; [|auto 10].
  repeat (split; [reflexivity|]). right. exists obj. auto.
Qed.

(** [reportProgress] never fails, whatever the environment does to its
    calls.  It leaves the world as it is, or sets the progress annotation
    of the node of the loader to the formatted text and nothing else. *)
Theorem reportProgress_only_annotates (E : Env) (l : BundleLoader.t) (format : string)
        (args : list arg) (w : World) :
  let r := BundleLoader.reportProgress E l format args w in
  outcome r = Ret tt /\
  fs (world r) = fs w /\ pin (world r) = pin w /\ mirror (world r) = mirror w /\
  store (world r) = store w /\ listeners (world r) = listeners w /\
  (nodes (world r) = nodes w \/
   exists obj, nodes w !! BundleLoader.node l = Some obj /\
               nodes (world r)
               = <[BundleLoader.node l :=
                     MkNode (Labels obj)
                            (<[annotations.Progress := Sprintf format args]> (Annotations obj))]>
                   (nodes w)).
Proof. apply reportProgress_spec. Qed.

(** The node objects, the progress annotation of node [n] left aside. *)
Definition without_progress (n : string) (w : World) : gmap string NodeObject :=
  alter (fun obj => MkNode (Labels obj) (delete annotations.Progress (Annotations obj)))
        n (nodes w).

Section LoaderState.
Context (E : Env).

Local Opaque filepath.Join.

Lemma reportProgress_keeps_others l format args :
  keeps (without_progress (BundleLoader.node l)) (BundleLoader.reportProgress E l format args).
Proof.
  intros w.
  destruct (reportProgress_spec E l format args w)
    as (_ & _ & _ & _ & _ & _ & [Hn|(obj & Hobj & Hn)]);
    unfold without_progress; rewrite Hn; [reflexivity|].
  rewrite alter_insert_eq, (alter_alt_Some _ _ _ _ Hobj). cbn.
  rewrite delete_insert_eq. reflexivity.
Qed.

Lemma pullPayload_keeps_others l i n refs :
  keeps (without_progress (BundleLoader.node l)) (BundleLoader.pullPayload E l i n refs).
Proof.
  revert i. induction refs as [|ref rest IH]; intros i; cbn [BundleLoader.pullPayload].
  - apply keeps_ret.
  - apply keeps_bind; [unfold CRIOTool.PullImage; keeps_auto|intros _].
    apply keeps_bind; [apply reportProgress_keeps_others|intros _]. apply IH.
Qed.

Lemma populateCRIO_keeps_others l release refs :
  keeps (without_progress (BundleLoader.node l)) (BundleLoader.populateCRIO E l release refs).
Proof.
  unfold BundleLoader.populateCRIO.
  apply keeps_bind; [unfold CRIOTool.PullImage; keeps_auto|intros _].
  apply keeps_bind; [apply reportProgress_keeps_others|intros _].
  apply pullPayload_keeps_others.
Qed.

Lemma reportProgress_keeps_listeners l format args :
  keeps listeners (BundleLoader.reportProgress E l format args).
Proof.
  unfold BundleLoader.reportProgress, client.PatchAnnotation, logger_Info, logger_Error.
  keeps_auto.
Qed.

Lemma populateCRIO_keeps_listeners l release refs :
  keeps listeners (BundleLoader.populateCRIO E l release refs).
Proof.
  unfold BundleLoader.populateCRIO.
  apply keeps_bind; [unfold CRIOTool.PullImage; keeps_auto|intros _].
  apply keeps_bind; [apply reportProgress_keeps_listeners|intros _].
  generalize 0 (length refs). induction refs as [|ref rest IH]; intros i n;
    cbn [BundleLoader.pullPayload].
  - apply keeps_ret.
  - apply keeps_bind; [unfold CRIOTool.PullImage; keeps_auto|intros _].
    apply keeps_bind; [apply reportProgress_keeps_listeners|intros _]. apply IH.
Qed.

Lemma Registry_Build_keeps_listeners b : keeps listeners (Registry.Build E b).
Proof. unfold Registry.Build, Registry.makeSelfSignedCert, os_MkdirTemp. keeps_auto. Qed.

Lemma Registry_Build_keeps_nodes b : keeps nodes (Registry.Build E b).
Proof. unfold Registry.Build, Registry.makeSelfSignedCert, os_MkdirTemp. keeps_auto. Qed.

(** A started registry listens at a fresh address, and serves there. *)
Lemma startRegistry_ret l w r :
  outcome (BundleLoader.startRegistry E l w) = Ret r ->
  exists a, (a ∉ listeners w) /\ Registry.server r = Some a /\ Registry.listener r = Some a /\
            listeners (world (BundleLoader.startRegistry E l w)) = a :: listeners w /\
            without_progress (BundleLoader.node l) (world (BundleLoader.startRegistry E l w))
            = without_progress (BundleLoader.node l) w.
Proof.
  unfold BundleLoader.startRegistry. intros H.
  apply bind_inv_ret in H as (r0 & _ & H & Hw & _). rewrite Hw. clear Hw.
  match type of H with
  | context [Registry.Build E ?b w] =>
      pose proof (Registry_Build_keeps_listeners b w) as Hl0;
      pose proof (Registry_Build_keeps_nodes b w) as Hn0;
      set (w0 := world (Registry.Build E b w)) in *
  end.
  apply bind_inv_ret in H as ([r1 [e|]] & Hs & H & Hw & _); rewrite Hw; clear Hw;
    cbn [fst snd] in H |- *; [discriminate|].
  pose proof (Start_ok E r0 w0 r1 Hs) as (Hin & -> & Hl & _ & Ha).
  assert (Hn1 : nodes (world (Registry.Start E r0 w0)) = nodes w0).
  { assert (Hk : keeps nodes (Registry.Start E r0)); [|apply Hk].
    unfold Registry.Start, os_WriteFile, Registry.net_Listen. keeps_auto. }
  set (w1 := world (Registry.Start E r0 w0)) in *.
  unfold bind in H |- *. rewrite (Ha w1) in H |- *. cbn in H |- *. injection H as <-.
  eexists. rewrite Hl0 in Hin, Hl. split; [exact Hin|]. split; [reflexivity|].
  split; [reflexivity|]. split; [exact Hl|].
  unfold without_progress. rewrite Hn1, Hn0. reflexivity.
Qed.

Lemma Stop_listeners r w a :
  outcome (Registry.Stop E r w) = Ret tt -> Registry.server r = Some a ->
  listeners (world (Registry.Stop E r w)) = filter (fun x => x <> a) (listeners w) /\
  nodes (world (Registry.Stop E r w)) = nodes w.
Proof.
  unfold Registry.Stop. intros H Hs. rewrite Hs in *.
  split.
  - apply bind_inv_ret in H as ([] & H1 & H2 & Hw & _). rewrite Hw. clear Hw.
    assert (Hk : keeps listeners (os_RemoveAll E (Registry.tmp r)))
      by (unfold os_RemoveAll; keeps_auto).
    rewrite Hk. unfold Registry.server_Shutdown in *.
    apply call_inv_ret in H1 as (w1 & _ & [= <-] & -> & _). reflexivity.
  - assert (Hk : keeps nodes (Registry.server_Shutdown E a;;; os_RemoveAll E (Registry.tmp r)))
      by (unfold Registry.server_Shutdown, os_RemoveAll; keeps_auto).
    apply Hk.
Qed.

Lemma checkBundleDir_true l w :
  outcome (BundleLoader.checkBundleDir E l w) = Ret true ->
  BundleLoader.absolutePath l (BundleLoader.bundleDir l) <> "" /\
  is_Some (fs w !! BundleLoader.absolutePath l (BundleLoader.bundleDir l)).
Proof.
  intros H. destruct (checkBundleDir_spec E l w) as (_ & H1 & H2).
  destruct (fails E (clock w) _); [rewrite H1 in H by reflexivity; discriminate|].
  rewrite H2 in H by reflexivity. injection H as H.
  apply andb_true_iff in H as [Hd Hs]. apply negb_true_iff, String.eqb_neq in Hd.
  apply bool_decide_eq_true in Hs. auto.
Qed.

Definition loader_frame (n : string) (w : World) : list string * gmap string NodeObject :=
  (listeners w, without_progress n w).

Lemma keeps_frame {A} n (m : M A) :
  keeps listeners m -> keeps (without_progress n) m -> keeps (loader_frame n) m.
Proof. intros H1 H2 w. unfold loader_frame. rewrite H1, H2. reflexivity. Qed.

Lemma checkBundleDir_keeps_frame n l : keeps (loader_frame n) (BundleLoader.checkBundleDir E l).
Proof. unfold BundleLoader.checkBundleDir, os_Stat. keeps_auto. Qed.

Lemma readMetadata_keeps_frame n l : keeps (loader_frame n) (BundleLoader.readMetadata E l).
Proof.
  unfold BundleLoader.readMetadata, BundleLoader.json_decode, os_ReadFile, logger_Info.
  keeps_auto.
Qed.

Lemma configureCRIO_keeps_frame n l addr refs :
  keeps (loader_frame n) (BundleLoader.configureCRIO E l addr refs).
Proof.
  unfold BundleLoader.configureCRIO, CRIOTool.CreatePinConf, CRIOTool.CreateMirrorConf,
    CRIOTool.ReloadService. keeps_auto.
Qed.

Lemma deconfigureCRIO_keeps_frame n l : keeps (loader_frame n) (BundleLoader.deconfigureCRIO E l).
Proof.
  unfold BundleLoader.deconfigureCRIO, CRIOTool.RemoveMirrorConf, CRIOTool.ReloadService.
  keeps_auto.
Qed.

Lemma deleteBundle_keeps_frame n l : keeps (loader_frame n) (BundleLoader.deleteBundle E l).
Proof. unfold BundleLoader.deleteBundle, os_RemoveAll, logger_Info. keeps_auto. Qed.

Lemma populateCRIO_keeps_frame l release refs :
  keeps (loader_frame (BundleLoader.node l)) (BundleLoader.populateCRIO E l release refs).
Proof.
  apply keeps_frame; [apply populateCRIO_keeps_listeners|apply populateCRIO_keeps_others].
Qed.

Lemma loader_writeResult_ret l w :
  outcome (BundleLoader.writeResult E l w) = Ret tt ->
  exists obj, nodes w !! BundleLoader.node l = Some obj /\
    same_state (world (BundleLoader.writeResult E l w))
               (set_nodes (<[BundleLoader.node l := labelled labels.BundleLoaded obj]> (nodes w)) w).
Proof.
  unfold BundleLoader.writeResult, client.Get, client.PatchLabel. intros H.
  apply bind_inv_ret in H as (obj & H1 & H & Hw & _). rewrite Hw. clear Hw.
  apply call_inv_ret in H1 as (w1 & _ & Heq & Hw1 & _). rewrite Hw1 in *. clear Hw1.
  destruct (nodes w !! BundleLoader.node l) as [obj'|] eqn:Hn; [|discriminate].
  simplify_eq. exists obj. split; [reflexivity|].
  apply bind_inv_ret in H as (u2 & H2 & H & Hw & _). rewrite Hw. clear Hw.
  apply call_inv_ret in H2 as (w2 & _ & Heq & Hw2 & _).
  cbn [logger_Info emit world]. rewrite Hw2. clear Hw2.
  cbn [nodes tick] in Heq. rewrite Hn in Heq. simplify_eq.
  unfold same_state. cbn. auto 10.
Qed.

End LoaderState.

(** The world after a successful load.  The bundle directory existed and
    is gone with everything in it; the listeners are those before the run
    (the registry is stopped); the other nodes are untouched; the node of
    the loader carries the label [bundle-loaded] with the value [true]
    and, the progress annotation aside, the annotations it had. *)
Theorem loader_success_state (E : Env) (l : BundleLoader.t) (w : World) :
  outcome (BundleLoader.Run E l w) = Ret tt ->
  let dir := BundleLoader.absolutePath l (BundleLoader.bundleDir l) in
  let w' := world (BundleLoader.Run E l w) in
  dir <> "" /\ is_Some (fs w !! dir) /\
  (forall p, within dir p = true -> fs w' !! p = None) /\
  listeners w' = listeners w /\
  (forall n, n <> BundleLoader.node l -> nodes w' !! n = nodes w !! n) /\
  exists before after,
    nodes w !! BundleLoader.node l = Some before /\
    nodes w' !! BundleLoader.node l = Some after /\
    Labels after = <[labels.BundleLoaded := "true"]> (Labels before) /\
    delete annotations.Progress (Annotations after)
    = delete annotations.Progress (Annotations before).
Proof.
  intros H. cbv zeta. unfold BundleLoader.Run in *.
  set (n := BundleLoader.node l).
  apply bind_inv_ret in H as (ex & Hc & H & Hw & _). rewrite Hw. clear Hw.
  destruct ex; cbn [negb] in H |- *; [|discriminate].
  apply checkBundleDir_true in Hc as Hdir. destruct Hdir as (Hdir & Hex).
  split; [exact Hdir|]. split; [exact Hex|].
  pose proof (checkBundleDir_keeps_frame E n l w) as F1.
  set (w1 := world (BundleLoader.checkBundleDir E l w)) in *.
  apply bind_inv_ret in H as (m & _ & H & Hw & _). rewrite Hw. clear Hw.
  pose proof (readMetadata_keeps_frame E n l w1) as F2.
  set (w2 := world (BundleLoader.readMetadata E l w1)) in *.
  apply bind_inv_ret in H as (reg & Hreg & H & Hw & _). rewrite Hw. clear Hw.
  apply startRegistry_ret in Hreg as (a & Hin & Hserver & _ & L3 & N3).
  set (w3 := world (BundleLoader.startRegistry E l w2)) in *.
  apply bind_inv_ret in H as ([] & _ & H & Hw & _). rewrite Hw. clear Hw.
  cbn [logger_Info emit world] in H |- *.
  apply bind_inv_ret in H as (addr & Ha & H & Hw & _). rewrite Hw. clear Hw.
  assert (Hwa : world (Registry.Address reg w3) = w3)
    by (unfold Registry.Address; destruct (Registry.listener reg); reflexivity).
  rewrite Hwa in *. clear Hwa Ha.
  apply bind_inv_ret in H as ([] & _ & H & Hw & _). rewrite Hw. clear Hw.
  pose proof (configureCRIO_keeps_frame E n l addr (Images m) w3) as F4.
  set (w4 := world (BundleLoader.configureCRIO E l addr (Images m) w3)) in *.
  apply bind_inv_ret in H as ([] & _ & H & Hw & _). rewrite Hw. clear Hw.
  pose proof (populateCRIO_keeps_frame E l (Release m) (Images m) w4) as F5.
  set (w5 := world (BundleLoader.populateCRIO E l (Release m) (Images m) w4)) in *.
  apply bind_inv_ret in H as ([] & _ & H & Hw & _). rewrite Hw. clear Hw.
  pose proof (deconfigureCRIO_keeps_frame E n l w5) as F6.
  set (w6 := world (BundleLoader.deconfigureCRIO E l w5)) in *.
  apply bind_inv_ret in H as ([] & _ & H & Hw & _). rewrite Hw. clear Hw.
  cbn [logger_Info emit world] in H |- *.
  apply bind_inv_ret in H as ([] & Hstop & H & Hw & _). rewrite Hw. clear Hw.
  apply (Stop_listeners E reg w6 a) in Hstop as (L7 & N7); [|exact Hserver].
  set (w7 := world (Registry.Stop E reg w6)) in *.
  apply bind_inv_ret in H as ([] & _ & H & Hw & _). rewrite Hw. clear Hw.
  cbn [logger_Info emit world] in H |- *.
  apply bind_inv_ret in H as ([] & Hdel & H & Hw & _). rewrite Hw. clear Hw.
  pose proof (deleteBundle_keeps_frame E n l w7) as F8.
  assert (Hfs8 : forall p, within (BundleLoader.absolutePath l (BundleLoader.bundleDir l)) p = true ->
                           fs (world (BundleLoader.deleteBundle E l w7)) !! p = None).
  { intros p Hp. unfold BundleLoader.deleteBundle in *.
    apply bind_inv_ret in Hdel as ([] & Hrm & _ & Hw & _). rewrite Hw. clear Hw.
    cbn [logger_Info emit world].
    apply os_RemoveAll_ret in Hrm as (_ & ->). cbn [fs tick set_fs].
    rewrite lookup_removed, Hp. apply String.eqb_neq in Hdir. rewrite Hdir. reflexivity. }
  set (w8 := world (BundleLoader.deleteBundle E l w7)) in *.
  apply loader_writeResult_ret in H as (obj & Hobj & Hs).
  destruct Hs as (Sfs & _ & _ & _ & Snodes & Slist). cbn in Sfs, Snodes, Slist.
  unfold loader_frame in *. subst n. set (n := BundleLoader.node l) in *.
  assert (HL : listeners w8 = listeners w).
  { injection F8 as F8 _. injection F6 as F6 _. injection F5 as F5 _. injection F4 as F4 _.
    injection F2 as F2 _. injection F1 as F1 _.
    rewrite F8, L7, F6, F5, F4, L3, F2, F1.
    rewrite filter_cons_False by (intros Hne; apply Hne; reflexivity).
    apply filter_other_id. rewrite <- F1, <- F2. exact Hin. }
  assert (HN : without_progress n w8 = without_progress n w).
  { injection F8 as _ F8. injection F6 as _ F6. injection F5 as _ F5. injection F4 as _ F4.
    injection F2 as _ F2. injection F1 as _ F1.
    rewrite F8. unfold without_progress at 1. rewrite N7. fold (without_progress n w6).
    rewrite F6, F5, F4, N3, F2, F1. reflexivity. }
  split; [intros p Hp; rewrite Sfs; apply Hfs8, Hp|].
  split; [rewrite Slist; exact HL|].
  split.
  - intros n' Hn'. rewrite Snodes, lookup_insert_ne by congruence.
    apply (f_equal (fun m => m !! n')) in HN. unfold without_progress in HN.
    rewrite !lookup_alter_ne in HN by congruence. exact HN.
  - apply (f_equal (fun m => m !! n)) in HN. unfold without_progress in HN.
    rewrite !lookup_alter_eq in HN. rewrite Hobj in HN. cbn in HN.
    destruct (nodes w !! n) as [before|] eqn:Hb; [|discriminate]. cbn in HN.
    injection HN as HL1 HA1.
    exists before, (labelled labels.BundleLoaded obj). split; [reflexivity|].
    split; [rewrite Snodes; apply lookup_insert_eq|].
    split; [cbn; rewrite HL1; reflexivity|cbn; exact HA1].
Qed.

Lemma loader_success_state_witness :
  let r := BundleLoader.Run (Ex.env Ex.no_fault 0) Ex.loader Ex.extracted in
  outcome r = Ret tt /\
  fs (world r) !! "/var/lib/upgrade/metadata.json" = None /\ listeners (world r) = [].
Proof.
  intros r. split; [vm_compute; reflexivity|].
  destruct (loader_success_state (Ex.env Ex.no_fault 0) Ex.loader Ex.extracted)
    as (_ & _ & Hfs & Hl & _); [vm_compute; reflexivity|].
  split; [apply Hfs; reflexivity|exact Hl].
Defined.

(** ** Nothing is removed before every image was pulled *)

Definition removal (ev : Event) : bool :=
  match ev with
  | EvOp (OsRemoveAll _) _ => true
  | _ => false
  end.

(** The events that cannot occur before the pulls: pulls, progress
    patches, removals. *)
Definition early_event (ev : Event) : bool := loader_event ev || removal ev.

Lemma early_event_loader ev : early_event ev = false -> loader_event ev = false.
Proof. unfold early_event. intros H. apply orb_false_iff in H as [H _]. exact H. Qed.

Lemma early_event_removal ev : early_event ev = false -> removal ev = false.
Proof. unfold early_event. intros H. apply orb_false_iff in H as [_ H]. exact H. Qed.

Definition loader_split (E : Env) (l : BundleLoader.t) (w : World) (r : Result unit) : Prop :=
  (Forall (fun ev => early_event ev = false) (events r) /\ outcome r <> Ret tt) \/
  exists data metadata pre w1 post,
    fs w !! metadata_file l = Some (File data) /\
    json_Unmarshal E data = JValue metadata /\
    Forall (fun ev => early_event ev = false) pre /\ no_loader_event post /\
    events r
    = pre ++ events (BundleLoader.populateCRIO E l (Release metadata) (Images metadata) w1) ++ post /\
    (outcome (BundleLoader.populateCRIO E l (Release metadata) (Images metadata) w1) = Ret tt \/
     (post = [] /\
      outcome r = outcome (BundleLoader.populateCRIO E l (Release metadata) (Images metadata) w1))).

Section LoaderSplit.
Context (E : Env).

Local Opaque filepath.Join.

Lemma loader_split_prefix l w0 (r : Result unit) pre0 :
  Forall (fun ev => early_event ev = false) pre0 -> loader_split E l w0 r ->
  loader_split E l w0 (MkResult (outcome r) (world r) (pre0 ++ events r)).
Proof.
  intros Hpre [(Hq & Ho)|(data & metadata & pre & w1 & post & Hf & Hj & Hq1 & Hq2 & Hev & Ho)].
  - left. cbn. split; [apply Forall_app; auto|exact Ho].
  - right. exists data, metadata, (pre0 ++ pre), w1, post. cbn.
    split; [exact Hf|]. split; [exact Hj|]. split; [apply Forall_app; auto|].
    split; [exact Hq2|]. split; [rewrite Hev, app_assoc; reflexivity|exact Ho].
Qed.

Lemma loader_split_bind {A} l w0 (m : M A) (f : A -> M unit) w :
  quiet early_event m ->
  (forall a, outcome (m w) = Ret a -> loader_split E l w0 (f a (world (m w)))) ->
  loader_split E l w0 (bind m f w).
Proof.
  intros Hq Hf. destruct (outcome (m w)) as [a|e|msg] eqn:Ho.
  - rewrite (bind_ret_step _ _ _ _ Ho). apply loader_split_prefix; [apply Hq|apply Hf; reflexivity].
  - rewrite (bind_raise_step _ _ _ _ Ho). left. cbn. split; [apply Hq|discriminate].
  - rewrite (bind_panic_step _ _ _ _ Ho). left. cbn. split; [apply Hq|discriminate].
Qed.

Lemma loader_Run_split l w : loader_split E l w (BundleLoader.Run E l w).
Proof.
  unfold BundleLoader.Run.
  apply loader_split_bind;
    [unfold BundleLoader.checkBundleDir, os_Stat; quiet_auto|intros ex Hex].
  destruct ex; cbn [negb]; [|left; cbn; split; [constructor|discriminate]].
  apply loader_split_bind;
    [unfold BundleLoader.readMetadata, os_ReadFile, BundleLoader.json_decode, logger_Info;
     quiet_auto|intros metadata Hm].
  apply readMetadata_ret in Hm as (data & Hf & Hj). rewrite checkBundleDir_keeps_fs in Hf.
  apply loader_split_bind; [|intros registry _].
  { unfold BundleLoader.startRegistry.
    apply quiet_bind;
      [unfold Registry.Build, Registry.makeSelfSignedCert, os_MkdirTemp; cbn; quiet_auto|intros r].
    apply quiet_bind;
      [unfold Registry.Start, os_WriteFile, Registry.net_Listen; quiet_auto|intros started].
    unfold Registry.Address, logger_Info. quiet_auto. }
  apply loader_split_bind; [apply quiet_emit; reflexivity|intros _ _].
  apply loader_split_bind; [unfold Registry.Address; quiet_auto|intros addr _].
  apply loader_split_bind;
    [unfold BundleLoader.configureCRIO, CRIOTool.CreatePinConf, CRIOTool.CreateMirrorConf,
       CRIOTool.ReloadService; quiet_auto|intros _ _].
  match goal with |- loader_split _ _ _ (bind _ _ ?w1) => set (w' := w1) end.
  change (loader_split E l w
            (bind (BundleLoader.populateCRIO E l (Release metadata) (Images metadata))
                  (fun _ => after_pulls E l registry) w')).
  right. exists data, metadata, [], w'.
  destruct (outcome (BundleLoader.populateCRIO E l (Release metadata) (Images metadata) w'))
    as [[]|e|msg] eqn:Ho.
  - rewrite (bind_ret_step _ _ _ _ Ho). eexists. cbn [events outcome].
    split; [exact Hf|]. split; [exact Hj|]. split; [constructor|].
    split; [apply after_pulls_quiet|]. split; [reflexivity|left; reflexivity].
  - rewrite (bind_raise_step _ _ _ _ Ho). exists []. cbn [events outcome].
    split; [exact Hf|]. split; [exact Hj|]. split; [constructor|]. split; [constructor|].
    split; [rewrite app_nil_r; reflexivity|right; auto].
  - rewrite (bind_panic_step _ _ _ _ Ho). exists []. cbn [events outcome].
    split; [exact Hf|]. split; [exact Hj|]. split; [constructor|]. split; [constructor|].
    split; [rewrite app_nil_r; reflexivity|right; auto].
Qed.

Lemma reportProgress_quiet_removal l format args :
  quiet removal (BundleLoader.reportProgress E l format args).
Proof.
  unfold BundleLoader.reportProgress, client.PatchAnnotation, logger_Info, logger_Error.
  quiet_auto.
Qed.

Lemma populateCRIO_quiet_removal l release refs :
  quiet removal (BundleLoader.populateCRIO E l release refs).
Proof.
  unfold BundleLoader.populateCRIO.
  apply quiet_bind; [unfold CRIOTool.PullImage; quiet_auto|intros _].
  apply quiet_bind; [apply reportProgress_quiet_removal|intros _].
  generalize 0 (length refs). induction refs as [|ref rest IH]; intros i n;
    cbn [BundleLoader.pullPayload].
  - apply quiet_ret.
  - apply quiet_bind; [unfold CRIOTool.PullImage; quiet_auto|intros _].
    apply quiet_bind; [apply reportProgress_quiet_removal|intros _]. apply IH.
Qed.

End LoaderSplit.

Lemma app_split_at {X} (x : X) (l1 l2 before after : list X) :
  l1 ++ l2 = before ++ x :: after -> ~ In x l1 ->
  exists mid, before = l1 ++ mid /\ l2 = mid ++ x :: after.
Proof.
  revert before. induction l1 as [|y l1 IH]; intros before Heq Hin.
  - exists before. auto.
  - destruct before as [|b before]; cbn in Heq.
    + injection Heq as -> _. exfalso. apply Hin. left. reflexivity.
    + injection Heq as -> Heq. destruct (IH before Heq) as (mid & -> & ->).
      * intros H. apply Hin. right. exact H.
      * exists mid. auto.
Qed.

(** The loader removes nothing before everything is pulled.  Whenever a
    load calls [RemoveAll], the metadata had been read and decoded, and
    before that call the release image and then every image of the
    metadata had been pulled, successfully. *)
Theorem loader_removes_after_all_pulls (E : Env) (l : BundleLoader.t) (w : World)
        (before after : list Event) (name : string) (ok : bool) :
  events (BundleLoader.Run E l w) = before ++ EvOp (OsRemoveAll name) ok :: after ->
  exists data metadata,
    fs w !! metadata_file l = Some (File data) /\
    json_Unmarshal E data = JValue metadata /\
    pulls before = (Release metadata, true) :: ((fun ref => (ref, true)) <$> Images metadata).
Proof.
  intros Hev.
  destruct (loader_Run_split E l w)
    as [(Hq & _)|(data & metadata & pre & w1 & post & Hf & Hj & Hq1 & Hq2 & Hsplit & Ho)].
  - rewrite Hev in Hq. apply Forall_app in Hq as [_ Hq]. apply Forall_cons in Hq as [Hq _].
    discriminate.
  - exists data, metadata. split; [exact Hf|]. split; [exact Hj|].
    set (p := BundleLoader.populateCRIO E l (Release metadata) (Images metadata) w1) in *.
    assert (Hnot : ~ In (EvOp (OsRemoveAll name) ok) (pre ++ events p)).
    { intros Hin. apply in_app_or in Hin as [Hin|Hin].
      - rewrite List.Forall_forall in Hq1. apply Hq1, early_event_removal in Hin.
        discriminate.
      - pose proof (populateCRIO_quiet_removal E l (Release metadata) (Images metadata) w1) as Hp.
        fold p in Hp. rewrite List.Forall_forall in Hp. apply Hp in Hin.
        discriminate. }
    rewrite Hsplit, app_assoc in Hev.
    destruct (app_split_at _ _ _ _ _ Hev Hnot) as (mid & -> & Hpost).
    assert (Hret : outcome p = Ret tt).
    { destruct Ho as [Ho|(-> & _)]; [exact Ho|]. destruct mid; discriminate. }
    destruct (populateCRIO_shape E l (Release metadata) (Images metadata) w1) as (_ & Hshape & _).
    fold p in Hshape. destruct (Hshape Hret) as (_ & Hpulls).
    unfold pulls in *. rewrite !omap_app, Hpulls.
    fold (pulls pre). fold (pulls mid).
    rewrite (no_loader_event_pulls pre).
    2:{ eapply Forall_impl; [exact Hq1|]. intros ev. apply early_event_loader. }
    rewrite (no_loader_event_pulls mid).
    2:{ rewrite Hpost in Hq2. apply Forall_app in Hq2 as [Hq2 _]. exact Hq2. }
    rewrite app_nil_r. reflexivity.
Qed.

Lemma loader_removes_after_all_pulls_witness :
  let r := BundleLoader.Run (Ex.env Ex.no_fault 0) Ex.loader Ex.extracted in
  exists before after,
    events r = before ++ EvOp (OsRemoveAll "/var/lib/upgrade") true :: after /\
    pulls before = [(Ex.release, true); (Ex.img_a, true); (Ex.img_b, true)].
Proof.
  intros r.
  exists (take 29 (events r)), (drop 30 (events r)).
  assert (Hev : events r = take 29 (events r) ++ EvOp (OsRemoveAll "/var/lib/upgrade") true
                                               :: drop 30 (events r))
    by (vm_compute; reflexivity).
  split; [exact Hev|].
  destruct (loader_removes_after_all_pulls _ _ _ _ _ _ _ Hev) as (data & m & Hf & Hj & Hp).
  rewrite Hp. vm_compute in Hf. injection Hf as <-. vm_compute in Hj. injection Hj as <-.
  reflexivity.
Defined.

(** ** Joining a clean directory and a file name *)

Lemma clean_bytes_under bd bn :
  filepath.clean_bytes bd = bd -> bd <> [Str.slash] -> bd <> filepath.dot ->
  Str.contains Str.slash bn = false -> filepath.is_skipped bn = false ->
  filepath.is_dotdot bn = false ->
  filepath.clean_bytes (bd ++ Str.slash :: bn) = bd ++ Str.slash :: bn.
Proof.
  intros Hclean Hroot Hdot Hc Hs Hd.
  destruct bd as [|c t]; [cbn in Hclean; discriminate|].
  unfold filepath.clean_bytes in *. cbn [app].
  change (c :: t ++ Str.slash :: bn) with ((c :: t) ++ Str.slash :: bn).
  unfold Str.split in *. rewrite (split_aux_app _ _ _ _ Hc), (clean_elems_snoc _ _ _ _ Hs Hd).
  set (ce := filepath.clean_elems (Ascii.eqb c Str.slash) [] (Str.split_aux Str.slash [] (c :: t)))
    in *.
  destruct ce as [|e0 ce'] eqn:Hce.
  - exfalso. cbn in Hclean. destruct (Ascii.eqb c Str.slash); [apply Hroot|apply Hdot];
      symmetry; exact Hclean.
  - rewrite join_snoc by discriminate. rewrite <- Hce in *.
    destruct (Ascii.eqb c Str.slash).
    + rewrite <- Hclean. reflexivity.
    + destruct (Str.join [Str.slash] ce) as [|b0 body] eqn:Hb.
      * exfalso. apply Hdot. symmetry. exact Hclean.
      * rewrite <- Hclean. reflexivity.
Qed.

Lemma Join_under d name :
  filepath.Clean d = d -> d <> "/" -> d <> "." -> simple_name name = true ->
  filepath.Join [d; name] = d +:+ "/" +:+ name.
Proof.
  intros Hclean Hroot Hdot Hs. unfold simple_name in Hs.
  apply andb_true_iff in Hs as [Hs Hdd]. apply andb_true_iff in Hs as [Hc Hsk].
  apply negb_true_iff in Hc, Hsk, Hdd.
  assert (Hd : d <> "") by (intros ->; discriminate).
  cbn [filepath.Join]. apply String.eqb_neq in Hd. rewrite Hd.
  unfold filepath.Clean in *. rewrite bytes_of_bytes. cbn [map Str.join].
  assert (Hb : filepath.clean_bytes (Str.bytes d) = Str.bytes d).
  { rewrite <- Hclean at 2. rewrite bytes_of_bytes. reflexivity. }
  change (Str.bytes d ++ [Str.slash] ++ Str.bytes name)
    with (Str.bytes d ++ Str.slash :: Str.bytes name).
  rewrite clean_bytes_under; auto.
  - rewrite of_bytes_app, of_bytes_bytes.
    change (Str.slash :: Str.bytes name) with (Str.bytes ("/" +:+ name)).
    rewrite of_bytes_bytes. reflexivity.
  - intros H. apply Hroot. rewrite <- (of_bytes_bytes d), H. reflexivity.
  - intros H. apply Hdot. rewrite <- (of_bytes_bytes d), H. reflexivity.
Qed.

Lemma has_prefix_app p s : Str.has_prefix p (p ++ s) = true.
Proof. induction p as [|a p IH]; [reflexivity|]. cbn. rewrite Ascii.eqb_refl. exact IH. Qed.

Lemma within_under d name : within d (d +:+ "/" +:+ name) = true.
Proof.
  unfold within, Str.prefix. apply orb_true_iff. right.
  rewrite !bytes_app, app_assoc. apply has_prefix_app.
Qed.

Lemma under_not_self d name : d +:+ "/" +:+ name <> d.
Proof.
  intros H. apply (f_equal Str.bytes) in H. rewrite bytes_app in H.
  apply (f_equal length) in H. rewrite length_app in H.
  change (Str.bytes ("/" +:+ name)) with (Str.slash :: Str.bytes name) in H.
  cbn [length] in H. lia.
Qed.

(** ** A load in a cooperative environment *)

Section LoaderSucceeds.
Context (E : Env) (Hnf : no_faults E).

Local Opaque filepath.Join.

Lemma call_ret {A} o (f : World -> error + A * World) w a w' :
  f w = inr (a, w') -> call E o f w = MkResult (Ret a) (tick w') [EvOp o true].
Proof. intros H. apply call_ok; [apply Hnf|exact H]. Qed.

Lemma checkBundleDir_ok l w :
  let dir := BundleLoader.absolutePath l (BundleLoader.bundleDir l) in
  dir <> "" -> is_Some (fs w !! dir) ->
  BundleLoader.checkBundleDir E l w = MkResult (Ret true) (tick w) [EvOp (OsStat dir) true].
Proof.
  intros dir Hd [x Hx]. unfold BundleLoader.checkBundleDir, os_Stat. fold dir.
  apply String.eqb_neq in Hd.
  unfold on_error, bind. rewrite (call_ret _ _ w tt w) by (rewrite Hd, Hx; reflexivity).
  reflexivity.
Qed.

Lemma readMetadata_ok l w data m :
  fs w !! metadata_file l = Some (File data) -> json_Unmarshal E data = JValue m ->
  outcome (BundleLoader.readMetadata E l w) = Ret m /\
  world (BundleLoader.readMetadata E l w) = tick w.
Proof.
  intros Hf Hj. unfold BundleLoader.readMetadata, os_ReadFile, BundleLoader.json_decode.
  fold (metadata_file l). unfold bind.
  rewrite (call_ret _ _ w data w) by (rewrite Hf; reflexivity).
  cbn [outcome world]. rewrite Hj. cbn. auto.
Qed.

Lemma Build_self_signed_ok address root w :
  address <> "" -> root <> "" ->
  let tmp := temp_dir E (clock w) "*.registry" in
  fs w !! tmp = None ->
  exists cert key,
    Registry.Build E (RegistryBuilder.Mk true address root None None) w
    = MkResult (Ret (Registry.Mk address root tmp cert key None None))
               (tick (tick (set_fs (<[tmp := Dir]> (fs w)) w)))
               [EvOp (OsMkdirTemp "*.registry") true; EvOp (OpMakeSelfSignedCert address) true].
Proof.
  intros Ha Hr tmp Hfresh. apply String.eqb_neq in Ha, Hr.
  unfold Registry.Build. cbn [RegistryBuilder.logger RegistryBuilder.address RegistryBuilder.root
                              RegistryBuilder.cert RegistryBuilder.key negb].
  rewrite Ha, Hr. unfold bind, os_MkdirTemp, Registry.makeSelfSignedCert.
  rewrite (call_ret _ _ w tmp (set_fs (<[tmp := Dir]> (fs w)) w))
    by (fold tmp; rewrite Hfresh; reflexivity).
  cbn [outcome world events RegistryBuilder.address].
  erewrite call_ret by reflexivity.
  cbn. eauto.
Qed.

Lemma Start_succeeds r w :
  let certFile := filepath.Join [Registry.tmp r; "tls.crt"] in
  let keyFile := filepath.Join [Registry.tmp r; "tls.key"] in
  let a := bound_address E (S (S (clock w))) (Registry.address r) in
  fs w !! certFile <> Some Dir -> fs w !! keyFile <> Some Dir -> (a ∉ listeners w) ->
  exists r', outcome (Registry.Start E r w) = Ret (r', None).
Proof.
  intros certFile keyFile a Hc Hk Ha. unfold Registry.Start. fold certFile keyFile.
  clearbody certFile keyFile.
  unfold on_error, bind, os_WriteFile, Registry.net_Listen.
  rewrite (call_ret _ _ w tt (set_fs (<[certFile := File (Registry.cert r)]> (fs w)) w)).
  2:{ destruct (fs w !! certFile) as [[]|]; [congruence|reflexivity|reflexivity]. }
  cbn [outcome world events].
  set (w1 := tick (set_fs (<[certFile := File (Registry.cert r)]> (fs w)) w)).
  rewrite (call_ret _ _ w1 tt (set_fs (<[keyFile := File (Registry.key r)]> (fs w1)) w1)).
  2:{ subst w1. cbn [fs tick set_fs].
      destruct (decide (keyFile = certFile)) as [Heq|Hne].
      - rewrite Heq, lookup_insert_eq. reflexivity.
      - rewrite lookup_insert_ne by congruence.
        destruct (fs w !! keyFile) as [[]|]; [congruence|reflexivity|reflexivity]. }
  cbn [outcome world events].
  erewrite call_ret.
  2:{ cbn [clock tick set_fs listeners]. fold a. rewrite bool_decide_eq_false_2 by exact Ha.
      reflexivity. }
  cbn. eauto.
Qed.

Lemma PullImage_ok ref w : outcome (CRIOTool.PullImage E ref w) = Ret tt.
Proof. unfold CRIOTool.PullImage. erewrite call_ret by reflexivity. reflexivity. Qed.

Lemma reportProgress_ok l format args w :
  outcome (BundleLoader.reportProgress E l format args w) = Ret tt.
Proof. apply reportProgress_cases. Qed.

Lemma populateCRIO_ok l release refs w :
  outcome (BundleLoader.populateCRIO E l release refs w) = Ret tt.
Proof.
  unfold BundleLoader.populateCRIO.
  eapply bind_ret_intro; [apply PullImage_ok|].
  eapply bind_ret_intro; [apply reportProgress_ok|].
  generalize 0 (length refs). generalize (world
            (BundleLoader.reportProgress E l "Pulled release image" []
               (world (CRIOTool.PullImage E release w)))).
  induction refs as [|ref rest IH]; intros w0 i n; cbn [BundleLoader.pullPayload]; [reflexivity|].
  eapply bind_ret_intro; [apply PullImage_ok|].
  eapply bind_ret_intro; [apply reportProgress_ok|]. apply IH.
Qed.

Lemma configureCRIO_ok l addr refs w :
  outcome (BundleLoader.configureCRIO E l addr refs w) = Ret tt.
Proof.
  unfold BundleLoader.configureCRIO, CRIOTool.CreatePinConf, CRIOTool.CreateMirrorConf,
    CRIOTool.ReloadService.
  eapply bind_ret_intro; [erewrite call_ret by reflexivity; reflexivity|].
  eapply bind_ret_intro; [erewrite call_ret by reflexivity; reflexivity|].
  erewrite call_ret by reflexivity; reflexivity.
Qed.

Lemma deconfigureCRIO_ok l w : outcome (BundleLoader.deconfigureCRIO E l w) = Ret tt.
Proof.
  unfold BundleLoader.deconfigureCRIO, CRIOTool.RemoveMirrorConf, CRIOTool.ReloadService.
  eapply bind_ret_intro; [erewrite call_ret by reflexivity; reflexivity|].
  erewrite call_ret by reflexivity; reflexivity.
Qed.

Lemma Stop_ok r w a :
  Registry.server r = Some a -> removable (Registry.tmp r) = true ->
  outcome (Registry.Stop E r w) = Ret tt.
Proof.
  intros Hs Hr. unfold Registry.Stop, Registry.server_Shutdown. rewrite Hs.
  eapply bind_ret_intro; [erewrite call_ret by reflexivity; reflexivity|].
  rewrite os_RemoveAll_ok by (try apply Hnf; exact Hr). reflexivity.
Qed.

Lemma deleteBundle_ok l w :
  removable (BundleLoader.absolutePath l (BundleLoader.bundleDir l)) = true ->
  outcome (BundleLoader.deleteBundle E l w) = Ret tt.
Proof.
  intros Hr. unfold BundleLoader.deleteBundle.
  eapply bind_ret_intro; [|reflexivity].
  rewrite os_RemoveAll_ok by (try apply Hnf; exact Hr). reflexivity.
Qed.

Lemma loader_writeResult_ok l w :
  is_Some (nodes w !! BundleLoader.node l) ->
  outcome (BundleLoader.writeResult E l w) = Ret tt.
Proof.
  intros [obj Hobj]. unfold BundleLoader.writeResult, client.Get, client.PatchLabel.
  eapply bind_ret_intro.
  { erewrite call_ret by (rewrite Hobj; reflexivity). reflexivity. }
  erewrite (call_ret (ClientGet _)) by (rewrite Hobj; reflexivity). cbn [world].
  eapply bind_ret_intro; [|reflexivity].
  erewrite call_ret by (cbn [nodes tick]; rewrite Hobj; reflexivity). reflexivity.
Qed.

End LoaderSucceeds.

Section LoaderFs.
Context (E : Env).

Local Opaque filepath.Join.

Lemma readMetadata_world l w m :
  outcome (BundleLoader.readMetadata E l w) = Ret m ->
  world (BundleLoader.readMetadata E l w) = tick w.
Proof.
  unfold BundleLoader.readMetadata, os_ReadFile, BundleLoader.json_decode. intros H.
  apply bind_inv_ret in H as (data & H1 & H & Hw & _). rewrite Hw. clear Hw.
  apply call_inv_ret in H1 as (w1 & _ & H1 & Hw1 & _). rewrite Hw1 in *. clear Hw1.
  assert (w1 = w) as ->.
  { destruct (fs w !! _) as [[]|]; try discriminate. injection H1 as _ <-. reflexivity. }
  unfold bind, emit, ret in *.
  destruct (json_Unmarshal E data); cbn in *; [discriminate| |reflexivity].
  discriminate.
Qed.

(** What a started registry left in the file system. *)
Lemma startRegistry_fs l w r :
  outcome (BundleLoader.startRegistry E l w) = Ret r ->
  let tmp := temp_dir E (clock w) "*.registry" in
  Registry.tmp r = tmp /\ fs w !! tmp = None /\
  fs (world (BundleLoader.startRegistry E l w))
  = <[filepath.Join [tmp; "tls.key"] := File (Registry.key r)]>
      (<[filepath.Join [tmp; "tls.crt"] := File (Registry.cert r)]> (<[tmp := Dir]> (fs w))).
Proof.
  unfold BundleLoader.startRegistry. intros H. cbv zeta.
  apply bind_inv_ret in H as (r0 & H0 & H & Hw & _). rewrite Hw. clear Hw.
  apply Build_ret in H0 as (Htmp & Hfresh & Hfs0 & _).
  match type of H with
  | context [Registry.Build E ?b w] => set (w0 := world (Registry.Build E b w)) in *
  end.
  apply bind_inv_ret in H as ([r1 [e|]] & Hs & H & Hw & _); rewrite Hw; clear Hw;
    cbn [fst snd] in H |- *; [discriminate|].
  pose proof (Start_ok E r0 w0 r1 Hs) as (_ & -> & _ & Hfs1 & Ha).
  set (w1 := world (Registry.Start E r0 w0)) in *.
  unfold bind in H |- *. rewrite (Ha w1) in H |- *. cbn in H |- *. injection H as <-.
  cbn. rewrite Hfs1, Hfs0, Htmp. auto.
Qed.

Lemma Stop_fs r w :
  outcome (Registry.Stop E r w) = Ret tt ->
  fs (world (Registry.Stop E r w)) = removed (Registry.tmp r) (fs w).
Proof.
  unfold Registry.Stop, Registry.server_Shutdown. intros H.
  destruct (Registry.server r) as [a|]; [|discriminate].
  apply bind_inv_ret in H as ([] & H1 & H2 & Hw & _). rewrite Hw. clear Hw.
  apply call_inv_ret in H1 as (w1 & _ & [= <-] & Hw1 & _). rewrite Hw1 in *. clear Hw1.
  apply os_RemoveAll_ret in H2 as (_ & ->). reflexivity.
Qed.

Lemma populateCRIO_keeps_fs l release refs : keeps fs (BundleLoader.populateCRIO E l release refs).
Proof.
  assert (Hr : forall format args, keeps fs (BundleLoader.reportProgress E l format args)).
  { intros format args.
    unfold BundleLoader.reportProgress, client.PatchAnnotation, logger_Info, logger_Error.
    keeps_auto. }
  unfold BundleLoader.populateCRIO.
  apply keeps_bind; [unfold CRIOTool.PullImage; keeps_auto|intros _].
  apply keeps_bind; [apply Hr|intros _].
  generalize 0 (length refs). induction refs as [|ref rest IH]; intros i n;
    cbn [BundleLoader.pullPayload].
  - apply keeps_ret.
  - apply keeps_bind; [unfold CRIOTool.PullImage; keeps_auto|intros _].
    apply keeps_bind; [apply Hr|intros _]. apply IH.
Qed.

Lemma loader_Run_fs l w :
  outcome (BundleLoader.Run E l w) = Ret tt ->
  let dir := BundleLoader.absolutePath l (BundleLoader.bundleDir l) in
  let tmp := temp_dir E (S (S (clock w))) "*.registry" in
  fs w !! tmp = None /\
  exists cert key,
    fs (world (BundleLoader.Run E l w))
    = removed dir (removed tmp
        (<[filepath.Join [tmp; "tls.key"] := File key]>
           (<[filepath.Join [tmp; "tls.crt"] := File cert]> (<[tmp := Dir]> (fs w))))).
Proof.
  intros H. cbv zeta. unfold BundleLoader.Run in *.
  apply bind_inv_ret in H as (ex & Hc & H & Hw & _). rewrite Hw. clear Hw.
  destruct ex; cbn [negb] in H |- *; [|discriminate].
  destruct (checkBundleDir_spec E l w) as (Hw1 & _). cbv zeta in Hw1. rewrite Hw1 in *.
  clear Hw1 Hc.
  apply bind_inv_ret in H as (m & Hm & H & Hw & _). rewrite Hw. clear Hw.
  apply readMetadata_world in Hm. rewrite Hm in *. clear Hm.
  apply bind_inv_ret in H as (reg & Hreg & H & Hw & _). rewrite Hw. clear Hw.
  apply startRegistry_fs in Hreg as (Htmp & Hfresh & Hfs3). cbn [clock tick fs] in Htmp, Hfresh, Hfs3.
  set (w3 := world (BundleLoader.startRegistry E l (tick (tick w)))) in *.
  apply bind_inv_ret in H as ([] & _ & H & Hw & _). rewrite Hw. clear Hw.
  cbn [logger_Info emit world] in H |- *.
  apply bind_inv_ret in H as (addr & Ha & H & Hw & _). rewrite Hw. clear Hw.
  assert (Hwa : world (Registry.Address reg w3) = w3)
    by (unfold Registry.Address; destruct (Registry.listener reg); reflexivity).
  rewrite Hwa in *. clear Hwa Ha.
  apply bind_inv_ret in H as ([] & _ & H & Hw & _). rewrite Hw. clear Hw.
  assert (F4 : keeps fs (BundleLoader.configureCRIO E l addr (Images m))).
  { unfold BundleLoader.configureCRIO, CRIOTool.CreatePinConf, CRIOTool.CreateMirrorConf,
      CRIOTool.ReloadService. keeps_auto. }
  specialize (F4 w3).
  set (w4 := world (BundleLoader.configureCRIO E l addr (Images m) w3)) in *.
  apply bind_inv_ret in H as ([] & _ & H & Hw & _). rewrite Hw. clear Hw.
  pose proof (populateCRIO_keeps_fs l (Release m) (Images m) w4) as F5.
  set (w5 := world (BundleLoader.populateCRIO E l (Release m) (Images m) w4)) in *.
  apply bind_inv_ret in H as ([] & _ & H & Hw & _). rewrite Hw. clear Hw.
  assert (F6 : keeps fs (BundleLoader.deconfigureCRIO E l)).
  { unfold BundleLoader.deconfigureCRIO, CRIOTool.RemoveMirrorConf, CRIOTool.ReloadService.
    keeps_auto. }
  specialize (F6 w5).
  set (w6 := world (BundleLoader.deconfigureCRIO E l w5)) in *.
  apply bind_inv_ret in H as ([] & _ & H & Hw & _). rewrite Hw. clear Hw.
  cbn [logger_Info emit world] in H |- *.
  apply bind_inv_ret in H as ([] & Hstop & H & Hw & _). rewrite Hw. clear Hw.
  apply Stop_fs in Hstop.
  set (w7 := world (Registry.Stop E reg w6)) in *.
  apply bind_inv_ret in H as ([] & _ & H & Hw & _). rewrite Hw. clear Hw.
  cbn [logger_Info emit world] in H |- *.
  apply bind_inv_ret in H as ([] & Hdel & H & Hw & _). rewrite Hw. clear Hw.
  assert (Hfs8 : fs (world (BundleLoader.deleteBundle E l w7))
                 = removed (BundleLoader.absolutePath l (BundleLoader.bundleDir l)) (fs w7)).
  { unfold BundleLoader.deleteBundle in *.
    apply bind_inv_ret in Hdel as ([] & Hrm & _ & Hw & _). rewrite Hw. clear Hw.
    cbn [logger_Info emit world]. apply os_RemoveAll_ret in Hrm as (_ & ->). reflexivity. }
  set (w8 := world (BundleLoader.deleteBundle E l w7)) in *.
  apply loader_writeResult_ret in H as (obj & _ & (Sfs & _)). cbn in Sfs.
  split; [exact Hfresh|]. exists (Registry.cert reg), (Registry.key reg).
  rewrite Sfs, Hfs8, Hstop, F6, F5, F4, Hfs3, Htmp. reflexivity.
Qed.

End LoaderFs.

Lemma without_progress_present n w1 w2 :
  without_progress n w1 = without_progress n w2 ->
  is_Some (nodes w2 !! n) -> is_Some (nodes w1 !! n).
Proof.
  intros H [obj Hobj]. apply (f_equal (fun m => m !! n)) in H. unfold without_progress in H.
  rewrite !lookup_alter_eq, Hobj in H. destruct (nodes w1 !! n); [eauto|discriminate].
Qed.

Section LoaderTotal.
Context (E : Env) (Hnf : no_faults E).

Local Opaque filepath.Join.

Lemma startRegistry_ok l w :
  let dir := BundleLoader.absolutePath l (BundleLoader.bundleDir l) in
  let tmp := temp_dir E (clock w) "*.registry" in
  let a := bound_address E (4 + clock w) "localhost:0" in
  dir <> "" -> fs w !! tmp = None ->
  filepath.Join [tmp; "tls.crt"] <> tmp -> fs w !! filepath.Join [tmp; "tls.crt"] = None ->
  filepath.Join [tmp; "tls.key"] <> tmp -> fs w !! filepath.Join [tmp; "tls.key"] = None ->
  (a ∉ listeners w) ->
  exists r, outcome (BundleLoader.startRegistry E l w) = Ret r.
Proof.
  intros dir tmp a Hdir Hfresh Hc1 Hc2 Hk1 Hk2 Ha. unfold BundleLoader.startRegistry. fold dir.
  destruct (Build_self_signed_ok E Hnf "localhost:0" dir w) as (cert & key & HB);
    [discriminate|exact Hdir|exact Hfresh|]. fold tmp in HB.
  unfold bind at 1. rewrite HB. cbn [outcome world events].
  set (r0 := Registry.Mk "localhost:0" dir tmp cert key None None).
  set (w0 := tick (tick (set_fs (<[tmp := Dir]> (fs w)) w))).
  destruct (Start_succeeds E Hnf r0 w0) as (r' & HS).
  { cbn. rewrite lookup_insert_ne by congruence. rewrite Hc2. discriminate. }
  { cbn. rewrite lookup_insert_ne by congruence. rewrite Hk2. discriminate. }
  { exact Ha. }
  pose proof (Start_ok E r0 w0 r' HS) as (_ & _ & _ & _ & Haddr).
  unfold bind at 1. rewrite HS. cbn [outcome world events fst snd].
  unfold bind. rewrite Haddr. cbn. eauto.
Qed.

Lemma loader_Run_ok l w data m :
  let dir := BundleLoader.absolutePath l (BundleLoader.bundleDir l) in
  let tmp := temp_dir E (S (S (clock w))) "*.registry" in
  dir <> "" -> ends_with_dot dir = false -> is_Some (fs w !! dir) ->
  fs w !! metadata_file l = Some (File data) -> json_Unmarshal E data = JValue m ->
  filepath.Clean tmp = tmp -> tmp <> "/" -> ends_with_dot tmp = false ->
  (forall p, within tmp p = true -> fs w !! p = None) ->
  (bound_address E (6 + clock w) "localhost:0" ∉ listeners w) ->
  is_Some (nodes w !! BundleLoader.node l) ->
  outcome (BundleLoader.Run E l w) = Ret tt /\
  fs (world (BundleLoader.Run E l w)) = removed dir (fs w).
Proof.
  intros dir tmp Hdir Hdot Hex Hf Hj Hclean Hroot Htdot Hunder Ha Hnode.
  assert (Htd : tmp <> ".") by (intros Heq; rewrite Heq in Htdot; discriminate).
  assert (Hcrt : filepath.Join [tmp; "tls.crt"] = tmp +:+ "/" +:+ "tls.crt")
    by (apply Join_under; auto).
  assert (Hkey : filepath.Join [tmp; "tls.key"] = tmp +:+ "/" +:+ "tls.key")
    by (apply Join_under; auto).
  assert (Hret : outcome (BundleLoader.Run E l w) = Ret tt).
  { unfold BundleLoader.Run.
    eapply bind_ret_intro; [rewrite (checkBundleDir_ok E Hnf) by assumption; reflexivity|].
    rewrite (checkBundleDir_ok E Hnf) by assumption. cbn [world negb].
    destruct (readMetadata_ok E Hnf l (tick w) data m Hf Hj) as (Hm & Hwm).
    eapply bind_ret_intro; [exact Hm|]. rewrite Hwm.
    assert (H1 : fs w !! tmp = None) by apply Hunder, within_refl.
    assert (H2 : filepath.Join [tmp; "tls.crt"] <> tmp)
      by (rewrite Hcrt; apply under_not_self).
    assert (H3 : fs w !! filepath.Join [tmp; "tls.crt"] = None)
      by (apply Hunder; rewrite Hcrt; apply within_under).
    assert (H4 : filepath.Join [tmp; "tls.key"] <> tmp)
      by (rewrite Hkey; apply under_not_self).
    assert (H5 : fs w !! filepath.Join [tmp; "tls.key"] = None)
      by (apply Hunder; rewrite Hkey; apply within_under).
    destruct (startRegistry_ok l (tick (tick w)) Hdir H1 H2 H3 H4 H5 Ha) as (reg & Hreg).
    eapply bind_ret_intro; [exact Hreg|].
    apply startRegistry_fs in Hreg as Hfs. destruct Hfs as (Htmp & _).
    apply startRegistry_ret in Hreg as (a & _ & Hserver & Hlistener & _ & N3).
    set (w3 := world (BundleLoader.startRegistry E l (tick (tick w)))) in *.
    eapply bind_ret_intro; [reflexivity|]. cbn [logger_Info emit world].
    eapply bind_ret_intro; [unfold Registry.Address; rewrite Hlistener; reflexivity|].
    replace (world (Registry.Address reg w3)) with w3
      by (unfold Registry.Address; rewrite Hlistener; reflexivity).
    eapply bind_ret_intro; [apply configureCRIO_ok, Hnf|].
    pose proof (configureCRIO_keeps_frame E (BundleLoader.node l) l a (Images m) w3) as F4.
    set (w4 := world (BundleLoader.configureCRIO E l a (Images m) w3)) in *.
    eapply bind_ret_intro; [apply populateCRIO_ok, Hnf|].
    pose proof (populateCRIO_keeps_frame E l (Release m) (Images m) w4) as F5.
    set (w5 := world (BundleLoader.populateCRIO E l (Release m) (Images m) w4)) in *.
    eapply bind_ret_intro; [apply deconfigureCRIO_ok, Hnf|].
    pose proof (deconfigureCRIO_keeps_frame E (BundleLoader.node l) l w5) as F6.
    set (w6 := world (BundleLoader.deconfigureCRIO E l w5)) in *.
    eapply bind_ret_intro; [reflexivity|]. cbn [logger_Info emit world].
    assert (Hstop : outcome (Registry.Stop E reg w6) = Ret tt).
    { apply (Stop_ok E Hnf reg w6 a Hserver). rewrite Htmp. cbn [clock tick].
      fold tmp. unfold removable. rewrite Htdot. apply orb_true_r. }
    eapply bind_ret_intro; [exact Hstop|].
    apply (Stop_listeners E reg w6 a) in Hstop as (_ & N7); [|exact Hserver].
    set (w7 := world (Registry.Stop E reg w6)) in *.
    eapply bind_ret_intro; [reflexivity|]. cbn [logger_Info emit world].
    assert (Hrm : removable dir = true) by (unfold removable; rewrite Hdot; apply orb_true_r).
    eapply bind_ret_intro; [apply (deleteBundle_ok E Hnf), Hrm|].
    pose proof (deleteBundle_keeps_frame E (BundleLoader.node l) l w7) as F8.
    set (w8 := world (BundleLoader.deleteBundle E l w7)) in *.
    apply (loader_writeResult_ok E Hnf).
    unfold loader_frame in *.
    injection F8 as _ F8. injection F6 as _ F6. injection F5 as _ F5. injection F4 as _ F4.
    apply (without_progress_present _ w8 w); [|exact Hnode].
    rewrite F8. unfold without_progress at 1. rewrite N7. fold (without_progress (BundleLoader.node l) w6).
    rewrite F6, F5, F4, N3. reflexivity. }
  split; [exact Hret|].
  destruct (loader_Run_fs E l w Hret) as (_ & cert & key & ->). fold dir tmp.
  rewrite Hcrt, Hkey.
  assert (Hne : tmp <> "") by (intros Heq; rewrite Heq in Hclean; discriminate).
  apply map_eq. intros p. rewrite !lookup_removed.
  destruct (negb (String.eqb dir "") && within dir p); [reflexivity|].
  apply String.eqb_neq in Hne. rewrite Hne. cbn [negb andb].
  destruct (within tmp p) eqn:Hp; [symmetry; apply Hunder, Hp|].
  assert (Hp1 : p <> tmp +:+ "/" +:+ "tls.key")
    by (intros ->; rewrite within_under in Hp; discriminate).
  assert (Hp2 : p <> tmp +:+ "/" +:+ "tls.crt")
    by (intros ->; rewrite within_under in Hp; discriminate).
  assert (Hp3 : p <> tmp) by (intros ->; rewrite within_refl in Hp; discriminate).
  rewrite !lookup_insert_ne by congruence. reflexivity.
Qed.

End LoaderTotal.

(** A load succeeds in an environment that fails no call, provided: the
    bundle directory exists (its path not empty, not ending in a dot) and
    its [metadata.json] decodes; the temporary directory the registry is
    going to get is a clean path, other than the root, with nothing in
    it; nobody listens at the address the registry is going to bind; and
    the node exists.  The file system is then the initial one without the
    bundle directory. *)
Theorem loader_succeeds_in_cooperative_environment
        (E : Env) (l : BundleLoader.t) (w : World) (data : string) (m : Metadata) :
  no_faults E ->
  let dir := BundleLoader.absolutePath l (BundleLoader.bundleDir l) in
  let tmp := temp_dir E (S (S (clock w))) "*.registry" in
  dir <> "" -> ends_with_dot dir = false -> is_Some (fs w !! dir) ->
  fs w !! metadata_file l = Some (File data) -> json_Unmarshal E data = JValue m ->
  filepath.Clean tmp = tmp -> tmp <> "/" -> ends_with_dot tmp = false ->
  (forall p, within tmp p = true -> fs w !! p = None) ->
  (bound_address E (6 + clock w) "localhost:0" ∉ listeners w) ->
  is_Some (nodes w !! BundleLoader.node l) ->
  outcome (BundleLoader.Run E l w) = Ret tt /\
  fs (world (BundleLoader.Run E l w)) = removed dir (fs w).
Proof. intros Hnf. apply loader_Run_ok, Hnf. Qed.

Lemma loader_succeeds_in_cooperative_environment_witness :
  let r := BundleLoader.Run (Ex.env Ex.no_fault 0) Ex.loader Ex.extracted in
  outcome r = Ret tt /\ fs (world r) = removed "/var/lib/upgrade" (fs Ex.extracted).
Proof.
  intros r.
  apply (loader_succeeds_in_cooperative_environment
           (Ex.env Ex.no_fault 0) Ex.loader Ex.extracted (Ex.marshal Ex.metadata) Ex.metadata).
  - intros n op. reflexivity.
  - discriminate.
  - reflexivity.
  - eexists. reflexivity.
  - reflexivity.
  - reflexivity.
  - reflexivity.
  - discriminate.
  - reflexivity.
  - intros p Hp. apply eq_None_not_Some. intros [x Hx].
    unfold Ex.extracted in Hx. cbn [fs] in Hx.
    repeat (apply lookup_insert_Some in Hx as [[<- _]|[_ Hx]]; [vm_compute in Hp; discriminate|]).
    rewrite lookup_empty in Hx. discriminate.
  - apply not_elem_of_nil.
  - eexists. reflexivity.
Defined.

(** ** The cleaner, step by step *)

(** A successful clean is exactly this sequence of calls and log lines:
    the bundle directory is removed, then its [.tmp] sibling; the mirror
    and the pin configuration are removed and the runtime is reloaded;
    the node is read and labelled [bundle-cleaned]. *)
Theorem cleaner_success_trace (E : Env) (c : BundleCleaner.t) (w : World) :
  outcome (BundleCleaner.Run E c w) = Ret tt ->
  let dir := BundleCleaner.absolutePath c (BundleCleaner.bundleDir c) in
  events (BundleCleaner.Run E c w)
  = [EvOp (OsRemoveAll dir) true; EvLog LInfo "Removed bundle directory";
     EvOp (OsRemoveAll (dir +:+ ".tmp")) true; EvLog LInfo "Removed bundle directory";
     EvLog LInfo "Cleaned bundle directory";
     EvOp OpRemoveMirrorConf true; EvOp OpRemovePinConf true; EvOp OpReloadService true;
     EvLog LInfo "Cleaned CRI-O";
     EvOp (ClientGet (BundleCleaner.node c)) true;
     EvOp (ClientPatchLabel (BundleCleaner.node c) labels.BundleCleaned "true") true;
     EvLog LInfo "Wrote success"].
Proof.
  intros H dir.
  unfold BundleCleaner.Run, BundleCleaner.cleanBundleDir, BundleCleaner.cleanCRIO,
    BundleCleaner.writeResult, CRIOTool.RemoveMirrorConf, CRIOTool.RemovePinConf,
    CRIOTool.ReloadService, client.Get, client.PatchLabel, os_RemoveAll in *.
  fold dir in H |- *. rewrite Sprintf_tmp in *. clearbody dir.
  repeat match type of H with
         | outcome (bind _ _ _) = Ret _ =>
             let a := fresh "a" in let H1 := fresh "H1" in let Hev := fresh "Hev" in
             apply bind_inv_ret in H as (a & H1 & H & _ & Hev); rewrite Hev; clear Hev;
             repeat match type of H1 with
                    | outcome (bind _ _ _) = Ret _ =>
                        let b := fresh "b" in let H2 := fresh "H2" in let Hev := fresh "Hev" in
                        apply bind_inv_ret in H1 as (b & H2 & H1 & _ & Hev); rewrite Hev;
                        clear Hev;
                        try (apply call_inv_ret in H2 as (? & _ & _ & _ & ->))
                    end;
             try (apply call_inv_ret in H1 as (? & _ & _ & _ & ->))
         end.
  reflexivity.
Qed.

Lemma cleaner_success_trace_witness :
  let r := BundleCleaner.Run (Ex.env Ex.no_fault 0) Ex.cleaner Ex.extracted in
  outcome r = Ret tt /\ length (events r) = 12 /\
  events r !! 2 = Some (EvOp (OsRemoveAll "/var/lib/upgrade.tmp") true).
Proof.
  intros r.
  assert (H : outcome r = Ret tt) by (vm_compute; reflexivity).
  split; [exact H|]. subst r.
  rewrite (cleaner_success_trace _ _ _ H). split; reflexivity.
Defined.

Lemma call_err {A} (E : Env) (o : Op) (f : World -> error + A * World) w e :
  fails E (clock w) o = false -> f w = inl e ->
  call E o f w = MkResult (Raise e) (tick w) [EvOp o false].
Proof. intros Hf He. unfold call. rewrite Hf, He. reflexivity. Qed.

Lemma seq_ret {A B} (m : M A) (f : A -> M B) w a w1 ev1 o2 w2 ev2 :
  m w = MkResult (Ret a) w1 ev1 -> f a w1 = MkResult o2 w2 ev2 ->
  bind m f w = MkResult o2 w2 (ev1 ++ ev2).
Proof. intros H1 H2. unfold bind. rewrite H1. cbn. rewrite H2. reflexivity. Qed.

Lemma seq_raise {A B} (m : M A) (f : A -> M B) w e w1 ev1 :
  m w = MkResult (Raise e) w1 ev1 -> bind m f w = MkResult (Raise e) w1 ev1.
Proof. intros H1. unfold bind. rewrite H1. reflexivity. Qed.

(** The cleaner cleans before it looks for the node.  In an environment
    that fails no call, with a removable bundle directory and no such
    node, the run fails with the not-found error of the API server after
    both directories are removed and the runtime is deconfigured and
    reloaded; the node objects are untouched. *)
Theorem cleaner_cleans_before_labelling (E : Env) (c : BundleCleaner.t) (w : World) :
  no_faults E ->
  let dir := BundleCleaner.absolutePath c (BundleCleaner.bundleDir c) in
  removable dir = true ->
  nodes w !! BundleCleaner.node c = None ->
  outcome (BundleCleaner.Run E c w) = Raise (ENotFound (BundleCleaner.node c)) /\
  fs (world (BundleCleaner.Run E c w)) = removed (dir +:+ ".tmp") (removed dir (fs w)) /\
  nodes (world (BundleCleaner.Run E c w)) = nodes w /\
  events (BundleCleaner.Run E c w)
  = [EvOp (OsRemoveAll dir) true; EvLog LInfo "Removed bundle directory";
     EvOp (OsRemoveAll (dir +:+ ".tmp")) true; EvLog LInfo "Removed bundle directory";
     EvLog LInfo "Cleaned bundle directory";
     EvOp OpRemoveMirrorConf true; EvOp OpRemovePinConf true; EvOp OpReloadService true;
     EvLog LInfo "Cleaned CRI-O";
     EvOp (ClientGet (BundleCleaner.node c)) false].
Proof.
  intros Hnf dir Hr Hn.
  assert (Heq : exists wf evs,
             BundleCleaner.Run E c w
             = MkResult (Raise (ENotFound (BundleCleaner.node c))) wf evs /\
             evs = [EvOp (OsRemoveAll dir) true; EvLog LInfo "Removed bundle directory";
                    EvOp (OsRemoveAll (dir +:+ ".tmp")) true;
                    EvLog LInfo "Removed bundle directory";
                    EvLog LInfo "Cleaned bundle directory";
                    EvOp OpRemoveMirrorConf true; EvOp OpRemovePinConf true;
                    EvOp OpReloadService true; EvLog LInfo "Cleaned CRI-O";
                    EvOp (ClientGet (BundleCleaner.node c)) false] /\
             fs wf = removed (dir +:+ ".tmp") (removed dir (fs w)) /\ nodes wf = nodes w).
  { unfold BundleCleaner.Run, BundleCleaner.cleanBundleDir, BundleCleaner.cleanCRIO,
      BundleCleaner.writeResult, CRIOTool.RemoveMirrorConf, CRIOTool.RemovePinConf,
      CRIOTool.ReloadService, client.Get.
    fold dir. rewrite Sprintf_tmp. clearbody dir.
    eexists _, _. split.
    - eapply seq_ret.
      { eapply seq_ret; [apply os_RemoveAll_ok; [apply Hnf|exact Hr]|].
        eapply seq_ret; [reflexivity|].
        eapply seq_ret; [apply os_RemoveAll_ok; [apply Hnf|apply removable_tmp]|].
        reflexivity. }
      eapply seq_ret; [reflexivity|].
      eapply seq_ret.
      { eapply seq_ret; [apply (call_ret E Hnf); reflexivity|].
        eapply seq_ret; [apply (call_ret E Hnf); reflexivity|].
        apply (call_ret E Hnf). reflexivity. }
      eapply seq_ret; [reflexivity|].
      eapply seq_raise.
      apply call_err; [apply Hnf|].
      cbn [nodes tick set_fs set_pin set_mirror]. rewrite Hn. reflexivity.
    - split; [reflexivity|]. split; reflexivity. }
  destruct Heq as (wf & evs & -> & -> & Hfs & Hnodes). cbn [outcome world events]. auto.
Qed.

Lemma cleaner_cleans_before_labelling_witness :
  let w := MkWorld (fs Ex.extracted) None None [] ∅ [] 0 in
  let r := BundleCleaner.Run (Ex.env Ex.no_fault 0) Ex.cleaner w in
  outcome r = Raise (ENotFound "node1") /\ fs (world r) = ∅.
Proof.
  intros w r.
  destruct (cleaner_cleans_before_labelling (Ex.env Ex.no_fault 0) Ex.cleaner w)
    as (Ho & Hfs & _); [intros n op; reflexivity|reflexivity|reflexivity|].
  split; [exact Ho|]. subst r. rewrite Hfs. vm_compute. reflexivity.
Defined.

(** ** The creator: destinations, discovered images *)

Lemma append_empty_r s : s +:+ "" = s.
Proof.
  induction s as [|ch s IH]; [reflexivity|].
  change (String ch (s +:+ "") = String ch s). rewrite IH. reflexivity.
Qed.

Lemma Sprintf_dst addr path tag :
  Sprintf "%s/%s:%s" [AStr addr; AStr path; AStr tag] = addr +:+ "/" +:+ path +:+ ":" +:+ tag.
Proof.
  change (addr +:+ "/" +:+ path +:+ ":" +:+ tag +:+ "" = addr +:+ "/" +:+ path +:+ ":" +:+ tag).
  rewrite append_empty_r. reflexivity.
Qed.

Lemma dstRef_cases c src registry w :
  BundleCreator.dstRef c src registry w
  = match dreference.ParseNamed src, Registry.listener registry with
    | None, _ => MkResult (Raise (EReference src)) w []
    | Some _, None => MkResult (Panic "invalid memory address or nil pointer dereference") w []
    | Some ref, Some addr =>
        MkResult (Ret (addr +:+ "/" +:+ dreference.path ref +:+ ":" +:+ BundleCreator.dstTag ref))
                 w []
    end.
Proof.
  unfold BundleCreator.dstRef, Registry.Address, dreference.Path.
  destruct (dreference.ParseNamed src) as [ref|]; [|reflexivity].
  destruct (Registry.listener registry) as [addr|]; [|reflexivity].
  unfold bind, ret. cbn [outcome world events app]. rewrite Sprintf_dst. reflexivity.
Qed.

(** The destination of a source reference depends on its path and its
    tag only, or, when it has no tag, on the hex part of its digest: two
    sources that agree on these, whatever their registries, have the same
    destination. *)
Theorem dstRef_forgets_the_source_registry
        (c c' : BundleCreator.t) (src1 src2 : string) (ref1 ref2 : dreference.Named)
        (registry : Registry.t) (w : World) :
  dreference.ParseNamed src1 = Some ref1 -> dreference.ParseNamed src2 = Some ref2 ->
  dreference.path ref1 = dreference.path ref2 ->
  dreference.tag ref1 = dreference.tag ref2 ->
  (dreference.tag ref1 = None ->
   snd <$> dreference.digest ref1 = snd <$> dreference.digest ref2) ->
  BundleCreator.dstRef c src1 registry w = BundleCreator.dstRef c' src2 registry w.
Proof.
  intros H1 H2 Hp Ht Hd. rewrite !dstRef_cases, H1, H2.
  destruct (Registry.listener registry) as [addr|]; [|reflexivity].
  rewrite Hp. do 5 f_equal.
  unfold BundleCreator.dstTag. rewrite <- Ht.
  destruct (dreference.tag ref1) as [tg|]; [reflexivity|].
  specialize (Hd eq_refl).
  destruct (dreference.digest ref1) as [[a1 h1]|], (dreference.digest ref2) as [[a2 h2]|];
    cbn in Hd; congruence.
Qed.

Lemma dstRef_forgets_the_source_registry_witness :
  let registry := Registry.Mk "localhost:5001" "/data" "/tmp/0.registry" "CERT" "KEY"
                              (Some "127.0.0.1:5001") (Some "127.0.0.1:5001") in
  BundleCreator.dstRef Ex.creator "quay.io/team/app:1@sha256:e73ab4b33a9c3ff00c9f800a38d69853ca0c4dfa5a88e3df331f66df8f18ec55" registry Ex.bare
  = BundleCreator.dstRef Ex.creator "registry.example.com/team/app:1" registry Ex.bare /\
  outcome (BundleCreator.dstRef Ex.creator "registry.example.com/team/app:1" registry Ex.bare)
  = Ret "127.0.0.1:5001/team/app:1".
Proof.
  intros registry. split; [|reflexivity].
  eapply dstRef_forgets_the_source_registry; try reflexivity. discriminate.
Defined.

(** The reference of the last pair that carries the tag. *)
Fixpoint last_ref (tag : string) (pairs : list (string * string)) : option string :=
  match pairs with
  | [] => None
  | p :: rest =>
      match last_ref tag rest with
      | Some ref => Some ref
      | None => if String.eqb p.1 tag then Some p.2 else None
      end
  end.

Lemma foldl_insert_lookup (pairs : list (string * string)) (m0 : gmap string string) tag :
  foldl (fun images p => <[p.1 := p.2]> images) m0 pairs !! tag
  = match last_ref tag pairs with
    | Some ref => Some ref
    | None => m0 !! tag
    end.
Proof.
  revert m0. induction pairs as [|p rest IH]; intros m0; [reflexivity|].
  cbn [foldl last_ref]. rewrite IH.
  destruct (last_ref tag rest); [reflexivity|].
  destruct (String.eqb p.1 tag) eqn:Heq.
  - apply String.eqb_eq in Heq. rewrite Heq. apply lookup_insert_eq.
  - apply String.eqb_neq in Heq. apply lookup_insert_ne. exact Heq.
Qed.

Lemma foldl_insert_size (pairs : list (string * string)) (m0 : gmap string string) :
  size (foldl (fun images p => <[p.1 := p.2]> images) m0 pairs) <= size m0 + length pairs.
Proof.
  revert m0. induction pairs as [|p rest IH]; intros m0; cbn [foldl length]; [lia|].
  specialize (IH (<[p.1 := p.2]> m0)). rewrite map_size_insert in IH.
  destruct (m0 !! p.1); cbn in IH; lia.
Qed.

Lemma Sprintf_release repo digest :
  Sprintf "%s@%s" [AStr repo; AStr digest] = repo +:+ "@" +:+ digest.
Proof.
  change (repo +:+ "@" +:+ digest +:+ "" = repo +:+ "@" +:+ digest).
  rewrite append_empty_r. reflexivity.
Qed.

(** What [findImages] returns: the release repository pinned by the
    digest that release discovery answered, and a map that holds, for
    every tag, the reference of the last listed pair with that tag; the
    map has at most as many entries as pairs were listed. *)
Theorem findImages_keeps_the_last_reference_of_a_tag
        (E : Env) (c : BundleCreator.t) (w : World) (release : string)
        (images : gmap string string) :
  outcome (BundleCreator.findImages E c w) = Ret (release, images) ->
  let info := release_info E (release_query c) in
  release = BundleCreator.bundleCreatorReleaseRepo +:+ "@" +:+ info.1 /\
  (forall tag, images !! tag = last_ref tag info.2) /\
  size images <= length info.2.
Proof.
  intros H info. apply findImages_ret in H. injection H as -> ->.
  unfold release_ref, discovered. fold info. rewrite Sprintf_release.
  split; [reflexivity|]. split.
  - intros tag. rewrite foldl_insert_lookup, lookup_empty. destruct (last_ref tag info.2); reflexivity.
  - pose proof (foldl_insert_size info.2 ∅) as Hs. rewrite map_size_empty in Hs. exact Hs.
Qed.

Definition twice_listed : Env :=
  MkEnv (fun _ _ => false) "/home/core/.cache" (fun _ pattern => "/tmp/" +:+ pattern)
        (fun _ addr => addr) (fun _ _ => ("CERTIFICATE", "RSA PRIVATE KEY"))
        (fun _ => (Ex.release_digest, [("cli", "quay.io/team/cli:v1");
                                 ("etcd", "quay.io/team/etcd:v1");
                                 ("cli", "quay.io/team/cli:v2")]))
        (fun _ dir => "archive of " +:+ dir) "kind: Namespace" (fun _ => 0)
        Ex.marshal Ex.unmarshal.

Lemma findImages_keeps_the_last_reference_of_a_tag_witness :
  exists images,
    outcome (BundleCreator.findImages twice_listed Ex.creator Ex.bare)
    = Ret (Ex.release, images) /\
    images !! "cli" = Some "quay.io/team/cli:v2" /\ size images <= 3.
Proof.
  eexists. split; [vm_compute; reflexivity|].
  destruct (findImages_keeps_the_last_reference_of_a_tag twice_listed Ex.creator Ex.bare _ _
              eq_refl) as (_ & Hl & Hs).
  split; [rewrite Hl; reflexivity|exact Hs].
Defined.

(** Without the archive file, [writeDigest] fails when it opens it:
    nothing is written, the digest file is not created. *)
Theorem writeDigest_needs_the_archive (E : Env) (c : BundleCreator.t) (w : World) :
  fs w !! BundleCreator.bundleFile c = None ->
  is_raise (outcome (BundleCreator.writeDigest E c w)) /\
  fs (world (BundleCreator.writeDigest E c w)) = fs w /\
  events (BundleCreator.writeDigest E c w) = [EvOp (OsOpen (BundleCreator.bundleFile c)) false].
Proof.
  intros Hf. unfold BundleCreator.writeDigest.
  assert (He : exists e, os_Open E (BundleCreator.bundleFile c) w
                         = MkResult (Raise e) (tick w)
                                    [EvOp (OsOpen (BundleCreator.bundleFile c)) false]).
  { unfold os_Open, call. destruct (fails E (clock w) _); [eauto|]. rewrite Hf. eauto. }
  destruct He as [e He]. rewrite (seq_raise _ _ _ _ _ _ He). cbn [outcome world events].
  unfold is_raise. eauto.
Qed.

Lemma writeDigest_needs_the_archive_witness :
  is_raise (outcome (BundleCreator.writeDigest (Ex.env Ex.no_fault 0) Ex.creator Ex.bare)) /\
  fs (world (BundleCreator.writeDigest (Ex.env Ex.no_fault 0) Ex.creator Ex.bare))
     !! BundleCreator.digestFile Ex.creator = None.
Proof.
  destruct (writeDigest_needs_the_archive (Ex.env Ex.no_fault 0) Ex.creator Ex.bare)
    as (Ho & Hfs & _); [reflexivity|].
  split; [exact Ho|]. rewrite Hfs. reflexivity.
Defined.

(** ** The temporary certificates of a download *)

Section Certificates.
Context (E : Env).

Local Opaque filepath.Join Sprintf.









End Certificates.




(** ** How a creation ends *)

(** A procedure that never panics. *)
Definition calm {A} (m : M A) : Prop := forall w msg, outcome (m w) <> Panic msg.

(** A result of [Run] as its caller sees it: success, or the exit code 1
    right after an error message on the console; never a panic. *)
Definition announced {A} (r : Result A) : Prop :=
  match outcome r with
  | Ret _ => True
  | Raise e => e = exit_Error 1 /\
               exists pre format args, events r = pre ++ [EvConsole LError format args]
  | Panic _ => False
  end.

Section Calm.

Lemma calm_ret {A} (a : A) : calm (ret a).
Proof. intros w msg. discriminate. Qed.

Lemma calm_raise {A} e : calm (@raise A e).
Proof. intros w msg. discriminate. Qed.

Lemma calm_emit ev : calm (emit ev).
Proof. intros w msg. discriminate. Qed.

Lemma calm_call {A} E o (f : World -> error + A * World) : calm (call E o f).
Proof.
  intros w msg. unfold call. destruct (fails E (clock w) o); [discriminate|].
  destruct (f w) as [e|[a w']]; discriminate.
Qed.

Lemma calm_bind {A B} (m : M A) (f : A -> M B) :
  calm m -> (forall a, calm (f a)) -> calm (bind m f).
Proof.
  intros Hm Hf w msg. unfold bind. destruct (outcome (m w)) as [a|e|msg'] eqn:Ho; cbn.
  - apply Hf.
  - discriminate.
  - exfalso. exact (Hm w msg' Ho).
Qed.

Lemma calm_on_error {A} (m : M A) (h : error -> M A) :
  calm m -> (forall e, calm (h e)) -> calm (on_error m h).
Proof.
  intros Hm Hh w msg. unfold on_error. destruct (outcome (m w)) as [a|e|msg'] eqn:Ho; cbn.
  - rewrite Ho. discriminate.
  - apply Hh.
  - exfalso. exact (Hm w msg' Ho).
Qed.

Lemma calm_defer {A} (d : M unit) (m : M A) : calm m -> calm (defer d m).
Proof. intros Hm w msg. unfold defer. cbn. apply Hm. Qed.

End Calm.

Ltac calm_auto :=
  repeat first
    [ apply calm_ret | apply calm_raise | apply calm_emit | apply calm_call
    | apply calm_bind; [|intros ?]
    | apply calm_on_error; [|intros ?]
    | apply calm_defer
    | match goal with
      | |- calm (match ?x with _ => _ end) => destruct x
      | |- calm (if ?b then _ else _) => destruct b
      end ].

Lemma announced_bind {A B} (m : M A) (f : A -> M B) w :
  announced (m w) ->
  (forall a, outcome (m w) = Ret a -> announced (f a (world (m w)))) ->
  announced (bind m f w).
Proof.
  intros Hm Hf. unfold announced in *. destruct (outcome (m w)) as [a|e|msg] eqn:Ho.
  - rewrite (bind_ret_step _ _ _ _ Ho). cbn [outcome events].
    specialize (Hf a eq_refl). destruct (outcome (f a (world (m w)))) as [b|e|msg]; auto.
    destruct Hf as (-> & pre & format & args & ->). split; [reflexivity|].
    exists (events (m w) ++ pre), format, args. rewrite app_assoc. reflexivity.
  - rewrite (bind_raise_step _ _ _ _ Ho). exact Hm.
  - destruct Hm.
Qed.

Lemma announced_quiet {A B} (m : M A) (f : A -> M B) w :
  (exists a, outcome (m w) = Ret a) ->
  (forall a, outcome (m w) = Ret a -> announced (f a (world (m w)))) ->
  announced (bind m f w).
Proof.
  intros [a Ha] Hf. apply announced_bind; [|exact Hf]. unfold announced. rewrite Ha. exact I.
Qed.

Lemma announced_handler {A} (m : M A) (before : M unit) format args w :
  (forall msg, outcome (m w) <> Panic msg) ->
  (forall w', exists evs, before w' = MkResult (Ret tt) w' evs) ->
  announced (on_error m (fun err => before ;;; console_Error format (args err) ;;;
                                    raise (exit_Error 1)) w).
Proof.
  intros Hm Hb. unfold announced. destruct (outcome (m w)) as [a|e|msg] eqn:Ho.
  - rewrite (on_error_ret_step _ _ _ _ Ho), Ho. exact I.
  - rewrite (on_error_raise_step _ _ _ _ Ho). cbn [outcome events].
    destruct (Hb (world (m w))) as (evs & Hbefore).
    unfold bind. rewrite Hbefore. cbn. split; [reflexivity|].
    exists (events (m w) ++ evs), format, (args e). rewrite <- app_assoc. reflexivity.
  - exfalso. exact (Hm msg eq_refl).
Qed.

Lemma or_exit_announced {A} (m : M A) format args w :
  (forall msg, outcome (m w) <> Panic msg) ->
  announced (BundleCreator.or_exit m format args w).
Proof.
  intros Hm. unfold announced, BundleCreator.or_exit.
  destruct (outcome (m w)) as [a|e|msg] eqn:Ho.
  - rewrite (on_error_ret_step _ _ _ _ Ho), Ho. exact I.
  - rewrite (on_error_raise_step _ _ _ _ Ho). cbn. split; [reflexivity|].
    exists (events (m w)), format, (args ++ [AErr e]). reflexivity.
  - exfalso. exact (Hm msg eq_refl).
Qed.

Section CreatorEnds.
Context (E : Env).

Local Opaque filepath.Join Sprintf.

Lemma exec_Run_calm msg args effect : calm (exec_Run E msg args effect).
Proof. unfold exec_Run, logger_Info. calm_auto. Qed.

Lemma downloadImage_calm c certs src dst : calm (BundleCreator.downloadImage E c certs src dst).
Proof.
  unfold BundleCreator.downloadImage, exec_LookPath.
  apply calm_bind; [apply calm_call|intros _]. apply exec_Run_calm.
Qed.

Lemma dstRef_calm c src registry a :
  Registry.listener registry = Some a -> calm (BundleCreator.dstRef c src registry).
Proof.
  intros Hl w msg. rewrite dstRef_cases, Hl.
  destruct (dreference.ParseNamed src); discriminate.
Qed.

Lemma downloadImages_calm c registry release images a :
  Registry.listener registry = Some a ->
  calm (BundleCreator.downloadImages E c registry release images).
Proof.
  intros Hl. unfold BundleCreator.downloadImages.
  apply calm_bind; [unfold os_MkdirTemp; apply calm_call|intros certs].
  apply calm_defer.
  apply calm_bind; [unfold os_WriteFile; apply calm_call|intros _].
  apply calm_bind; [apply (dstRef_calm _ _ _ a Hl)|intros dst].
  apply calm_bind; [apply calm_emit|intros _].
  apply calm_bind; [apply downloadImage_calm|intros _].
  apply calm_bind; [intros w msg; discriminate|intros tags].
  generalize 0 (length (slices_Sort tags)).
  induction (slices_Sort tags) as [|tag rest IH]; intros i n;
    cbn [BundleCreator.downloadPayload].
  - apply calm_ret.
  - apply calm_bind; [apply calm_emit|intros _].
    apply calm_bind; [apply (dstRef_calm _ _ _ a Hl)|intros dst'].
    apply calm_bind; [apply downloadImage_calm|intros _]. apply IH.
Qed.

Lemma Registry_Build_calm b : calm (Registry.Build E b).
Proof. unfold Registry.Build, Registry.makeSelfSignedCert, os_MkdirTemp. calm_auto. Qed.

Lemma Registry_Start_calm r : calm (Registry.Start E r).
Proof. unfold Registry.Start, os_WriteFile, Registry.net_Listen. calm_auto. Qed.

Lemma createRegistry_calm c dir : calm (BundleCreator.createRegistry E c dir).
Proof.
  unfold BundleCreator.createRegistry.
  apply calm_bind; [apply Registry_Build_calm|intros registry].
  apply calm_bind; [apply Registry_Start_calm|intros started]. calm_auto.
Qed.

(** A registry the creator got started listens and serves. *)
Lemma createRegistry_ret c dir w registry :
  outcome (BundleCreator.createRegistry E c dir w) = Ret registry ->
  exists a, Registry.listener registry = Some a /\ Registry.server registry = Some a.
Proof.
  unfold BundleCreator.createRegistry. intros H.
  apply bind_inv_ret in H as (r0 & _ & H & _).
  apply bind_inv_ret in H as ([r1 [e|]] & Hs & H & _); cbn [fst snd] in H; [discriminate|].
  apply Start_ok in Hs as (_ & -> & _). cbn in H. injection H as <-. eauto.
Qed.

Lemma Stop_calm r a : Registry.server r = Some a -> calm (Registry.Stop E r).
Proof.
  intros Hs. unfold Registry.Stop, Registry.server_Shutdown, os_RemoveAll. rewrite Hs.
  calm_auto.
Qed.

Lemma findImages_calm c : calm (BundleCreator.findImages E c).
Proof.
  unfold BundleCreator.findImages, exec_LookPath, BundleCreator.jq_QueryBytes.
  apply calm_bind; [apply calm_call|intros _].
  apply calm_bind; [apply exec_Run_calm|intros _]. calm_auto.
Qed.

Lemma writeDigest_calm c : calm (BundleCreator.writeDigest E c).
Proof.
  unfold BundleCreator.writeDigest, os_Open, io_Copy, os_OpenFile, fmt_Fprintf.
  calm_auto.
Qed.

Lemma creator_Run_announced c w : announced (BundleCreator.Run E c w).
Proof.
  unfold BundleCreator.Run.
  apply announced_bind;
    [apply or_exit_announced; unfold os_UserCacheDir; apply calm_call|intros cacheDir _].
  apply announced_bind;
    [apply or_exit_announced; unfold BundleCreator.createDir, os_MkdirAll; calm_auto|intros _ _].
  apply announced_quiet; [eexists; reflexivity|intros _ _].
  apply announced_bind; [apply or_exit_announced, findImages_calm|intros found _].
  apply announced_quiet; [eexists; reflexivity|intros _ _].
  apply announced_quiet; [eexists; reflexivity|intros _ _].
  apply announced_bind; [apply or_exit_announced, createRegistry_calm|intros registry Hreg].
  apply or_exit_inv_ret in Hreg as (Hreg & _).
  apply createRegistry_ret in Hreg as (a & Hl & Hs).
  apply announced_bind; [|intros _ _].
  { apply (announced_handler _
             (console_Info "registry：%s，release: %s, img: %s" [AOther; AStr found.1; AOther])
             "Failed to download images: %v" (fun err => [AErr err])).
    - intros msg. apply (downloadImages_calm _ _ _ _ a Hl).
    - intros w'. eexists. reflexivity. }
  apply announced_quiet; [eexists; reflexivity|intros _ _].
  apply announced_bind; [apply or_exit_announced; intros msg; apply (Stop_calm _ a Hs)|intros _ _].
  apply announced_quiet; [eexists; reflexivity|intros _ _].
  apply announced_quiet; [eexists; reflexivity|intros values _].
  apply announced_bind;
    [apply or_exit_announced; unfold BundleCreator.writeMetadata, os_WriteFile; calm_auto
    |intros _ _].
  apply announced_quiet; [eexists; reflexivity|intros _ _].
  apply announced_bind;
    [apply or_exit_announced; unfold BundleCreator.writeBundle, exec_LookPath;
     apply calm_bind; [apply calm_call|intros _; apply exec_Run_calm]
    |intros _ _].
  apply announced_quiet; [eexists; reflexivity|intros _ _].
  apply announced_bind; [apply or_exit_announced, writeDigest_calm|intros _ _].
  apply announced_quiet; [eexists; reflexivity|intros _ _].
  apply or_exit_announced.
  unfold BundleCreator.writeManifest, BundleCreator.TemplatesFS_ReadFile, os_WriteFile.
  calm_auto.
Qed.

End CreatorEnds.

(** A creation never panics, and when it fails the error is the exit
    code 1 and the last thing written to the console is an error
    message. *)
Theorem creator_fails_with_exit_code_1 (E : Env) (c : BundleCreator.t) (w : World) :
  match outcome (BundleCreator.Run E c w) with
  | Ret _ => True
  | Raise e =>
      e = exit_Error 1 /\
      exists pre format args,
        events (BundleCreator.Run E c w) = pre ++ [EvConsole LError format args]
  | Panic _ => False
  end.
Proof. apply creator_Run_announced. Qed.

(** ** What a creation leaves *)

Section CreatorOutputs.
Context (E : Env).

Local Opaque hex.EncodeToString sha256.Sum_string filepath.Base filepath.Join Sprintf.

Lemma creator_Run_outputs c w :
  outcome (BundleCreator.Run E c w) = Ret tt ->
  exists images before,
    images ≡ₚ (map_to_list (discovered E c)).*2 /\
    before !! creator_metadata_file E c
    = Some (File (json_Marshal E (MkMetadata (BundleCreator.version c) (BundleCreator.arch c)
                                             (release_ref E c) images))) /\
    fs (world (BundleCreator.Run E c w)) !! BundleCreator.bundleFile c
    = Some (File (archive_bytes E before (creator_dir E c))) /\
    fs (world (BundleCreator.Run E c w)) !! BundleCreator.manifestFile c
    = Some (File (manifest_template E)).
Proof.
  unfold creator_metadata_file, creator_dir.
  unfold BundleCreator.Run. intros H.
  peel H cacheDir Hcache.
  apply or_exit_inv_ret in Hcache as (Hcache & _).
  unfold os_UserCacheDir in Hcache. apply call_inv_ret in Hcache as (w0 & _ & Heq & _).
  injection Heq as <- _.
  do 2 skip_step H.
  peel H found Hfound.
  apply or_exit_inv_ret in Hfound as (Hfound & _). apply findImages_ret in Hfound. subst found.
  cbn [fst snd] in H |- *.
  do 7 skip_step H.
  peel H values Hvalues.
  apply maps_Values_ret in Hvalues.
  assert (Hperm : values ≡ₚ (map_to_list (discovered E c)).*2).
  { rewrite Hvalues. apply fmap_Permutation, permute_Permutation. }
  clear Hvalues. exists values.
  peel H ipattern:([]) Hmeta.
  apply or_exit_inv_ret in Hmeta as (Hmeta & Hw). rewrite Hw in *. clear Hw.
  apply writeMetadata_ret in Hmeta.
  skip_step H.
  peel H ipattern:([]) Hbundle.
  apply or_exit_inv_ret in Hbundle as (Hbundle & Hw). rewrite Hw in *. clear Hw.
  apply writeBundle_ret in Hbundle.
  skip_step H.
  peel H ipattern:([]) Hdigest.
  apply or_exit_inv_ret in Hdigest as (Hdigest & Hw). rewrite Hw in *. clear Hw.
  apply writeDigest_ret in Hdigest as (archive & _ & Hfs).
  skip_step H.
  apply or_exit_inv_ret in H as (H & Hw). rewrite Hw. clear Hw.
  apply writeManifest_ret in H. rewrite H. clear H.
  rewrite lookup_insert_eq.
  rewrite lookup_insert_ne by (apply not_eq_sym, bundle_manifest_distinct).
  change (world (console_Info ?f ?a (world (BundleCreator.writeDigest E c ?x))))
    with (world (BundleCreator.writeDigest E c x)).
  rewrite Hfs. clear Hfs.
  rewrite lookup_insert_ne by (apply not_eq_sym, bundle_digest_distinct).
  change (world (console_Info ?f ?a (world (BundleCreator.writeBundle E c ?d ?x))))
    with (world (BundleCreator.writeBundle E c d x)).
  rewrite Hbundle. clear Hbundle.
  rewrite lookup_insert_eq.
  change (world (console_Info ?f ?a (world (BundleCreator.writeMetadata E c ?m ?d ?x))))
    with (world (BundleCreator.writeMetadata E c m d x)).
  eexists. split; [exact Hperm|]. split; [|split; reflexivity].
  rewrite Hmeta. apply lookup_insert_eq.
Qed.

End CreatorOutputs.

(** After a successful creation the archive file holds what [tar] made
    of the bundle directory at a moment when its [metadata.json] held the
    encoding of the metadata (with the source references of the discovered
    pairs as images), and the manifest file holds the template,
    verbatim. *)
Theorem creator_archives_the_metadata (E : Env) (c : BundleCreator.t) (w : World) :
  outcome (BundleCreator.Run E c w) = Ret tt ->
  exists images before,
    images ≡ₚ (map_to_list (discovered E c)).*2 /\
    before !! creator_metadata_file E c
    = Some (File (json_Marshal E (MkMetadata (BundleCreator.version c) (BundleCreator.arch c)
                                             (release_ref E c) images))) /\
    fs (world (BundleCreator.Run E c w)) !! BundleCreator.bundleFile c
    = Some (File (archive_bytes E before (creator_dir E c))) /\
    fs (world (BundleCreator.Run E c w)) !! BundleCreator.manifestFile c
    = Some (File (manifest_template E)).
Proof. apply creator_Run_outputs. Qed.

Lemma creator_archives_the_metadata_witness :
  let r := BundleCreator.Run (Ex.env Ex.no_fault 0) Ex.creator Ex.workstation in
  outcome r = Ret tt /\
  fs (world r) !! "/out/upgrade-4.13.4-x86_64.yaml" = Some (File "kind: Namespace") /\
  fs (world r) !! "/out/upgrade-4.13.4-x86_64.tar"
  = Some (File "archive of /home/core/.cache/upgrade-tool/4.13.4-x86_64").
Proof.
  intros r. assert (Hr : outcome r = Ret tt) by (vm_compute; reflexivity).
  split; [exact Hr|].
  destruct (creator_archives_the_metadata _ _ _ Hr) as (images & before & _ & _ & _ & Hm).
  split; [exact Hm|]. vm_compute. reflexivity.
Defined.

(** ** The builders *)



(** [BundleCleanerBuilder.Build] makes the logger, the client, the node name
    and the bundle directory mandatory, and nothing else: a cleaner that was
    built has the node, the root directory and the bundle directory of the
    builder, a node name and a bundle directory that are not empty, and
    the builder had a logger and a client; a builder with these four is
    refused only when the CRI-O tool cannot be made, with that failure
    wrapped; the root directory may be empty. *)
Theorem cleaner_Build_validates (crioTool : option error) (b : BundleCleanerBuilder.t) :
  (forall c, BundleCleanerBuilder.Build crioTool b = inr c ->
             BundleCleanerBuilder.logger b = true /\ BundleCleanerBuilder.client b = true /\ crioTool = None /\
             c = BundleCleaner.Mk (BundleCleanerBuilder.node b) (BundleCleanerBuilder.rootDir b) (BundleCleanerBuilder.bundleDir b) /\
             BundleCleaner.node c <> "" /\ BundleCleaner.bundleDir c <> "") /\
  (BundleCleanerBuilder.logger b = true -> BundleCleanerBuilder.client b = true ->
   BundleCleanerBuilder.node b <> "" -> BundleCleanerBuilder.bundleDir b <> "" ->
   BundleCleanerBuilder.Build crioTool b
   = match crioTool with
     | Some err => inl (EMsg "failed to create CRI-O tool: <error>")
     | None => inr (BundleCleaner.Mk (BundleCleanerBuilder.node b) (BundleCleanerBuilder.rootDir b) (BundleCleanerBuilder.bundleDir b))
     end).
Proof.
  unfold BundleCleanerBuilder.Build. split.
  - intros c.
    destruct (BundleCleanerBuilder.logger b); [|discriminate].
    destruct (BundleCleanerBuilder.client b); [|discriminate]. cbn.
    destruct (String.eqb (BundleCleanerBuilder.node b) "") eqn:Hn; [discriminate|].
    destruct (String.eqb (BundleCleanerBuilder.bundleDir b) "") eqn:Hd; [discriminate|].
    destruct crioTool; [discriminate|]. intros [= <-].
    apply String.eqb_neq in Hn, Hd. cbn. repeat split; assumption.
  - intros -> -> Hn Hd. apply String.eqb_neq in Hn, Hd.
    cbn. rewrite Hn, Hd. destruct crioTool; reflexivity.
Qed.

Lemma cleaner_Build_validates_witness :
  BundleCleanerBuilder.Build None
    (BundleCleanerBuilder.SetBundleDir "/var/lib/upgrade"
       (BundleCleanerBuilder.SetNode "node1"
          (BundleCleanerBuilder.SetClient true (BundleCleanerBuilder.SetLogger true BundleCleanerBuilder.New))))
  = inr Ex.cleaner /\
  BundleCleanerBuilder.Build (Some (EMsg "no such tool"))
    (BundleCleanerBuilder.SetBundleDir "/var/lib/upgrade"
       (BundleCleanerBuilder.SetNode "node1"
          (BundleCleanerBuilder.SetClient true (BundleCleanerBuilder.SetLogger true BundleCleanerBuilder.New))))
  = inl (EMsg "failed to create CRI-O tool: <error>").
Proof.
  pose (b := BundleCleanerBuilder.SetBundleDir "/var/lib/upgrade"
               (BundleCleanerBuilder.SetNode "node1" (BundleCleanerBuilder.SetClient true (BundleCleanerBuilder.SetLogger true BundleCleanerBuilder.New)))).
  assert (Hn : BundleCleanerBuilder.node b <> "") by (cbv; discriminate).
  assert (Hd : BundleCleanerBuilder.bundleDir b <> "") by (cbv; discriminate).
  split.
  - exact (proj2 (cleaner_Build_validates None b) eq_refl eq_refl Hn Hd).
  - exact (proj2 (cleaner_Build_validates (Some (EMsg "no such tool")) b) eq_refl eq_refl Hn Hd).
Defined.

(** A creator that [BundleCreatorBuilder.Build] returned has a version, an
    architecture, an output directory and a pull secret, those of the
    builder, and the builder had a logger and a console; and a builder
    with all six, whose [jq] tool can be made, is not refused. *)
Theorem creator_Build_validates (jqTool : option error) (b : BundleCreatorBuilder.t) :
  (forall c, BundleCreatorBuilder.Build jqTool b = inr c ->
             BundleCreatorBuilder.logger b = true /\ BundleCreatorBuilder.console b = true /\
             jqTool = None /\
             c = BundleCreator.Mk (BundleCreatorBuilder.version b) (BundleCreatorBuilder.arch b)
                                  (BundleCreatorBuilder.outputDir b)
                                  (BundleCreatorBuilder.pullSecret b) /\
             BundleCreator.version c <> "" /\ BundleCreator.arch c <> "" /\
             BundleCreator.outputDir c <> "" /\ BundleCreator.pullSecret c <> "") /\
  (BundleCreatorBuilder.logger b = true -> BundleCreatorBuilder.console b = true ->
   BundleCreatorBuilder.version b <> "" -> BundleCreatorBuilder.arch b <> "" ->
   BundleCreatorBuilder.outputDir b <> "" -> BundleCreatorBuilder.pullSecret b <> "" ->
   BundleCreatorBuilder.Build jqTool b
   = match jqTool with
     | Some err => inl err
     | None => inr (BundleCreator.Mk (BundleCreatorBuilder.version b)
                                     (BundleCreatorBuilder.arch b)
                                     (BundleCreatorBuilder.outputDir b)
                                     (BundleCreatorBuilder.pullSecret b))
     end).
Proof.
  unfold BundleCreatorBuilder.Build. split.
  - intros c.
    destruct (BundleCreatorBuilder.logger b); [|discriminate].
    destruct (BundleCreatorBuilder.console b); [|discriminate]. cbn.
    destruct (String.eqb (BundleCreatorBuilder.version b) "") eqn:H1; [discriminate|].
    destruct (String.eqb (BundleCreatorBuilder.arch b) "") eqn:H2; [discriminate|].
    destruct (String.eqb (BundleCreatorBuilder.outputDir b) "") eqn:H3; [discriminate|].
    destruct (String.eqb (BundleCreatorBuilder.pullSecret b) "") eqn:H4; [discriminate|].
    destruct jqTool; [discriminate|]. intros [= <-].
    apply String.eqb_neq in H1, H2, H3, H4. cbn. repeat split; assumption.
  - intros -> -> H1 H2 H3 H4. apply String.eqb_neq in H1, H2, H3, H4.
    cbn. rewrite H1, H2, H3, H4. reflexivity.
Qed.

Lemma creator_Build_validates_witness :
  BundleCreatorBuilder.Build None
    (BundleCreatorBuilder.SetOutputDir "/out"
       (BundleCreatorBuilder.SetPullSecret "/pull-secret.json"
          (BundleCreatorBuilder.SetArch "x86_64"
             (BundleCreatorBuilder.SetVersion "4.13.4"
                (BundleCreatorBuilder.SetConsole true
                   (BundleCreatorBuilder.SetLogger true BundleCreatorBuilder.New))))))
  = inr Ex.creator.
Proof.
  pose (b := BundleCreatorBuilder.SetOutputDir "/out"
               (BundleCreatorBuilder.SetPullSecret "/pull-secret.json"
                  (BundleCreatorBuilder.SetArch "x86_64"
                     (BundleCreatorBuilder.SetVersion "4.13.4"
                        (BundleCreatorBuilder.SetConsole true
                           (BundleCreatorBuilder.SetLogger true BundleCreatorBuilder.New)))))).
  exact (proj2 (creator_Build_validates None b) eq_refl eq_refl
               ltac:(cbv; discriminate) ltac:(cbv; discriminate)
               ltac:(cbv; discriminate) ltac:(cbv; discriminate)).
Defined.

(** ** The command [create bundle] *)

(** The console errors for the flags that are missing, in the order of
    the checks. *)
Definition missing_flags (c : createBundleCommand.flags) : list Event :=
  (if String.eqb (createBundleCommand.version c) ""
   then [EvConsole LError "Version is mandatory" []] else []) ++
  (if String.eqb (createBundleCommand.arch c) ""
   then [EvConsole LError "Architecture is mandatory" []] else []) ++
  (if String.eqb (createBundleCommand.outputDir c) ""
   then [EvConsole LError "Output directory is mandatory" []] else []) ++
  (if String.eqb (createBundleCommand.pullSecret c) ""
   then [EvConsole LError "Pull secret is mandatory" []] else []).

Definition creator_of (c : createBundleCommand.flags) : BundleCreator.t :=
  BundleCreator.Mk (createBundleCommand.version c) (createBundleCommand.arch c)
                   (createBundleCommand.outputDir c) (createBundleCommand.pullSecret c).

Lemma run_cases (E : Env) (jqTool : option error) (c : createBundleCommand.flags) (w : World) :
  createBundleCommand.run E jqTool c w
  = match missing_flags c with
    | _ :: _ => MkResult (Raise (exit_Error 1)) w (missing_flags c)
    | [] =>
        match jqTool with
        | Some _ => MkResult (Raise (exit_Error 1)) w [EvLog LError "Failed to create creator"]
        | None =>
            on_error (BundleCreator.Run E (creator_of c))
                     (fun err => logger_Error "Failed to run creator" ;;; raise (exit_Error 1)) w
        end
    end.
Proof.
  unfold createBundleCommand.run, createBundleCommand.check, missing_flags, creator_of,
    BundleCreatorBuilder.Build.
  destruct c as [v a o p]. cbn [createBundleCommand.version createBundleCommand.arch
                                createBundleCommand.outputDir createBundleCommand.pullSecret
                                BundleCreatorBuilder.SetOutputDir BundleCreatorBuilder.SetPullSecret
                                BundleCreatorBuilder.SetArch BundleCreatorBuilder.SetVersion
                                BundleCreatorBuilder.SetConsole BundleCreatorBuilder.SetLogger
                                BundleCreatorBuilder.New BundleCreatorBuilder.logger
                                BundleCreatorBuilder.console BundleCreatorBuilder.version
                                BundleCreatorBuilder.arch BundleCreatorBuilder.outputDir
                                BundleCreatorBuilder.pullSecret negb].
  destruct (String.eqb v ""), (String.eqb a ""), (String.eqb o ""), (String.eqb p "");
    try reflexivity.
  destruct jqTool; [reflexivity|].
  match goal with
  | |- _ = ?r => transitivity (MkResult (outcome r) (world r) (events r));
                 [reflexivity|destruct r; reflexivity]
  end.
Qed.

(** The command reports every missing flag, and then stops: with a flag
    missing, the run is the console errors for the missing flags, in the
    order version, architecture, output directory, pull secret, and the
    exit code 1; the world is untouched (the creator is not built, no call
    is made). *)
Theorem create_command_reports_missing_flags
        (E : Env) (jqTool : option error) (c : createBundleCommand.flags) (w : World) :
  missing_flags c <> [] ->
  createBundleCommand.run E jqTool c w = MkResult (Raise (exit_Error 1)) w (missing_flags c).
Proof.
  intros H. rewrite run_cases. destruct (missing_flags c); [contradiction|reflexivity].
Qed.

Lemma create_command_reports_missing_flags_witness :
  createBundleCommand.run (Ex.env Ex.no_fault 0) None
    (createBundleCommand.MkFlags "4.13.4" "" "/out" "") Ex.workstation
  = MkResult (Raise (exit_Error 1)) Ex.workstation
             [EvConsole LError "Architecture is mandatory" [];
              EvConsole LError "Pull secret is mandatory" []].
Proof.
  apply (create_command_reports_missing_flags (Ex.env Ex.no_fault 0) None
           (createBundleCommand.MkFlags "4.13.4" "" "/out" "") Ex.workstation).
  discriminate.
Defined.

(** With all flags given, the command is the run of the creator made of
    them: it succeeds exactly when that run does, in the same world and
    with the same events; any failure, of the construction or of the run,
    becomes the exit code 1, after a line in the log. *)
Theorem create_command_runs_the_creator
        (E : Env) (jqTool : option error) (c : createBundleCommand.flags) (w : World) :
  missing_flags c = [] ->
  match jqTool with
  | Some _ =>
      createBundleCommand.run E jqTool c w
      = MkResult (Raise (exit_Error 1)) w [EvLog LError "Failed to create creator"]
  | None =>
      let r := BundleCreator.Run E (creator_of c) w in
      match outcome r with
      | Ret _ => createBundleCommand.run E jqTool c w = r
      | Raise _ =>
          createBundleCommand.run E jqTool c w
          = MkResult (Raise (exit_Error 1)) (world r)
                     (events r ++ [EvLog LError "Failed to run creator"])
      | Panic _ => createBundleCommand.run E jqTool c w = r
      end
  end.
Proof.
  intros H. rewrite run_cases, H. destruct jqTool; [reflexivity|].
  cbv zeta. unfold on_error.
  destruct (outcome (BundleCreator.Run E (creator_of c) w)); reflexivity.
Qed.

Lemma create_command_runs_the_creator_witness :
  let c := createBundleCommand.MkFlags "4.13.4" "x86_64" "/out" "/pull-secret.json" in
  createBundleCommand.run (Ex.env Ex.no_fault 0) None c Ex.workstation
  = BundleCreator.Run (Ex.env Ex.no_fault 0) Ex.creator Ex.workstation /\
  outcome (createBundleCommand.run (Ex.env Ex.no_fault 0) None c Ex.workstation) = Ret tt.
Proof.
  intros c.
  pose proof (create_command_runs_the_creator (Ex.env Ex.no_fault 0) None c Ex.workstation
                eq_refl) as H.
  cbv zeta in H.
  assert (Hr : outcome (BundleCreator.Run (Ex.env Ex.no_fault 0) (creator_of c) Ex.workstation)
               = Ret tt) by (vm_compute; reflexivity).
  rewrite Hr in H. split; [exact H|]. rewrite H. exact Hr.
Defined.

(** ** The log hook of the registry *)



(** ** The small steps of the creator and of the loader *)



(** [readMetadata] by cases, when the environment does not fail the read:
    a missing file and a directory in its place are errors; a document that
    does not decode is an error; the document [null] decodes to a nil
    pointer, and the log line that follows dereferences it: the loader
    panics; any other document is the metadata returned.  Nothing in the
    world changes. *)
Theorem readMetadata_cases (E : Env) (l : BundleLoader.t) (w : World) :
  fails E (clock w) (OsReadFile (metadata_file l)) = false ->
  let r := BundleLoader.readMetadata E l w in
  same_state w (world r) /\
  match fs w !! metadata_file l with
  | None => outcome r = Raise (ENotExist (metadata_file l))
  | Some Dir => outcome r = Raise (EIsDir (metadata_file l))
  | Some (File data) =>
      match json_Unmarshal E data with
      | JInvalid => outcome r = Raise (EJson (metadata_file l))
      | JNull => outcome r = Panic "invalid memory address or nil pointer dereference"
      | JValue m => outcome r = Ret m
      end
  end.
Proof.
  unfold BundleLoader.readMetadata, BundleLoader.json_decode, os_ReadFile.
  fold (metadata_file l). generalize (metadata_file l) as file. intros file Hf. cbv zeta.
  unfold bind, call. cbv beta. rewrite Hf.
  destruct (fs w !! file) as [[|data]|]; cbn.
  - split; [unfold same_state; cbn; repeat split; reflexivity|reflexivity].
  - destruct (json_Unmarshal E data); cbn;
      (split; [unfold same_state; cbn; repeat split; reflexivity|reflexivity]).
  - split; [unfold same_state; cbn; repeat split; reflexivity|reflexivity].
Qed.

Lemma readMetadata_cases_witness :
  let E := Ex.env Ex.no_fault 0 in
  let null := MkWorld {["/var/lib/upgrade/metadata.json" := File "null"]} None None [] ∅ [] 0 in
  outcome (BundleLoader.readMetadata E Ex.loader Ex.extracted) = Ret Ex.metadata /\
  outcome (BundleLoader.readMetadata E Ex.loader null)
  = Panic "invalid memory address or nil pointer dereference" /\
  outcome (BundleLoader.readMetadata E Ex.loader Ex.bare)
  = Raise (ENotExist "/var/lib/upgrade/metadata.json").
Proof.
  intros E null.
  destruct (readMetadata_cases E Ex.loader Ex.extracted eq_refl) as [_ H1].
  destruct (readMetadata_cases E Ex.loader null eq_refl) as [_ H2].
  destruct (readMetadata_cases E Ex.loader Ex.bare eq_refl) as [_ H3].
  split; [exact H1|]. split; [exact H2|exact H3].
Defined.

(** The archive, the digest file and the manifest of a creation are three
    different files, whatever the output directory, the version and the
    architecture are, and none of them is the [metadata.json] of the
    bundle directory: no step of a creation overwrites what another
    wrote. *)
Theorem creator_output_files (E : Env) (c : BundleCreator.t) :
  NoDup [BundleCreator.bundleFile c; BundleCreator.digestFile c; BundleCreator.manifestFile c;
         creator_metadata_file E c].
Proof.
  destruct (metadata_file_not_output E c) as (H1 & H2 & H3).
  pose proof (bundle_digest_distinct c). pose proof (bundle_manifest_distinct c).
  pose proof (digest_manifest_distinct c).
  repeat (apply NoDup_cons_2;
          [rewrite ?not_elem_of_cons; repeat split;
           first [congruence|apply not_elem_of_nil]|]).
  apply NoDup_nil_2.
Qed.
